(** * RH-ISAC intel-integrations: a shallow embedding of the IOC scripts

    The scripts under [src/] are Python batch jobs that shuffle lists of
    dictionaries between a threat-intelligence feed and a destination.
    This development embeds the functions the specification talks about:

    - [Py]: the fragment of Python the scripts rely on (dynamically typed
      values, insertion-ordered dictionaries, exceptions, [print]);
    - [Trustar13]: [trustar/v1.3/generic/get_trustar_iocs.py];
    - [Trustar2Csv]: [trustar/generic/get_24h_trustar2_iocs_csv.py];
    - [MispCsv]: [misp/generic/get_24h_misp_vetted_iocs_csv.py];
    - [Trustar2Splunk]: [trustar/splunk/trustar2_iocs_to_splunk.py];
    - [MispSplunk]: [misp/splunk/misp_iocs_to_splunk.py];
    - [MispCrowdstrike]: [misp/crowdstrike/misp_iocs_crowdstrike_falcon.py];
    - [Splunk]: the delivery to Splunk shared by the two Splunk scripts;
    - [Trustar2SplunkScript], [MispSplunkScript], [Trustar2CsvScript]:
      the scripts as they run from the command line.

    The services the scripts talk to (TruSTAR, MISP, Falcon, Splunk) are
    taken as given: a service is a function from requests to answers
    (for Splunk, to an answer or a failed connection).  A run of a
    function is the list of what it printed, requested and wrote, with
    its result or the exception that ended it.

    Definitions come first, the theorems about them follow. *)

From Stdlib Require Import String Ascii List ZArith Lia Bool Arith.
From Stdlib Require Import Sorting.Sorted.
From Stdlib Require Import Floats.SpecFloat.
Import ListNotations.

Local Open Scope string_scope.
Local Open Scope Z_scope.
Local Open Scope list_scope.

(* ================================================================== *)
(** * The Python fragment *)
(* ================================================================== *)

Module Py.

(** Exceptions the scripts can meet. [SystemExit] carries the status
    that [sys.exit] hands to the operating system. *)
Inductive exn : Type :=
| KeyError
| TypeError
| AttributeError
| IndexError
| ValueError
| AssertionError
| OverflowError
| SystemExit (status : Z).

Inductive result (A : Type) : Type :=
| Ok (a : A)
| Raise (e : exn).

Arguments Ok {A} a.
Arguments Raise {A} e.

Definition bind {A B : Type} (m : result A) (k : A -> result B) : result B :=
  match m with
  | Ok a => k a
  | Raise e => Raise e
  end.

Notation "x <- m ;; k" := (bind m (fun x => k))
  (at level 61, m at next level, right associativity).

Fixpoint mapM {A B : Type} (f : A -> result B) (l : list A) : result (list B) :=
  match l with
  | [] => Ok []
  | x :: r => y <- f x ;; ys <- mapM f r ;; Ok (y :: ys)
  end.

(** ** Strings

    Python's [str] is modelled by [string]: a sequence of 8-bit
    characters.  The indicator values, type names and tag names the
    scripts handle are ASCII text. *)

Fixpoint drop (n : nat) (s : string) : string :=
  match n, s with
  | O, _ => s
  | S n', String _ s' => drop n' s'
  | S _, EmptyString => EmptyString
  end.

(** [s.split(sep, 1)] when [sep] occurs in [s]: the text before the first
    occurrence and the text after it. *)
Fixpoint split1 (sep s : string) : option (string * string) :=
  if String.prefix sep s then Some (EmptyString, drop (String.length sep) s)
  else match s with
       | EmptyString => None
       | String c s' =>
           match split1 sep s' with
           | Some (a, b) => Some (String c a, b)
           | None => None
           end
       end.

(** [sep in s] for two strings. *)
Definition substr (sep s : string) : bool :=
  match split1 sep s with Some _ => true | None => false end.

(** [s.split(sep, 1)]: one or two pieces. *)
Definition split_max1 (sep s : string) : list string :=
  match split1 sep s with
  | Some (a, b) => [a; b]
  | None => [s]
  end.

(** [s.split(sep)]: every piece, for a one-character separator. *)
Fixpoint split_char (sep : ascii) (s : string) : list string :=
  match s with
  | EmptyString => [EmptyString]
  | String c s' =>
      if Ascii.eqb c sep then EmptyString :: split_char sep s'
      else match split_char sep s' with
           | [] => [String c EmptyString]
           | p :: ps => String c p :: ps
           end
  end.

(** [s[:-1]] *)
Fixpoint drop_last (s : string) : string :=
  match s with
  | EmptyString => EmptyString
  | String c EmptyString => EmptyString
  | String c s' => String c (drop_last s')
  end.

Definition lower_ascii (c : ascii) : ascii :=
  let n := nat_of_ascii c in
  if (Nat.leb 65 n && Nat.leb n 90)%bool then ascii_of_nat (n + 32) else c.

(** [s.lower()] on ASCII text. *)
Fixpoint lower (s : string) : string :=
  match s with
  | EmptyString => EmptyString
  | String c s' => String (lower_ascii c) (lower s')
  end.

(** [s.replace(a, b)] for single characters. *)
Fixpoint replace_char (a b : ascii) (s : string) : string :=
  match s with
  | EmptyString => EmptyString
  | String c s' => String (if Ascii.eqb c a then b else c) (replace_char a b s')
  end.

(** The one-character strings of [s], as iterating over a [str] gives. *)
Fixpoint chars (s : string) : list string :=
  match s with
  | EmptyString => []
  | String c s' => String c EmptyString :: chars s'
  end.

(** ** Values *)

#[local] Set Warnings "-register-all".

Inductive value : Type :=
| VNone
| VBool (b : bool)
| VInt (z : Z)
| VFloat (f : spec_float)
| VStr (s : string)
| VList (l : list value)
| VDict (d : list (string * value)).

(** A dictionary with string keys, in insertion order. *)
Definition dict : Type := list (string * value).

Fixpoint lookup (k : string) (d : dict) : option value :=
  match d with
  | [] => None
  | (k', v) :: r => if String.eqb k' k then Some v else lookup k r
  end.

Definition keys (d : dict) : list string := map fst d.

(** [d[k]] *)
Definition getitem (d : dict) (k : string) : result value :=
  match lookup k d with
  | Some v => Ok v
  | None => Raise KeyError
  end.

(** [d.get(k)] and [d.get(k, default)] *)
Definition get_default (d : dict) (k : string) (default : value) : value :=
  match lookup k d with
  | Some v => v
  | None => default
  end.

Definition get (d : dict) (k : string) : value := get_default d k VNone.

(** [d[k] = v]: an existing key keeps its place, a new one goes last. *)
Fixpoint setitem (d : dict) (k : string) (v : value) : dict :=
  match d with
  | [] => [(k, v)]
  | (k', v') :: r =>
      if String.eqb k' k then (k', v) :: r else (k', v') :: setitem r k v
  end.

Definition b2z (b : bool) : Z := if b then 1 else 0.

(** [l[i]] on a sequence, negative indices counting from the end. *)
Definition index {A : Type} (l : list A) (i : Z) : result A :=
  let n := Z.of_nat (List.length l) in
  let j := if i <? 0 then i + n else i in
  if ((0 <=? j) && (j <? n))%bool then
    match nth_error l (Z.to_nat j) with
    | Some x => Ok x
    | None => Raise IndexError
    end
  else Raise IndexError.

(** [v[k]] *)
Definition subscript (v k : value) : result value :=
  match v, k with
  | VDict d, VStr s => getitem d s
  | VDict _, (VList _ | VDict _) => Raise TypeError
  | VDict _, _ => Raise KeyError
  | VList l, VInt i => index l i
  | VList l, VBool b => index l (b2z b)
  | VList _, _ => Raise TypeError
  | VStr s, VInt i => c <- index (chars s) i ;; Ok (VStr c)
  | VStr s, VBool b => c <- index (chars s) (b2z b) ;; Ok (VStr c)
  | _, _ => Raise TypeError
  end.

(** [for x in v] / [list(v)]: a dictionary iterates over its keys, a
    string over its characters. *)
Definition iter (v : value) : result (list value) :=
  match v with
  | VList l => Ok l
  | VStr s => Ok (map VStr (chars s))
  | VDict d => Ok (map VStr (keys d))
  | _ => Raise TypeError
  end.

Definition as_str (e : exn) (v : value) : result string :=
  match v with
  | VStr s => Ok s
  | _ => Raise e
  end.

(** [sep.join(l)]: every item has to be a [str]. *)
Definition join (sep : string) (l : list value) : result string :=
  ss <- mapM (as_str TypeError) l ;; Ok (String.concat sep ss).

(** Truth value of an object in a condition. *)
Definition truthy (v : value) : bool :=
  match v with
  | VNone => false
  | VBool b => b
  | VInt z => negb (z =? 0)
  | VFloat (S754_zero _) => false
  | VFloat _ => true
  | VStr s => negb (String.eqb s EmptyString)
  | VList l => match l with [] => false | _ => true end
  | VDict d => match d with [] => false | _ => true end
  end.

(** [isinstance(v, dict)] and [type(v) == str] *)
Definition is_dict (v : value) : bool :=
  match v with VDict _ => true | _ => false end.

Definition is_str (v : value) : bool :=
  match v with VStr _ => true | _ => false end.

(** [v == s] for a string literal [s]. *)
Definition eq_str (v : value) (s : string) : bool :=
  match v with VStr t => String.eqb t s | _ => false end.

(** [s in v] for a string literal [s]: substring of a string, member of a
    list, key of a dictionary. *)
Definition contains (s : string) (v : value) : result bool :=
  match v with
  | VStr t => Ok (substr s t)
  | VList l => Ok (existsb (fun x => eq_str x s) l)
  | VDict d => Ok (existsb (String.eqb s) (keys d))
  | _ => Raise TypeError
  end.

(** [v.lower()] and [v.split(sep, 1)]: methods of [str] only. *)
Definition str_lower (v : value) : result string :=
  s <- as_str AttributeError v ;; Ok (lower s).

Definition str_split_max1 (sep : string) (v : value) : result (list string) :=
  s <- as_str AttributeError v ;; Ok (split_max1 sep s).

(** [a, b = l] *)
Definition unpack2 {A : Type} (l : list A) : result (A * A) :=
  match l with
  | [a; b] => Ok (a, b)
  | _ => Raise ValueError
  end.

(** ** Numbers *)

(** The exact integer part of a float: [int(f)]. *)
Definition float_trunc (f : spec_float) : result Z :=
  match f with
  | S754_zero _ => Ok 0
  | S754_infinity _ => Raise OverflowError
  | S754_nan => Raise ValueError
  | S754_finite s m e =>
      let a := if 0 <=? e then Z.pos m * 2 ^ e else Z.quot (Z.pos m) (2 ^ (- e)) in
      Ok (if s then - a else a)
  end.

(** [z == f] between an [int] and a [float]: compared exactly. *)
Definition float_eq_int (f : spec_float) (z : Z) : bool :=
  match f with
  | S754_zero _ => z =? 0
  | S754_finite s m e =>
      let a := if s then Z.neg m else Z.pos m in
      if 0 <=? e then z =? a * 2 ^ e
      else ((a mod 2 ^ (- e) =? 0) && (z =? a / 2 ^ (- e)))%bool
  | _ => false
  end.

Definition float64_of_Z (z : Z) : spec_float := binary_normalize 53 1024 z 0 false.

(** What is left to the interpreter: the rounding of [int / int], the
    parsing done by [int(str)] and the text [repr] gives an object that
    is no string. *)
Record runtime : Type := {
  rt_truediv : Z -> Z -> result spec_float;
  rt_int_of_str : string -> result Z;
  rt_repr : value -> string;
}.

(** [v / n] for an integer literal [n] *)
Definition truediv (rt : runtime) (v : value) (n : Z) : result value :=
  match v with
  | VInt z => f <- rt_truediv rt z n ;; Ok (VFloat f)
  | VBool b => f <- rt_truediv rt (b2z b) n ;; Ok (VFloat f)
  | VFloat f => Ok (VFloat (SFdiv 53 1024 f (float64_of_Z n)))
  | _ => Raise TypeError
  end.

(** [int(v)] *)
Definition int (rt : runtime) (v : value) : result Z :=
  match v with
  | VInt z => Ok z
  | VBool b => Ok (b2z b)
  | VFloat f => float_trunc f
  | VStr s => rt_int_of_str rt s
  | _ => Raise TypeError
  end.

(** [str(v)] *)
Definition str (rt : runtime) (v : value) : string :=
  match v with
  | VStr s => s
  | _ => rt_repr rt v
  end.

(** [a == b].  Dictionaries are equal when they have the same keys with
    equal values, in any order; numbers compare by value across [bool],
    [int] and [float]. *)
Fixpoint value_eqb (a b : value) {struct a} : bool :=
  match a, b with
  | VNone, VNone => true
  | VBool x, VBool y => Bool.eqb x y
  | VBool x, VInt y => b2z x =? y
  | VInt x, VBool y => x =? b2z y
  | VInt x, VInt y => x =? y
  | VBool x, VFloat g => float_eq_int g (b2z x)
  | VInt x, VFloat g => float_eq_int g x
  | VFloat f, VBool y => float_eq_int f (b2z y)
  | VFloat f, VInt y => float_eq_int f y
  | VFloat f, VFloat g => SFeqb f g
  | VStr s, VStr t => String.eqb s t
  | VList l1, VList l2 =>
      (fix go (l1 l2 : list value) {struct l1} : bool :=
         match l1, l2 with
         | [], [] => true
         | x :: xs, y :: ys => (value_eqb x y && go xs ys)%bool
         | _, _ => false
         end) l1 l2
  | VDict d1, VDict d2 =>
      (Nat.eqb (List.length d1) (List.length d2) &&
       (fix all (d : list (string * value)) {struct d} : bool :=
          match d with
          | [] => true
          | (k, v) :: r =>
              (match lookup k d2 with
               | Some v' => value_eqb v v'
               | None => false
               end && all r)%bool
          end) d1)%bool
  | _, _ => false
  end.

(** ** Output

    A run of a script is the text it printed and the requests it made,
    in order, together with its result.  ['E] is the script's own type of
    events. *)
Definition io (E A : Type) : Type := (list E * result A)%type.

Definition ret {E A : Type} (a : A) : io E A := ([], Ok a).

Definition emit {E : Type} (e : E) : io E unit := ([e], Ok tt).

Definition lift {E A : Type} (r : result A) : io E A := ([], r).

Definition iobind {E A B : Type} (m : io E A) (k : A -> io E B) : io E B :=
  match m with
  | (out, Ok a) => let (out', r) := k a in (out ++ out', r)
  | (out, Raise e) => (out, Raise e)
  end.

(** A reference interpreter for closed examples: [int / int] through the
    binary64 division of the two converted operands (what CPython does
    when both fit in 53 bits), [int(str)] on an optional sign followed by
    decimal digits, and [repr] only where its text is easy to give. *)
Fixpoint digits_value (acc : Z) (s : string) : option Z :=
  match s with
  | EmptyString => Some acc
  | String c s' =>
      let n := nat_of_ascii c in
      if (Nat.leb 48 n && Nat.leb n 57)%bool
      then digits_value (10 * acc + Z.of_nat (n - 48)) s'
      else None
  end.

Definition ref_int_of_str (s : string) : result Z :=
  match s with
  | EmptyString => Raise ValueError
  | String "-"%char (String c s' as d) =>
      match digits_value 0 d with Some z => Ok (- z) | None => Raise ValueError end
  | _ => match digits_value 0 s with Some z => Ok z | None => Raise ValueError end
  end.

Definition ref_truediv (a b : Z) : result spec_float :=
  match SFdiv 53 1024 (float64_of_Z a) (float64_of_Z b) with
  | S754_infinity _ => Raise OverflowError
  | f => Ok f
  end.

Definition ref_repr (v : value) : string :=
  match v with
  | VNone => "None"
  | VBool true => "True"
  | VBool false => "False"
  | _ => "<object>"
  end.

Definition ref_runtime : runtime :=
  {| rt_truediv := ref_truediv;
     rt_int_of_str := ref_int_of_str;
     rt_repr := ref_repr |}.

End Py.

Import Py.

Notation "x <- m ;; k" := (Py.bind m (fun x => k))
  (at level 61, m at next level, right associativity).
Notation "x <~ m ;; k" := (Py.iobind m (fun x => k))
  (at level 61, m at next level, right associativity).

(* ================================================================== *)
(** * trustar/splunk/trustar2_iocs_to_splunk.py *)
(* ================================================================== *)

Module Trustar2Splunk.

Section Mapper.

Variable rt : runtime.

(** The [fields] literal at the top of the loop body. *)
Definition initial_fields (ind : dict) : result dict :=
  v <- getitem ind "value" ;;
  ty <- getitem ind "indicatorType" ;;
  lty <- str_lower ty ;;
  ls <- getitem ind "lastSeen" ;;
  q <- truediv rt ls 1000 ;;
  updated <- int rt q ;;
  tags <- getitem ind "tags" ;;
  ts <- iter tags ;;
  names <- mapM (fun t => subscript t (VStr "name")) ts ;;
  joined <- join " | " names ;;
  Ok [("value", v); ("ioc_type", VStr lty); ("updated", VInt updated);
      ("source", VStr "RH-ISAC Vetted"); ("tags", VStr joined)].

(** The body of the [try] that validates a CIDR suffix. *)
Definition cidr_suffix_ok (v : value) : result unit :=
  parts <- str_split_max1 "/" v ;;
  suffix <- index parts 1 ;;
  n <- int rt (VStr suffix) ;;
  if n <=? 32 then Ok tt else Raise AssertionError.

Definition add_cidr (fields : dict) (v : value) : dict :=
  match cidr_suffix_ok v with
  | Ok _ => setitem fields "cidr" v
  | Raise _ => setitem fields "cidr" (VStr (str rt v ++ "/32"))
  end.

(** [if '://' in value: _, value = ind['value'].split('://', 1)] *)
Definition strip_scheme (v : value) : result value :=
  has_scheme <- contains "://" v ;;
  if has_scheme then
    parts <- str_split_max1 "://" v ;;
    p <- unpack2 parts ;;
    Ok (VStr (snd p))
  else Ok v.

(** The branch for [indicatorType == 'URL']. *)
Definition reclassify_url (fields : dict) (v : value) : result dict :=
  value <- strip_scheme v ;;
  has_slash <- contains "/" value ;;
  if has_slash then
    parts <- str_split_max1 "/" value ;;
    p <- unpack2 parts ;;
    let (netloc, remainder) := p in
    if (truthy (VStr remainder) || substr "@" netloc || substr ":" netloc)%bool
    then Ok (setitem fields "wildcard" (VStr ("*" ++ str rt value)))
    else
      s <- as_str TypeError value ;;
      Ok (setitem (setitem fields "ioc_type" (VStr "domain")) "value" (VStr (drop_last s)))
  else
    has_at <- contains "@" value ;;
    has_colon <- contains ":" value ;;
    if (negb has_at && negb has_colon)%bool
    then Ok (setitem (setitem fields "ioc_type" (VStr "domain")) "value" value)
    else Ok fields.

(** One turn of the loop: the dictionary appended to [output]. *)
Definition field_values (ind : dict) : result dict :=
  fields <- initial_fields ind ;;
  ty <- getitem ind "indicatorType" ;;
  if (eq_str ty "CIDR_BLOCK" || eq_str ty "IP")%bool then
    v <- getitem ind "value" ;;
    Ok (add_cidr fields v)
  else if eq_str ty "URL" then
    v <- getitem ind "value" ;;
    reclassify_url fields v
  else Ok fields.

Definition build_field_values (inds : list dict) : result (list dict) :=
  mapM field_values inds.

End Mapper.

End Trustar2Splunk.

(* ================================================================== *)
(** * misp/splunk/misp_iocs_to_splunk.py *)
(* ================================================================== *)

Module MispSplunk.

Definition VETTED_TAG : string := "rhisac: vetted".

(** What the mapper prints. *)
Inductive event : Type :=
| PrintErrorParsingType (ty : value).

Definition SUPPORTED_TYPES : list string :=
  ["ip-dst"; "email-src"; "md5"; "sha256"; "sha1"; "domain"; "url"].

Section Mapper.

Variable rt : runtime.

Definition initial_fields (ind : dict) : result dict :=
  v <- getitem ind "value" ;;
  ty <- getitem ind "type" ;;
  lty <- str_lower ty ;;
  ts <- getitem ind "timestamp" ;;
  n <- int rt ts ;;
  updated <- truediv rt (VInt n) 1000 ;;
  tags <- getitem ind "tags" ;;
  items <- iter tags ;;
  events <- mapM (fun t => subscript t (VStr "event")) items ;;
  joined <- join " | " events ;;
  Ok [("value", v); ("ioc_type", VStr lty); ("updated", updated);
      ("source", VStr "RH-ISAC Vetted"); ("tags", VStr joined)].

Definition strip_scheme (v : value) : result value :=
  has_scheme <- contains "://" v ;;
  if has_scheme then
    parts <- str_split_max1 "://" v ;;
    p <- unpack2 parts ;;
    Ok (VStr (snd p))
  else Ok v.

(** The branch for [type == 'url']: there is no [else] for a value
    without a slash. *)
Definition reclassify_url (fields : dict) (v : value) : result dict :=
  value <- strip_scheme v ;;
  has_slash <- contains "/" value ;;
  if has_slash then
    parts <- str_split_max1 "/" value ;;
    p <- unpack2 parts ;;
    let (netloc, remainder) := p in
    if (truthy (VStr remainder) || substr "@" netloc || substr ":" netloc)%bool
    then Ok (setitem fields "wildcard" (VStr ("*" ++ str rt value)))
    else
      s <- as_str TypeError value ;;
      Ok (setitem (setitem fields "ioc_type" (VStr "domain")) "value" (VStr (drop_last s)))
  else Ok fields.

(** One turn of the loop: [Some fields] is appended to [output], [None]
    is the [continue] after the printed message. *)
Definition field_values (ind : dict) : io event (option dict) :=
  fields <~ lift (initial_fields ind) ;;
  ty <~ lift (getitem ind "type") ;;
  fields <~ lift (if eq_str ty "url"
                  then v <- getitem ind "value" ;; reclassify_url fields v
                  else Ok fields) ;;
  if negb (existsb (eq_str ty) SUPPORTED_TYPES) then
    _ <~ emit (PrintErrorParsingType ty) ;;
    ret None
  else ret (Some fields).

Fixpoint build_field_values (inds : list dict) : io event (list dict) :=
  match inds with
  | [] => ret []
  | ind :: rest =>
      r <~ field_values ind ;;
      output <~ build_field_values rest ;;
      ret (match r with Some fields => fields :: output | None => output end)
  end.

End Mapper.

End MispSplunk.

(* ================================================================== *)
(** * trustar/v1.3/generic/get_trustar_iocs.py *)
(* ================================================================== *)

Module Trustar13.

(** An item of a search page: the SDK object's [value], [type] and
    [last_seen] (milliseconds since the epoch). *)
Record Indicator : Type := {
  ind_value : string;
  ind_type : string;
  last_seen : Z;
}.

(** The keyword arguments of one [search_indicators_page] call. *)
Record query : Type := {
  q_enclave_ids : list string;
  q_from_time : Z;
  q_to_time : Z;
  q_indicator_types : list string;
  q_page_size : nat;
}.

(** The TruSTAR client: its configuration and the answers of the
    service.  [search_indicators_page n q] is the page answered to the
    [n]-th search of the run, so that any sequence of pages is a client;
    [get_indicators_metadata] stands for the call followed by [to_dict]
    on each object it returns. *)
Record TruStar : Type := {
  ping_fails : bool;
  enclave_ids : list string;
  get_user_enclaves : list (string * string);
  search_indicators_page : nat -> query -> list Indicator;
  get_indicators_metadata : list Indicator -> list string -> list dict;
}.

Inductive event : Type :=
| PrintBothFlags
| ApiPing
| PrintApiFailure
| ApiGetUserEnclaves
| PrintRetrievingFrom
| PrintEnclave (id name : string)
| PrintNoAccess (id : string)
| PrintWindow (from_time to_time : Z)
| ApiSearch (q : query)
| ApiGetMetadata (items : list Indicator)
| PrintRetrieved (count : nat)
| PrintOutsideRange (item : Indicator)
| PrintNewline
| PrintInvalidLastDays
| PrintInvalidDate (text : string)
| PrintNoMatch
| WriteRow (cells : list value)
| PrintErrorWriting (ind : dict) (e : exn)
| PrintWroteCsv
| WriteJson (data : list dict)
| PrintWroteJson.

(** ** [ind_dict_to_csv] *)

Fixpoint remove_first (k : string) (l : list string) : list string :=
  match l with
  | [] => []
  | x :: r => if String.eqb x k then r else x :: remove_first k r
  end.

(** The header: the keys of the first dictionary, ['tags'] moved last. *)
Definition csv_header (first : dict) : list string :=
  let header := keys first in
  if existsb (String.eqb "tags") header
  then remove_first "tags" header ++ ["tags"]
  else header.

(** The list [tags] built inside the [try]. *)
Definition tag_list (ind : dict) : result (list value) :=
  first_is_dict <-
    (if truthy (get ind "tags")
     then tags <- getitem ind "tags" ;;
          t0 <- subscript tags (VInt 0) ;;
          Ok (is_dict t0)
     else Ok false) ;;
  items <- iter (get_default ind "tags" (VList [])) ;;
  if first_is_dict
  then mapM (fun t => subscript t (VStr "name")) items
  else Ok items.

(** The body of the [try]: the row handed to [writerow]. *)
Definition csv_row (header : list string) (split_tags : bool) (ind : dict)
  : result (list value) :=
  row <- mapM (getitem ind)
           (filter (fun rh => negb (String.eqb rh "tags")) header) ;;
  tags <- tag_list ind ;;
  if split_tags then Ok (row ++ tags)
  else joined <- join "|" tags ;; Ok (row ++ [VStr joined]).

Definition write_indicator (header : list string) (split_tags : bool) (ind : dict)
  : io event unit :=
  match csv_row header split_tags ind with
  | Ok row => emit (WriteRow row)
  | Raise (SystemExit c) => lift (Raise (SystemExit c))
  | Raise e => emit (PrintErrorWriting ind e)
  end.

Fixpoint write_indicators (header : list string) (split_tags : bool)
  (indicators : list dict) : io event unit :=
  match indicators with
  | [] => ret tt
  | ind :: rest =>
      _ <~ write_indicator header split_tags ind ;;
      write_indicators header split_tags rest
  end.

Definition ind_dict_to_csv (indicators : list dict) (split_tags : bool)
  : io event unit :=
  first <~ lift (index indicators 0) ;;
  let header := csv_header first in
  _ <~ emit (WriteRow (map VStr header)) ;;
  _ <~ write_indicators header split_tags indicators ;;
  emit PrintWroteCsv.

Definition ind_dict_to_json (indicators : list dict) : io event unit :=
  _ <~ emit (WriteJson indicators) ;;
  emit PrintWroteJson.

(** ** [retrieve_iocs] *)

Definition DEFAULT_ENCLAVE : string := "59cd8570-5dce-4e5b-b09c-9807530a7086".

Definition DAY_MS : Z := 24 * 60 * 60 * 1000.

(** The variables the [while] loop updates. *)
Record loop_state : Type := {
  pg_to : Z;
  all_metadata : list dict;
}.

Section Retrieve.

Variable ts : TruStar.
Variable from_time : Z.
Variable enclaves : list string.
Variable ioc_types : list string.

Definition page_query (st : loop_state) : query :=
  {| q_enclave_ids := enclaves;
     q_from_time := from_time;
     q_to_time := pg_to st;
     q_indicator_types := ioc_types;
     q_page_size := 1000 |}.

(** One turn of [while True] on the page answered to the query: what it
    prints and requests, the updated variables, and whether the loop
    goes on ([false] is a [break]). *)
Definition loop_body (items : list Indicator) (st : loop_state)
  : list event * loop_state * bool :=
  match items with
  | [] => ([], st, false)
  | first :: _ =>
      let last_item := List.last items first in
      let inds := get_indicators_metadata ts items enclaves in
      let all_metadata' := all_metadata st ++ inds in
      let earliest_lastseen := last_seen last_item in
      let pg_to' := earliest_lastseen - 1 in
      ([ApiGetMetadata items; PrintRetrieved (List.length all_metadata')]
         ++ (if pg_to st <? earliest_lastseen then [PrintOutsideRange last_item] else []),
       {| pg_to := pg_to'; all_metadata := all_metadata' |},
       negb (pg_to' <? from_time))
  end.

(** The loop, cut after [fuel] turns: [None] when it is still running.
    [calls] counts the searches made before. *)
Fixpoint fetch_loop (fuel calls : nat) (st : loop_state)
  : option (list event * loop_state) :=
  match fuel with
  | O => None
  | S fuel' =>
      let q := page_query st in
      let items := search_indicators_page ts calls q in
      let '(out, st', continue) := loop_body items st in
      if continue then
        match fetch_loop fuel' (S calls) st' with
        | Some (out', final) => Some (ApiSearch q :: out ++ out', final)
        | None => None
        end
      else Some (ApiSearch q :: out, st')
  end.

End Retrieve.

Definition pick (keys_ : list string) (ind : dict) : result dict :=
  mapM (fun k => v <- getitem ind k ;; Ok (k, v)) keys_.

(** The default projection: the common fields, tags by name. *)
Definition common_fields (ind : dict) : result dict :=
  v <- getitem ind "value" ;;
  ty <- getitem ind "indicatorType" ;;
  tags <- getitem ind "tags" ;;
  items <- iter tags ;;
  names <- mapM (fun t => subscript t (VStr "name")) items ;;
  fs <- getitem ind "firstSeen" ;;
  ls <- getitem ind "lastSeen" ;;
  Ok [("value", v); ("indicatorType", ty); ("tags", VList names);
      ("firstSeen", fs); ("lastSeen", ls)].

Definition select_fields (only_vals only_vt all_meta : bool)
  (all_metadata : list dict) : result (list dict) :=
  if only_vt then mapM (pick ["value"; "indicatorType"]) all_metadata
  else if only_vals then mapM (pick ["value"]) all_metadata
  else if all_meta then Ok all_metadata
  else mapM common_fields all_metadata.

Fixpoint print_enclaves (usr_encs : list (string * string)) (enclaves : list string)
  : list event :=
  match enclaves with
  | [] => []
  | encid :: rest =>
      match find (fun p => String.eqb (fst p) encid) (rev usr_encs) with
      | Some p => PrintEnclave encid (snd p) :: print_enclaves usr_encs rest
      | None => [PrintNoAccess encid]
      end
  end.

(** The two readings of the clock behind the default window. *)
Record clock : Type := {
  now_for_from : Z;
  now_for_to : Z;
}.

(** [retrieve_iocs], cut after [fuel] turns of its loop. *)
Definition retrieve_iocs (fuel : nat) (ts : TruStar) (clk : clock)
  (from_time to_time : option Z) (ioc_types : list string)
  (only_vals only_vt : bool) (enclaves : list string)
  (min_calls all_meta : bool) : option (io event (list dict)) :=
  if (only_vals && only_vt)%bool then Some ([PrintBothFlags], Ok [])
  else if (negb min_calls && ping_fails ts)%bool
  then Some ([ApiPing; PrintApiFailure], Ok [])
  else
    let out_ping := if min_calls then [] else [ApiPing] in
    let enclaves :=
      match enclaves with
      | [] => match enclave_ids ts with
              | [] => [DEFAULT_ENCLAVE]
              | ids => ids
              end
      | _ => enclaves
      end in
    let out_encs :=
      if min_calls then []
      else ApiGetUserEnclaves :: PrintRetrievingFrom
             :: print_enclaves (get_user_enclaves ts) enclaves in
    let from_ms := match from_time with
                   | Some t => t
                   | None => now_for_from clk - DAY_MS
                   end in
    let to_ms := match to_time with
                 | Some t => t
                 | None => now_for_to clk
                 end in
    match fetch_loop ts from_ms enclaves ioc_types fuel 0
            {| pg_to := to_ms; all_metadata := [] |} with
    | None => None
    | Some (out_loop, final) =>
        let out := out_ping ++ out_encs ++ [PrintWindow from_ms to_ms] ++ out_loop in
        match select_fields only_vals only_vt all_meta (all_metadata final) with
        | Ok res => Some (out ++ [PrintNewline], Ok res)
        | Raise e => Some (out, Raise e)
        end
    end.

(** ** The command line *)

Record arguments : Type := {
  outfile : option string;
  arg_all : bool;
  arg_csv : bool;
  arg_enclaves : string;
  arg_from_time : option string;
  arg_types : string;
  arg_last_days : option string;
  arg_min_calls : bool;
  arg_split_tags : bool;
  arg_to_time : option string;
  arg_only_vals : bool;
  arg_only_vt : bool;
}.

(** What [datetime] does for the command line: [int(text)] ([None]
    when it raises), [utcnow() - timedelta(days)] (which can overflow),
    and [strptime] with the two formats, in milliseconds. *)
Record calendar : Type := {
  parse_days : string -> option Z;
  days_before_utcnow : Z -> result Z;
  utcnow : Z;
  strptime_date : string -> option Z;
  strptime_datetime : string -> option Z;
}.

Definition nonempty (o : option string) : option string :=
  match o with
  | Some s => if String.eqb s EmptyString then None else Some s
  | None => None
  end.

Definition parse_bound (cal : calendar) (o : option string) : io event (option Z) :=
  match nonempty o with
  | None => ret None
  | Some dt =>
      match strptime_date cal dt with
      | Some t => ret (Some t)
      | None =>
          match strptime_datetime cal dt with
          | Some t => ret (Some t)
          | None =>
              _ <~ emit (PrintInvalidDate dt) ;;
              lift (Raise (SystemExit 0))
          end
      end
  end.

(** The block "Convert strings to datetimes". *)
Definition parse_window (cal : calendar) (args : arguments)
  : io event (option Z * option Z) :=
  match nonempty (arg_last_days args) with
  | Some text =>
      match parse_days cal text with
      | None =>
          _ <~ emit PrintInvalidLastDays ;;
          lift (Raise (SystemExit 0))
      | Some days =>
          start <~ lift (days_before_utcnow cal days) ;;
          ret (Some start, Some (utcnow cal))
      end
  | None =>
      a <~ parse_bound cal (arg_from_time args) ;;
      b <~ parse_bound cal (arg_to_time args) ;;
      ret (a, b)
  end.

Definition comma_list (s : string) : list string :=
  if String.eqb s EmptyString then [] else split_char ","%char s.

(** The script run from the command line, its loop cut after [fuel]
    turns. *)
Definition main (fuel : nat) (ts : TruStar) (clk : clock) (cal : calendar)
  (args : arguments) : option (io event unit) :=
  match parse_window cal args with
  | (out, Raise e) => Some (out, Raise e)
  | (out, Ok (from_time, to_time)) =>
      match retrieve_iocs fuel ts clk from_time to_time
              (comma_list (arg_types args))
              (arg_only_vals args) (arg_only_vt args)
              (comma_list (arg_enclaves args))
              (arg_min_calls args) (arg_all args) with
      | None => None
      | Some r =>
          Some (_ <~ (out, Ok tt) ;;
                iocs <~ r ;;
                match iocs with
                | [] => emit PrintNoMatch
                | _ => if arg_csv args
                       then ind_dict_to_csv iocs (arg_split_tags args)
                       else ind_dict_to_json iocs
                end)
      end
  end.

(** The status the interpreter exits with. *)
Definition exit_status {A : Type} (r : result A) : Z :=
  match r with
  | Ok _ => 0
  | Raise (SystemExit status) => status
  | Raise _ => 1
  end.

End Trustar13.

(* ================================================================== *)
(** * trustar/generic/get_24h_trustar2_iocs_csv.py *)
(* ================================================================== *)

Module Trustar2Csv.

Inductive event : Type :=
| WriteRow (cells : list value)
| PrintErrorWriting (observable : dict) (e : exn)
| PrintWrote (count : nat).

Definition csv_header (first : dict) : list string :=
  let header := keys first in
  if existsb (String.eqb "tags") header
  then Trustar13.remove_first "tags" header ++ ["tags"]
  else header.

(** The list [tags] built when the observable has tags. *)
Definition tag_list (observable : dict) : result (list value) :=
  first_is_dict <-
    (if truthy (get observable "tags")
     then tags <- getitem observable "tags" ;;
          t0 <- subscript tags (VInt 0) ;;
          Ok (is_dict t0)
     else Ok false) ;;
  items <- iter (get_default observable "tags" (VList [])) ;;
  if first_is_dict
  then mapM (fun t => subscript t (VStr "name")) items
  else Ok items.

Definition csv_row (header : list string) (observable : dict) : result (list value) :=
  row <- mapM (getitem observable)
           (filter (fun rh => negb (String.eqb rh "tags")) header) ;;
  if truthy (get observable "tags") then
    tags <- tag_list observable ;;
    joined <- join "|" tags ;;
    Ok (row ++ [VStr joined])
  else Ok row.

Definition write_observable (header : list string) (observable : dict) : io event unit :=
  match csv_row header observable with
  | Ok row => emit (WriteRow row)
  | Raise (SystemExit c) => lift (Raise (SystemExit c))
  | Raise e => emit (PrintErrorWriting observable e)
  end.

Fixpoint write_observables (header : list string) (observables : list dict)
  : io event unit :=
  match observables with
  | [] => ret tt
  | o :: rest => _ <~ write_observable header o ;; write_observables header rest
  end.

Definition obl_dict_to_csv (observables : list dict) : io event unit :=
  first <~ lift (index observables 0) ;;
  let header := csv_header first in
  _ <~ emit (WriteRow (map VStr header)) ;;
  _ <~ write_observables header observables ;;
  emit (PrintWrote (List.length observables)).

End Trustar2Csv.

(* ================================================================== *)
(** * misp/generic/get_24h_misp_vetted_iocs_csv.py *)
(* ================================================================== *)

Module MispCsv.

Definition OUTPUT_FIELDS : list string := ["value"; "type"; "timestamp"; "Tag"; "Event"].

Definition VETTED_TAG : string := "rhisac: vetted".

Inductive event : Type :=
| WriteRow (cells : list value)
| PrintErrorWriting (ioc : dict) (e : exn)
| PrintWrote (count : nat).

(** [[x['name'] for x in v if x['name'] != VETTED_TAG]] *)
Definition tag_names (v : value) : result (list value) :=
  items <- iter v ;;
  names <- mapM (fun x => subscript x (VStr "name")) items ;;
  Ok (filter (fun n => negb (eq_str n VETTED_TAG)) names).

(** One turn of the inner loop over [ioc.items()]. *)
Definition keep_item (keep : dict) (kv : string * value) : result dict :=
  let (k, v) := kv in
  if negb (existsb (String.eqb k) OUTPUT_FIELDS) then Ok keep
  else if String.eqb k "Tag" then
    names <- tag_names v ;;
    joined <- join "|" names ;;
    Ok (setitem keep "tags" (VStr joined))
  else if String.eqb k "Event" then
    info <- subscript v (VStr "info") ;;
    Ok (setitem keep "event" info)
  else Ok (setitem keep k v).

Fixpoint keep_items (keep : dict) (items : list (string * value)) : result dict :=
  match items with
  | [] => Ok keep
  | kv :: rest => keep' <- keep_item keep kv ;; keep_items keep' rest
  end.

Definition filter_results (iocs : list dict) : result (list dict) :=
  mapM (keep_items []) iocs.

(** The double quote, character 34. *)
Definition DQUOTE : ascii := ascii_of_nat 34.

Section Writer.

Variable rt : runtime.

Definition csv_header (first : dict) : list string :=
  let header := keys first in
  if existsb (String.eqb "tags") header
  then Trustar13.remove_first "tags" header ++ ["tags"]
  else header.

Definition csv_row (header : list string) (ioc : dict) : result (list value) :=
  row <- mapM (getitem ioc)
           (filter (fun rh => negb (String.eqb rh "tags")) header) ;;
  if truthy (get ioc "tags")
  then Ok (row ++ [VStr (replace_char DQUOTE "'"%char (str rt (get ioc "tags")))])
  else Ok row.

Definition write_ioc (header : list string) (ioc : dict) : io event unit :=
  match csv_row header ioc with
  | Ok row => emit (WriteRow row)
  | Raise (SystemExit c) => lift (Raise (SystemExit c))
  | Raise e => emit (PrintErrorWriting ioc e)
  end.

Fixpoint write_iocs (header : list string) (iocs : list dict) : io event unit :=
  match iocs with
  | [] => ret tt
  | ioc :: rest => _ <~ write_ioc header ioc ;; write_iocs header rest
  end.

Definition ioc_dicts_to_csv (iocs : list dict) : io event unit :=
  first <~ lift (index iocs 0) ;;
  let header := csv_header first in
  _ <~ emit (WriteRow (map VStr header)) ;;
  _ <~ write_iocs header iocs ;;
  emit (PrintWrote (List.length iocs)).

End Writer.

End MispCsv.

(* ================================================================== *)
(** * misp/crowdstrike/misp_iocs_crowdstrike_falcon.py *)
(* ================================================================== *)

Module MispCrowdstrike.

Definition TYPE_MAP : list (string * string) :=
  [("domain", "domain"); ("ip-dst", "ipv4"); ("IP6", "ipv6");
   ("md5", "md5"); ("sha256", "sha256")].

Fixpoint type_map (k : string) (m : list (string * string)) : option string :=
  match m with
  | [] => None
  | (k', v) :: r => if String.eqb k' k then Some v else type_map k r
  end.

(** The same text as in the CSV script. *)
Definition filter_results : list dict -> result (list dict) := MispCsv.filter_results.

(** What the Falcon API answers to [indicator_create]: the status code
    and the list under ["body"]["resources"]. *)
Record response : Type := {
  status_code : Z;
  resources : list dict;
}.

(** The service: [indicator_create n indicators] is the answer to the
    [n]-th request of the run. *)
Definition falcon : Type := nat -> list value -> response.

Inductive event : Type :=
| PrintNoType (ty v : value)
| PrintAbout (ioc_count : nat)
| PrintSubmitting (i total : nat)
| IndicatorCreate (comment_count : nat) (indicators : list value)
| PrintBlank
| Print400
| PrintRemoving (duplicate_ioc_value : value)
| PrintUnknownError (v message : value)
| PrintUploading (count : nat)
| PrintSubmitted (i : nat)
| PrintUnknownErrorResponse (new_response : response)
| Print429
| PrintUnknownCode (r : response).

Definition BLOCK_SIZE : nat := 200.

Section Upload.

(** [expire.strftime(...)], 180 days from today. *)
Variable expiration_timestamp : string.

(** [ioc["type"] not in TYPE_MAP]: the key has to be hashable. *)
Definition mapped_type (ty : value) : result (option string) :=
  match ty with
  | VStr s => Ok (type_map s TYPE_MAP)
  | VList _ | VDict _ => Raise TypeError
  | _ => Ok None
  end.

(** [ioc_dict] for an IOC whose type maps to [cs_type]. *)
Definition ioc_dict (cs_type : string) (ioc : dict) : result value :=
  v <- getitem ioc "value" ;;
  tags <- getitem ioc "tags" ;;
  description <-
    (if is_str tags then as_str TypeError tags
     else items <- iter tags ;; join " | " items) ;;
  Ok (VDict [("source", VStr "RH-ISAC Vetted");
             ("action", VStr "detect");
             ("expiration", VStr expiration_timestamp);
             ("description", VStr description);
             ("type", VStr cs_type);
             ("value", v);
             ("severity", VStr "HIGH");
             ("applied_globally", VBool true);
             ("platforms", VList [VStr "windows"])]).

(** The variables of the first loop. *)
Record blocks_state : Type := {
  ioc_count : nat;
  ioc_blocks : list (list value);
  ioc_block : list value;
}.

(** One turn of the first loop. *)
Definition add_ioc (st : blocks_state) (ioc : dict) : io event blocks_state :=
  ty <~ lift (getitem ioc "type") ;;
  m <~ lift (mapped_type ty) ;;
  match m with
  | None =>
      v <~ lift (getitem ioc "value") ;;
      _ <~ emit (PrintNoType ty v) ;;
      ret st
  | Some cs_type =>
      d <~ lift (ioc_dict cs_type ioc) ;;
      let block := ioc_block st ++ [d] in
      if Nat.leb BLOCK_SIZE (List.length block)
      then ret {| ioc_count := S (ioc_count st);
                  ioc_blocks := ioc_blocks st ++ [block];
                  ioc_block := [] |}
      else ret {| ioc_count := S (ioc_count st);
                  ioc_blocks := ioc_blocks st;
                  ioc_block := block |}
  end.

Fixpoint add_iocs (st : blocks_state) (iocs : list dict) : io event blocks_state :=
  match iocs with
  | [] => ret st
  | ioc :: rest => st' <~ add_ioc st ioc ;; add_iocs st' rest
  end.

(** The first loop and the [if ioc_block:] after it: the number of IOCs
    kept and the blocks to submit. *)
Definition make_blocks (iocs : list dict) : io event (nat * list (list value)) :=
  st <~ add_iocs {| ioc_count := 0; ioc_blocks := []; ioc_block := [] |} iocs ;;
  ret (ioc_count st,
       match ioc_block st with
       | [] => ioc_blocks st
       | _ => ioc_blocks st ++ [ioc_block st]
       end).

(** [block.remove(ioc)] for the object at position [i]: the first
    element equal to it goes, which is the object itself at the latest. *)
Fixpoint list_remove (i : nat) (ioc : value) (block : list value) {struct block}
  : list value :=
  match block with
  | [] => []
  | x :: r =>
      match i with
      | O => r
      | S i' => if value_eqb x ioc then r else x :: list_remove i' ioc r
      end
  end.

Definition ioc_value (ioc : value) : value :=
  match ioc with
  | VDict d => get d "value"
  | _ => VNone
  end.

(** [for ioc in block: if ioc.get("value") == duplicate_ioc_value:
    block.remove(ioc)]: the iterator is the position [i] in the list
    being changed; [fuel] bounds the turns. *)
Fixpoint remove_loop (fuel i : nat) (duplicate_ioc_value : value) (block : list value)
  : list value :=
  match fuel with
  | O => block
  | S fuel' =>
      match nth_error block i with
      | None => block
      | Some ioc =>
          if value_eqb (ioc_value ioc) duplicate_ioc_value
          then remove_loop fuel' (S i) duplicate_ioc_value (list_remove i ioc block)
          else remove_loop fuel' (S i) duplicate_ioc_value block
      end
  end.

Definition remove_duplicate (duplicate_ioc_value : value) (block : list value)
  : list value :=
  remove_loop (List.length block) 0 duplicate_ioc_value block.

(** The loop over the errors of a 400 answer. *)
Fixpoint process_errors (errors : list dict) (block : list value)
  : io event (list value) :=
  match errors with
  | [] => ret block
  | error :: rest =>
      is_dup <~ lift (contains "Warning: Duplicate type" (get error "message")) ;;
      if is_dup then
        let duplicate_ioc_value := get error "value" in
        _ <~ emit (PrintRemoving duplicate_ioc_value) ;;
        process_errors rest (remove_duplicate duplicate_ioc_value block)
      else
        _ <~ emit (PrintUnknownError (get error "value") (get error "message")) ;;
        process_errors rest block
  end.

Definition is_success (code : Z) : bool := ((code =? 200) || (code =? 201))%bool.

(** The body of the second loop for block number [i] (from 0) of
    [total]; [calls] requests were made before.  The result is the
    number of requests made so far. *)
Definition submit_block (api : falcon) (total i calls : nat) (block : list value)
  : io event nat :=
  _ <~ emit (PrintSubmitting (S i) total) ;;
  _ <~ emit (IndicatorCreate (List.length block) block) ;;
  let response := api calls block in
  _ <~ emit PrintBlank ;;
  if status_code response =? 400 then
    _ <~ emit Print400 ;;
    block' <~ process_errors (resources response) block ;;
    _ <~ emit (PrintUploading (List.length block')) ;;
    _ <~ emit (IndicatorCreate (List.length block') block') ;;
    let new_response := api (S calls) block' in
    _ <~ (if is_success (status_code response)
          then emit (PrintSubmitted i)
          else emit (PrintUnknownErrorResponse new_response)) ;;
    ret (S (S calls))
  else if status_code response =? 429 then
    _ <~ emit Print429 ;;
    ret (S calls)
  else if is_success (status_code response) then
    _ <~ emit (PrintSubmitted i) ;;
    ret (S calls)
  else
    _ <~ emit (PrintUnknownCode response) ;;
    ret (S calls).

Fixpoint submit_blocks (api : falcon) (total i calls : nat) (blocks : list (list value))
  : io event unit :=
  match blocks with
  | [] => ret tt
  | block :: rest =>
      calls' <~ submit_block api total i calls block ;;
      submit_blocks api total (S i) calls' rest
  end.

Definition upload_iocs (api : falcon) (iocs : list dict) : io event unit :=
  r <~ make_blocks iocs ;;
  let (count, blocks) := r in
  _ <~ emit (PrintAbout count) ;;
  submit_blocks api (List.length blocks) 0 0 blocks.

End Upload.

End MispCrowdstrike.

(* ================================================================== *)
(** * Delivery to Splunk

    [auth_to_splunk], [check_splunk_kvstore] and [post_iocs_to_splunk],
    and the two scripts that use them as they run from the command
    line.  The last two functions have the same text in
    [trustar2_iocs_to_splunk.py] and [misp_iocs_to_splunk.py]. *)
(* ================================================================== *)

Module Splunk.

Definition SPLUNK_KVSTORE_NAME : string := "threat_intel".

Inductive method : Type := GET | POST.

(** What goes with a request: nothing, [data=...] or [json=...]. *)
Inductive payload : Type :=
| NoPayload
| Data (fields : dict)
| Json (records : list dict).

(** A call of [requests.get] or [requests.post]; [req_headers] is the
    [headers] argument, [None] when it is left out or when
    [SPLUNK_HEADERS] is still [None]. *)
Record request : Type := {
  req_method : method;
  req_url : string;
  req_headers : option dict;
  req_payload : payload;
}.

(** What the scripts read of a response: the status code, the text
    [str(resp.content)] and what [resp.json()] gives, [None] when it
    raises because the body is no JSON. *)
Record response : Type := {
  status_code : Z;
  content : string;
  json : option value;
}.

(** The network and the server behind it: the [n]-th request of the run
    is answered, or [requests] raises an exception, given by its text. *)
Definition server : Type := nat -> request -> response + string.

(** The two globals of the module, and the number of requests made so
    far. *)
Record state : Type := {
  SPLUNK_HEADERS : option dict;
  SPLUNK_BASE_URL : value;
  calls : nat;
}.

Definition initial_state : state :=
  {| SPLUNK_HEADERS := None; SPLUNK_BASE_URL := VNone; calls := 0 |}.

Definition called (st : state) : state :=
  {| SPLUNK_HEADERS := SPLUNK_HEADERS st;
     SPLUNK_BASE_URL := SPLUNK_BASE_URL st;
     calls := S (calls st) |}.

Definition with_headers (st : state) (h : dict) : state :=
  {| SPLUNK_HEADERS := Some h;
     SPLUNK_BASE_URL := SPLUNK_BASE_URL st;
     calls := calls st |}.

Definition with_base_url (st : state) (base : value) : state :=
  {| SPLUNK_HEADERS := SPLUNK_HEADERS st;
     SPLUNK_BASE_URL := base;
     calls := calls st |}.

Inductive event : Type :=
| Request (r : request)
| PrintUnableToConnect (text : string)
| PrintFailedToAuthenticate
| PrintUnexpectedAuthResponse
| PrintResponse (content : string)
| PrintCreatingCollection
| PrintFailedToCreate
| PrintFailedToConnect (text : string)
| PrintUnexpectedStatus (code : Z)
| PrintRetrieved (count : nat)
| PrintNothingToDo
| PrintUploaded (count : nat)
| PrintFailedToUpload
| PrintUnableToAuthenticate
| PrintConfigNotFound
| PrintMissingSection (section : string)
| PrintCannotFind (option_name : string)
| PrintConnectError (text : string)
| PrintGettingAll
| MispSearch (key : string)
| PrintGot (count : nat)
| PrintErrorQuery (e : exn + string)
| PrintErrorParsingType (ty : value).

Section Delivery.

Variable rt : runtime.
Variable srv : server.

(** The request that logs in, shared by the two [auth_to_splunk]. *)
Definition login_request (base username password : value) : request :=
  {| req_method := POST;
     req_url := str rt base ++ "/services/auth/login";
     req_headers := None;
     req_payload := Data [("username", username); ("password", password);
                          ("output_mode", VStr "json")] |}.

(** [auth_to_splunk] from the request on: the same text in the two
    scripts. *)
Definition login (st : state) (username password : value) : io event (bool * state) :=
  let req := login_request (SPLUNK_BASE_URL st) username password in
  _ <~ emit (Request req) ;;
  match srv (calls st) req with
  | inr text =>
      _ <~ emit (PrintUnableToConnect text) ;;
      ret (false, called st)
  | inl auth_resp =>
      _ <~ (if status_code auth_resp =? 401 then emit PrintFailedToAuthenticate
            else ret tt) ;;
      match (match json auth_resp with
             | Some body => subscript body (VStr "sessionKey")
             | None => Raise ValueError
             end) with
      | Ok key =>
          ret (true, with_headers (called st)
                       [("Authorization", VStr ("Splunk " ++ str rt key))])
      | Raise (SystemExit c) => lift (Raise (SystemExit c))
      | Raise _ =>
          _ <~ emit PrintUnexpectedAuthResponse ;;
          _ <~ emit (PrintResponse (content auth_resp)) ;;
          ret (false, called st)
      end
  end.

Definition config_url (st : state) : string :=
  str rt (SPLUNK_BASE_URL st) ++ "/servicesNS/nobody/search/storage/collections/config/".

Definition check_splunk_kvstore (st : state) : io event (bool * state) :=
  let url := config_url st in
  let req := {| req_method := GET;
                req_url := url ++ SPLUNK_KVSTORE_NAME;
                req_headers := SPLUNK_HEADERS st;
                req_payload := NoPayload |} in
  _ <~ emit (Request req) ;;
  match srv (calls st) req with
  | inr text =>
      _ <~ emit (PrintFailedToConnect text) ;;
      ret (false, called st)
  | inl resp =>
      if ((status_code resp =? 404)
          && substr "Could not find object id" (content resp))%bool
      then
        _ <~ emit PrintCreatingCollection ;;
        let create := {| req_method := POST;
                         req_url := url;
                         req_headers := SPLUNK_HEADERS st;
                         req_payload := Data [("name", VStr SPLUNK_KVSTORE_NAME)] |} in
        _ <~ emit (Request create) ;;
        match srv (S (calls st)) create with
        | inr text =>
            _ <~ emit (PrintFailedToConnect text) ;;
            ret (false, called (called st))
        | inl resp' =>
            if negb (status_code resp' =? 201)
            then _ <~ emit PrintFailedToCreate ;; ret (false, called (called st))
            else ret (true, called (called st))
        end
      else ret (true, called st)
  end.

Definition batch_save_url (st : state) : string :=
  str rt (SPLUNK_BASE_URL st) ++ "/servicesNS/nobody/search/storage/collections/data/"
    ++ SPLUNK_KVSTORE_NAME ++ "/batch_save".

Definition post_iocs_to_splunk (iocs : list dict) (st : state) : io event (bool * state) :=
  r <~ check_splunk_kvstore st ;;
  let (configured, st) := r in
  if negb configured then ret (false, st)
  else
    match SPLUNK_HEADERS st with
    | None => lift (Raise TypeError)
    | Some headers =>
        let headers := setitem headers "Content-Type" (VStr "application/json") in
        let st := with_headers st headers in
        let req := {| req_method := POST;
                      req_url := batch_save_url st;
                      req_headers := Some headers;
                      req_payload := Json iocs |} in
        _ <~ emit (Request req) ;;
        match srv (calls st) req with
        | inr text =>
            _ <~ emit (PrintFailedToConnect text) ;;
            ret (false, called st)
        | inl resp =>
            if negb (status_code resp =? 200)
            then _ <~ emit (PrintUnexpectedStatus (status_code resp)) ;;
                 _ <~ emit (PrintResponse (content resp)) ;;
                 ret (false, called st)
            else ret (true, called st)
        end
    end.

(** The end of both scripts: authenticate, post, report. *)
Definition deliver (auth : state -> io event (bool * state)) (iocs : list dict)
  : io event unit :=
  a <~ auth initial_state ;;
  let (auth_result, st) := a in
  if auth_result then
    p <~ post_iocs_to_splunk iocs st ;;
    if fst p then emit (PrintUploaded (List.length iocs))
    else emit PrintFailedToUpload
  else emit PrintUnableToAuthenticate.

End Delivery.

End Splunk.

(** ** [trustar2_iocs_to_splunk.py] from the command line *)

Module Trustar2SplunkScript.

Import Splunk.

Section Script.

Variable rt : runtime.
Variable srv : server.

(** What [TruStar.config_from_file('splunk.conf', 'main')] returns, or
    the exception it raises. *)
Variable s_conf : result value.

Definition auth_to_splunk (st : state) : io event (bool * state) :=
  conf <~ lift s_conf ;;
  base <~ lift (subscript conf (VStr "base_url")) ;;
  let st := with_base_url st base in
  username <~ lift (subscript conf (VStr "username")) ;;
  password <~ lift (subscript conf (VStr "password")) ;;
  login rt srv st username password.

(** The script, given what [retrieve_last24h_obls] returned. *)
Definition main (raw_iocs : list dict) : io event unit :=
  _ <~ emit (PrintRetrieved (List.length raw_iocs)) ;;
  match raw_iocs with
  | [] =>
      _ <~ emit PrintNothingToDo ;;
      lift (Raise (SystemExit 0))
  | _ =>
      iocs <~ lift (Trustar2Splunk.build_field_values rt raw_iocs) ;;
      deliver rt srv auth_to_splunk iocs
  end.

End Script.

End Trustar2SplunkScript.

(** ** [misp_iocs_to_splunk.py] from the command line *)

Module MispSplunkScript.

Import Splunk.

Definition CONFIG_PATH : string := "./misp/splunk/rh-isac.conf".
Definition SPLUNK_CONFIG_SECTION : string := "splunk".
Definition MISP_CONFIG_SECTION : string := "RH-ISAC MISP".

(** What [configparser] finds: whether [conf.read(path)] reads a file,
    the sections of what was read, and [conf[section][name]] when the
    option exists. *)
Record config : Type := {
  found : string -> bool;
  sections : list string;
  option_value : string -> string -> option string;
}.

(** The MISP server seen through [PyMISP]: the text of the exception
    the constructor raises, if it does, and what [search] returns for
    the attributes tagged as vetted in the last day, or the text of the
    exception it raises. *)
Record misp : Type := {
  connect : string -> option string;
  search : string -> value + string;
}.

(** [len(v)] *)
Definition len (v : value) : result nat :=
  match v with
  | VStr s => Ok (String.length s)
  | VList l => Ok (List.length l)
  | VDict d => Ok (List.length d)
  | _ => Raise TypeError
  end.

(** [for ioc in iocs: ... ioc.items()]: [filter_results] on what the
    search returned, whatever it is. *)
Definition filter_results (iocs : value) : result (list dict) :=
  items <- iter iocs ;;
  mapM (fun ioc => match ioc with
                   | VDict d => MispCsv.keep_items [] d
                   | _ => Raise AttributeError
                   end) items.

Section Script.

Variable rt : runtime.
Variable srv : server.
Variable conf : config.
Variable server_ : misp.

Definition auth_to_splunk (auth_details : dict) (st : state) : io event (bool * state) :=
  let st := with_base_url st (get auth_details "BASE_URL") in
  login rt srv st (get auth_details "username") (get auth_details "password").

Definition get_last24h_vetted_iocs (key : string) : io event value :=
  match connect server_ key with
  | Some text =>
      _ <~ emit (PrintConnectError text) ;;
      lift (Raise (SystemExit 0))
  | None =>
      _ <~ emit PrintGettingAll ;;
      _ <~ emit (MispSearch key) ;;
      match search server_ key with
      | inr text =>
          _ <~ emit (PrintErrorQuery (inr text)) ;;
          lift (Raise (SystemExit 0))
      | inl results =>
          match (iocs <- subscript results (VStr "Attribute") ;;
                 n <- len iocs ;;
                 Ok (iocs, n)) with
          | Ok (iocs, n) =>
              _ <~ emit (PrintGot n) ;;
              ret iocs
          | Raise (SystemExit c) => lift (Raise (SystemExit c))
          | Raise e =>
              _ <~ emit (PrintErrorQuery (inl e)) ;;
              lift (Raise (SystemExit 0))
          end
      end
  end.

(** The [try] that reads the options: the first one missing is named
    in the message. *)
Definition read_options : io event (string * dict) :=
  match option_value conf MISP_CONFIG_SECTION "Key" with
  | None => _ <~ emit (PrintCannotFind "Key") ;; lift (Raise (SystemExit 0))
  | Some misp_key =>
      match option_value conf SPLUNK_CONFIG_SECTION "username" with
      | None => _ <~ emit (PrintCannotFind "username") ;; lift (Raise (SystemExit 0))
      | Some username =>
          match option_value conf SPLUNK_CONFIG_SECTION "password" with
          | None => _ <~ emit (PrintCannotFind "password") ;; lift (Raise (SystemExit 0))
          | Some password =>
              match option_value conf SPLUNK_CONFIG_SECTION "base_url" with
              | None =>
                  _ <~ emit (PrintCannotFind "base_url") ;; lift (Raise (SystemExit 0))
              | Some base_url =>
                  ret (misp_key,
                       [("splunk_user", VStr username);
                        ("splunk_pass", VStr password);
                        ("SPLUNK_BASE_URL", VStr base_url)])
              end
          end
      end
  end.

Definition main : io event unit :=
  _ <~ (if negb (found conf CONFIG_PATH) && negb (found conf CONFIG_PATH)
        then _ <~ emit PrintConfigNotFound ;; lift (Raise (SystemExit 0))
        else ret tt) ;;
  _ <~ (if negb (existsb (String.eqb SPLUNK_CONFIG_SECTION) (sections conf))
        then _ <~ emit (PrintMissingSection SPLUNK_CONFIG_SECTION) ;;
             lift (Raise (SystemExit 0))
        else ret tt) ;;
  _ <~ (if negb (existsb (String.eqb MISP_CONFIG_SECTION) (sections conf))
        then _ <~ emit (PrintMissingSection MISP_CONFIG_SECTION) ;;
             lift (Raise (SystemExit 0))
        else ret tt) ;;
  options <~ read_options ;;
  let (misp_key, splunk_credentials) := options in
  raw_iocs <~ get_last24h_vetted_iocs misp_key ;;
  n <~ lift (len raw_iocs) ;;
  _ <~ emit (PrintRetrieved n) ;;
  if negb (truthy raw_iocs) then
    _ <~ emit PrintNothingToDo ;;
    lift (Raise (SystemExit 0))
  else
    filtered_iocs <~ lift (filter_results raw_iocs) ;;
    let (printed, built) := MispSplunk.build_field_values rt filtered_iocs in
    iocs <~ (map (fun e => match e with
                           | MispSplunk.PrintErrorParsingType ty => PrintErrorParsingType ty
                           end) printed, built) ;;
    deliver rt srv (auth_to_splunk splunk_credentials) iocs.

End Script.

End MispSplunkScript.

(** ** [get_24h_trustar2_iocs_csv.py] from the command line *)

Module Trustar2CsvScript.

Definition ENCLAVE_IDS : list string := ["59cd8570-5dce-4e5b-b09c-9807530a7086"].

(** An [Observable] of the SDK, through the attributes the script reads. *)
Record Observable : Type := {
  obl_value : value;
  obl_type : value;
  obl_tags : value;
  first_seen : value;
  last_seen : value
}.

(** The search built with [Observables(ts)] and its setters. *)
Record query : Type := {
  enclave_ids : list string;
  from_ : Z;
  to_ : Z;
  page_size : Z
}.

(** The TruSTAR 2 side of a run: [str(e)] of the [KeyError] raised by
    [TruStar.config_from_file], if it raises one; the two values of
    [int(... .timestamp() * 1000)]; and, for every search, the [data]
    of the pages it yields, in order. *)
Record TruStar : Type := {
  config_from_file : option string;
  from_time : Z;
  to_time : Z;
  search : query -> list (list Observable)
}.

Inductive event : Type :=
| PrintExiting (text : string)
| PrintRetrievingBetween
| Search (q : query)
| PrintNothingToOutput
| Csv (e : Trustar2Csv.event).

(** [s[1:-1]] *)
Definition slice_1_m1 (s : string) : string :=
  drop_last (match s with
             | EmptyString => EmptyString
             | String _ rest => rest
             end).

Definition to_dict (obl : Observable) : dict :=
  [("value", obl_value obl);
   ("indicatorType", obl_type obl);
   ("tags", obl_tags obl);
   ("firstSeen", first_seen obl);
   ("lastSeen", last_seen obl)].

Definition retrieve_last24h_obls (ts : TruStar) : io event (list dict) :=
  match config_from_file ts with
  | Some e =>
      _ <~ emit (PrintExiting (slice_1_m1 e)) ;;
      lift (Raise (SystemExit 0))
  | None =>
      _ <~ emit PrintRetrievingBetween ;;
      let q := {| enclave_ids := ENCLAVE_IDS;
                  from_ := from_time ts;
                  to_ := to_time ts;
                  page_size := 1000 |} in
      _ <~ emit (Search q) ;;
      let obls := concat (search ts q) in
      ret (map to_dict obls)
  end.

Definition main (ts : TruStar) : io event unit :=
  obls <~ retrieve_last24h_obls ts ;;
  match obls with
  | [] => emit PrintNothingToOutput
  | _ =>
      let (written, r) := Trustar2Csv.obl_dict_to_csv obls in
      (map Csv written, r)
  end.

End Trustar2CsvScript.

(* ================================================================== *)
(** * Definitions the properties are stated with

    The algorithms in the words of the specification, the shapes of the
    records the scripts are written for, and sample data. *)
(* ================================================================== *)

(** ** The URL reclassifier, as a decision tree *)

Module Reclassify.

(** What a destination sees of a mapped record. *)
Inductive outcome : Type :=
| Domain (value : string)
| Url (value : string) (wildcard : option string).

(** The value after [split('://', 1)]. *)
Definition scheme_stripped (v : string) : string :=
  match split1 "://" v with
  | Some (_, rest) => rest
  | None => v
  end.

Definition has_userinfo_or_port (s : string) : bool :=
  (substr "@" s || substr ":" s)%bool.

(** The decision tree in words: strip the scheme; without a slash the
    value is a domain unless it holds ['@'] or [':'], in which case it
    stays a URL as it came; with a slash, an empty path after a network
    location free of ['@'] and [':'] makes it a domain without the
    slash, and anything else a URL with the wildcard value. *)
Definition decision_tree (v : string) : outcome :=
  let s := scheme_stripped v in
  match split1 "/" s with
  | None =>
      if has_userinfo_or_port s then Url v None else Domain s
  | Some (netloc, path) =>
      if (negb (String.eqb path EmptyString) || has_userinfo_or_port netloc)%bool
      then Url v (Some ("*" ++ s)%string)
      else Domain netloc
  end.

(** Reading the outcome off the dictionary the mapper built. *)
Definition observed (fields : dict) : option outcome :=
  match get fields "ioc_type", get fields "value" with
  | VStr t, VStr v =>
      if String.eqb t "domain" then
        match lookup "wildcard" fields with
        | None => Some (Domain v)
        | Some _ => None
        end
      else if String.eqb t "url" then
        match lookup "wildcard" fields with
        | None => Some (Url v None)
        | Some (VStr w) => Some (Url v (Some w))
        | Some _ => None
        end
      else None
  | _, _ => None
  end.

End Reclassify.

Import Reclassify.

(** ** Sample records *)

Definition example_indicator (v : string) : dict :=
  [("value", VStr v); ("indicatorType", VStr "URL"); ("lastSeen", VInt 1700000000000);
   ("tags", VList [VDict [("name", VStr "malware")]])].

Definition example_attribute (ty v : string) (tags : value) : dict :=
  [("value", VStr v); ("type", VStr ty); ("timestamp", VStr "1700000000");
   ("tags", tags); ("event", VStr "OSINT report")].


(** ** Records the mappers are written for *)





(** [ind['type'] not in ('ip-dst', ...)] *)
Definition unsupported (ind : dict) : bool :=
  negb (existsb (eq_str (get ind "type")) MispSplunk.SUPPORTED_TYPES).

(** ** Tags and rows of the CSV writers *)

(** The two shapes tags come in: objects with a [name], or the names
    themselves. *)
Definition tag_objects (ts : list value) (ns : list string) : Prop :=
  Forall2 (fun t n => exists d, t = VDict d /\ lookup "name" d = Some (VStr n)) ts ns.

Definition tag_strings (ts : list value) (ns : list string) : Prop :=
  ts = map VStr ns.

Definition not_tags (rh : string) : bool := negb (String.eqb rh "tags").

(** No [sys.exit] in sight. *)
Definition no_exit {A : Type} (r : result A) : Prop :=
  match r with
  | Raise (SystemExit _) => False
  | _ => True
  end.

(** What one record leaves in the run of a CSV writer: its row, or the
    error message printed in its place. *)
Definition trustar_row_event (header : list string) (split_tags : bool) (ind : dict)
  : Trustar13.event :=
  match Trustar13.csv_row header split_tags ind with
  | Ok row => Trustar13.WriteRow row
  | Raise e => Trustar13.PrintErrorWriting ind e
  end.

Definition misp_row_event (rt : runtime) (header : list string) (ioc : dict)
  : MispCsv.event :=
  match MispCsv.csv_row rt header ioc with
  | Ok row => MispCsv.WriteRow row
  | Raise e => MispCsv.PrintErrorWriting ioc e
  end.

(** A MISP attribute whose only tag is the vetted marker. *)
Definition vetted_only_attribute : dict :=
  [("Tag", VList [VDict [("name", VStr "rhisac: vetted")]]);
   ("type", VStr "domain");
   ("value", VStr "evil.example")].

(** ** Tags kept by [filter_results] *)

(** The tag names other than the vetted marker, in order. *)
Definition kept_names (ns : list string) : list string :=
  filter (fun n => negb (String.eqb n MispCsv.VETTED_TAG)) ns.

Fixpoint has_char (c : ascii) (s : string) : bool :=
  match s with
  | EmptyString => false
  | String x s' => (Ascii.eqb x c || has_char c s')%bool
  end.

(** An [Event] entry, when there is one, is an object with an [info]. *)
Definition event_has_info (ioc : dict) : Prop :=
  forall v, lookup "Event" ioc = Some v ->
            exists d info, v = VDict d /\ lookup "info" d = Some info.

(** A MISP attribute as [filter_results] expects it: a dictionary,
    whose [Tag] entry, when there is one, is a list of objects with a
    [name], and whose [Event] entry, when there is one, has an [info]. *)
Definition tagged_attribute (ioc : dict) : Prop :=
  NoDup (keys ioc) /\
  (forall v, lookup "Tag" ioc = Some v -> exists ts ns, v = VList ts /\ tag_objects ts ns) /\
  event_has_info ioc.

(** The vetted marker is none of the pieces of a ["|"]-joined string. *)
Definition marker_free (s : string) : Prop :=
  ~ In MispCsv.VETTED_TAG (split_char "|" s).

(** What [filter_results] makes of the tags of an attribute, read off
    the attribute [ioc] and the record [keep] returned for it. *)
Definition marker_filtered (ioc keep : dict) : Prop :=
  forall ts ns,
    NoDup (keys ioc) ->
    lookup "Tag" ioc = Some (VList ts) ->
    tag_objects ts ns ->
    lookup "tags" keep = Some (VStr (String.concat "|" (kept_names ns))) /\
    ~ In MispCsv.VETTED_TAG (kept_names ns) /\
    (forall n, In n ns -> n <> MispCsv.VETTED_TAG -> In n (kept_names ns)) /\
    (Forall (fun n => has_char "|" n = false) ns ->
     marker_free (String.concat "|" (kept_names ns))).

(** Two attributes as MISP returns them. *)
Definition sample_attributes : list dict :=
  [[("value", VStr "evil.example"); ("type", VStr "domain");
    ("timestamp", VStr "1700000000");
    ("Tag", VList [VDict [("name", VStr "rhisac: vetted")];
                   VDict [("name", VStr "tlp:amber")]]);
    ("Event", VDict [("info", VStr "OSINT report")])];
   [("value", VStr "198.51.100.7"); ("type", VStr "ip-dst");
    ("timestamp", VStr "1700000100");
    ("Tag", VList [VDict [("name", VStr "botnet")];
                   VDict [("name", VStr "rhisac: vetted")];
                   VDict [("name", VStr "tlp:green")]]);
    ("Event", VDict [("info", VStr "Sinkhole feed")])]].

(** ** Pagination, in the words of the specification *)


(** Pages come ordered by [last_seen], newest first. *)
Definition newest_first (page : list Trustar13.Indicator) : Prop :=
  StronglySorted (fun a b => Trustar13.last_seen a >= Trustar13.last_seen b) page.

Section Pagination.

Variable ts : Trustar13.TruStar.
Variable from_time : Z.
Variable enclaves : list string.
Variable ioc_types : list string.

(** The query "bounded by [from, pg_to]". *)
Definition bounded_query (upper : Z) : Trustar13.query :=
  {| Trustar13.q_enclave_ids := enclaves;
     Trustar13.q_from_time := from_time;
     Trustar13.q_to_time := upper;
     Trustar13.q_indicator_types := ioc_types;
     Trustar13.q_page_size := 1000 |}.



End Pagination.

(** The searches a run made, in order. *)
Fixpoint searches_of (out : list Trustar13.event) : list Trustar13.query :=
  match out with
  | [] => []
  | Trustar13.ApiSearch q :: rest => q :: searches_of rest
  | _ :: rest => searches_of rest
  end.

(** Turns of the loop that are enough for a window. *)
Definition enough_fuel (from_time to_time : Z) : nat :=
  Z.to_nat (Z.max 1 (to_time - from_time + 2)).

(** A service that orders its pages and respects the upper bound of the
    query. *)
Definition orders_pages (ts : Trustar13.TruStar) : Prop :=
  forall n q, newest_first (Trustar13.search_indicators_page ts n q).

Definition respects_upper_bound (ts : Trustar13.TruStar) : Prop :=
  forall n q item,
    In item (Trustar13.search_indicators_page ts n q) ->
    Trustar13.last_seen item <= Trustar13.q_to_time q.

(** ** A synthetic source *)

(** [N] records held by the source, served newest first in pages of at
    most [P] records, out of those inside the bounds of the query. *)
Definition in_window (q : Trustar13.query) (r : Trustar13.Indicator) : bool :=
  ((Trustar13.q_from_time q <=? Trustar13.last_seen r)
   && (Trustar13.last_seen r <=? Trustar13.q_to_time q))%bool.

Definition synthetic_page (P : nat) (records : list Trustar13.Indicator)
  (q : Trustar13.query) : list Trustar13.Indicator :=
  firstn (Nat.min P (Trustar13.q_page_size q)) (filter (in_window q) records).

Definition to_dict (item : Trustar13.Indicator) : dict :=
  [("value", VStr (Trustar13.ind_value item));
   ("indicatorType", VStr (Trustar13.ind_type item));
   ("tags", VList []);
   ("firstSeen", VInt (Trustar13.last_seen item));
   ("lastSeen", VInt (Trustar13.last_seen item))].

Definition synthetic_source (P : nat) (records : list Trustar13.Indicator)
  : Trustar13.TruStar :=
  {| Trustar13.ping_fails := false;
     Trustar13.enclave_ids := [];
     Trustar13.get_user_enclaves :=
       [(Trustar13.DEFAULT_ENCLAVE, "RH-ISAC Vetted Indicators")];
     Trustar13.search_indicators_page := fun _ q => synthetic_page P records q;
     Trustar13.get_indicators_metadata := fun items _ => map to_dict items |}.

Definition strictly_decreasing (records : list Trustar13.Indicator) : Prop :=
  StronglySorted (fun a b => Trustar13.last_seen a > Trustar13.last_seen b) records.

Definition ceil_div (n p : nat) : nat := ((n + p - 1) / p)%nat.

(** The pages a run fetched the metadata of, in order. *)
Fixpoint pages_of (out : list Trustar13.event) : list (list Trustar13.Indicator) :=
  match out with
  | [] => []
  | Trustar13.ApiGetMetadata items :: rest => items :: pages_of rest
  | _ :: rest => pages_of rest
  end.

Definition sample_records : list Trustar13.Indicator :=
  [ {| Trustar13.ind_value := "evil.example"; Trustar13.ind_type := "URL";
       Trustar13.last_seen := 1700000005000 |};
    {| Trustar13.ind_value := "198.51.100.7"; Trustar13.ind_type := "IP";
       Trustar13.last_seen := 1700000004000 |};
    {| Trustar13.ind_value := "203.0.113.9"; Trustar13.ind_type := "IP";
       Trustar13.last_seen := 1700000003000 |};
    {| Trustar13.ind_value := "bad.example"; Trustar13.ind_type := "URL";
       Trustar13.last_seen := 1700000002000 |};
    {| Trustar13.ind_value := "worse.example"; Trustar13.ind_type := "URL";
       Trustar13.last_seen := 1700000001000 |} ].

(** ** Runs of the command line *)

Definition is_request (e : Trustar13.event) : bool :=
  match e with
  | Trustar13.ApiPing | Trustar13.ApiGetUserEnclaves
  | Trustar13.ApiSearch _ | Trustar13.ApiGetMetadata _ => true
  | _ => false
  end.

Definition is_write (e : Trustar13.event) : bool :=
  match e with
  | Trustar13.WriteRow _ | Trustar13.WriteJson _ => true
  | _ => false
  end.

Definition sample_clock : Trustar13.clock :=
  {| Trustar13.now_for_from := 1700000010000;
     Trustar13.now_for_to := 1700000010000 |}.

(** A calendar for runs whose time arguments are day counts: it reads
    decimal day counts and knows no date format. *)
Definition day_count_calendar : Trustar13.calendar :=
  {| Trustar13.parse_days :=
       fun s => match ref_int_of_str s with Ok z => Some z | Raise _ => None end;
     Trustar13.days_before_utcnow := fun d => Ok (1700000010000 - d * Trustar13.DAY_MS);
     Trustar13.utcnow := 1700000010000;
     Trustar13.strptime_date := fun _ => None;
     Trustar13.strptime_datetime := fun _ => None |}.

(** [get_trustar_iocs.py -v -vt] *)
Definition both_flags : Trustar13.arguments :=
  {| Trustar13.outfile := None;
     Trustar13.arg_all := false;
     Trustar13.arg_csv := false;
     Trustar13.arg_enclaves := EmptyString;
     Trustar13.arg_from_time := None;
     Trustar13.arg_types := EmptyString;
     Trustar13.arg_last_days := None;
     Trustar13.arg_min_calls := false;
     Trustar13.arg_split_tags := false;
     Trustar13.arg_to_time := None;
     Trustar13.arg_only_vals := true;
     Trustar13.arg_only_vt := true |}.

(** ** Blocks submitted to CrowdStrike *)

(** What the first loop of [upload_iocs] makes of one IOC: its encoded
    form when its type has an entry in [TYPE_MAP], or the type and value
    named in the message printed for it. *)
Definition classify (expiration_timestamp : string) (ioc : dict)
  : result (value + value * value) :=
  ty <- getitem ioc "type" ;;
  m <- MispCrowdstrike.mapped_type ty ;;
  match m with
  | Some cs_type =>
      d <- MispCrowdstrike.ioc_dict expiration_timestamp cs_type ioc ;; Ok (inl d)
  | None =>
      v <- getitem ioc "value" ;; Ok (inr (ty, v))
  end.

Fixpoint encoded_of (cs : list (value + value * value)) : list value :=
  match cs with
  | [] => []
  | inl d :: rest => d :: encoded_of rest
  | inr _ :: rest => encoded_of rest
  end.

Fixpoint messages_of (cs : list (value + value * value)) : list MispCrowdstrike.event :=
  match cs with
  | [] => []
  | inl _ :: rest => messages_of rest
  | inr (ty, v) :: rest => MispCrowdstrike.PrintNoType ty v :: messages_of rest
  end.

(** Consecutive blocks of at most [n]: none is empty, none is longer
    than [n], and only the last may be shorter. *)
Definition well_chunked {A : Type} (n : nat) (blocks : list (list A)) : Prop :=
  Forall (fun b => b <> [] /\ (List.length b <= n)%nat) blocks /\
  (forall pre last, blocks = pre ++ [last] ->
                    Forall (fun b => List.length b = n) pre).

(** [ioc_block.append(ioc_dict)] and the test that follows it. *)
Definition push (st : MispCrowdstrike.blocks_state) (d : value)
  : MispCrowdstrike.blocks_state :=
  let block := MispCrowdstrike.ioc_block st ++ [d] in
  if Nat.leb MispCrowdstrike.BLOCK_SIZE (List.length block)
  then {| MispCrowdstrike.ioc_count := S (MispCrowdstrike.ioc_count st);
          MispCrowdstrike.ioc_blocks := MispCrowdstrike.ioc_blocks st ++ [block];
          MispCrowdstrike.ioc_block := [] |}
  else {| MispCrowdstrike.ioc_count := S (MispCrowdstrike.ioc_count st);
          MispCrowdstrike.ioc_blocks := MispCrowdstrike.ioc_blocks st;
          MispCrowdstrike.ioc_block := block |}.

(** What the first loop keeps true of its variables. *)
Definition blocks_invariant (st : MispCrowdstrike.blocks_state) : Prop :=
  (List.length (MispCrowdstrike.ioc_block st) < MispCrowdstrike.BLOCK_SIZE)%nat /\
  Forall (fun b => List.length b = MispCrowdstrike.BLOCK_SIZE)
    (MispCrowdstrike.ioc_blocks st).

Definition contents (st : MispCrowdstrike.blocks_state) : list value :=
  concat (MispCrowdstrike.ioc_blocks st) ++ MispCrowdstrike.ioc_block st.





Definition sample_expiration : string := "2027-05-02T00:00:00.000Z".

(** The dictionary [upload_iocs] builds for a domain. *)
Definition falcon_domain (v description : string) : value :=
  VDict [("source", VStr "RH-ISAC Vetted");
         ("action", VStr "detect");
         ("expiration", VStr sample_expiration);
         ("description", VStr description);
         ("type", VStr "domain");
         ("value", VStr v);
         ("severity", VStr "HIGH");
         ("applied_globally", VBool true);
         ("platforms", VList [VStr "windows"])].

Definition filtered_ioc (ty v tags : string) : dict :=
  [("value", VStr v); ("type", VStr ty); ("timestamp", VStr "1700000000");
   ("tags", VStr tags); ("event", VStr "OSINT report")].

Definition sample_filtered : list dict :=
  [filtered_ioc "domain" "evil.example" "tlp:amber";
   filtered_ioc "filename" "invoice.exe" "tlp:amber";
   filtered_ioc "domain" "bad.example" "tlp:green"].

Definition sample_classified : list (value + value * value) :=
  [inl (falcon_domain "evil.example" "tlp:amber");
   inr (VStr "filename", VStr "invoice.exe");
   inl (falcon_domain "bad.example" "tlp:green")].

(** The requests a run made, in order. *)
Fixpoint requests_of (out : list MispCrowdstrike.event) : list (list value) :=
  match out with
  | [] => []
  | MispCrowdstrike.IndicatorCreate _ indicators :: rest => indicators :: requests_of rest
  | _ :: rest => requests_of rest
  end.

(** The error entry of a 400 answer that names a duplicate. *)
Definition duplicate_error (v : string) : dict :=
  [("message", VStr "Warning: Duplicate type: 'domain' and value: 'evil.example' combination.");
   ("value", VStr v)].

(** A service that refuses the first request over a duplicate of
    [evil.example] and accepts the second. *)
Definition refuse_once : MispCrowdstrike.falcon :=
  fun n _ =>
    match n with
    | O => {| MispCrowdstrike.status_code := 400;
              MispCrowdstrike.resources := [duplicate_error "evil.example"] |}
    | _ => {| MispCrowdstrike.status_code := 201;
              MispCrowdstrike.resources := [] |}
    end.

(** The enclaves [retrieve_iocs] queries: the caller's, else the
    configured ones, else the vetted enclave. *)
Definition resolved_enclaves (ts : Trustar13.TruStar) (enclaves : list string)
  : list string :=
  match enclaves with
  | [] => match Trustar13.enclave_ids ts with
          | [] => [Trustar13.DEFAULT_ENCLAVE]
          | ids => ids
          end
  | _ => enclaves
  end.

(** A service that ignores the bounds of the query and always answers
    with the same record. *)
Definition stubborn_source : Trustar13.TruStar :=
  {| Trustar13.ping_fails := false;
     Trustar13.enclave_ids := [];
     Trustar13.get_user_enclaves := [];
     Trustar13.search_indicators_page :=
       fun _ _ => [ {| Trustar13.ind_value := "evil.example";
                       Trustar13.ind_type := "URL";
                       Trustar13.last_seen := 1700000005000 |} ];
     Trustar13.get_indicators_metadata := fun items _ => map to_dict items |}.




(** ** More about runs of [get_trustar_iocs.py] *)

(** The window [retrieve_iocs] queries: the bounds it is given, and the
    last 24 hours by the clock for a bound that is missing. *)
Definition window_from (clk : Trustar13.clock) (from_time : option Z) : Z :=
  match from_time with
  | Some t => t
  | None => Trustar13.now_for_from clk - Trustar13.DAY_MS
  end.

Definition window_to (clk : Trustar13.clock) (to_time : option Z) : Z :=
  match to_time with
  | Some t => t
  | None => Trustar13.now_for_to clk
  end.

(** A service that answers every search, whatever its bounds, with a
    page whose last record was seen after [from_time]. *)
Definition answers_above (ts : Trustar13.TruStar) (from_time : Z) : Prop :=
  forall n q, exists first rest,
    Trustar13.search_indicators_page ts n q = first :: rest /\
    from_time < Trustar13.last_seen (List.last (first :: rest) first).

Definition decreasing (bounds : list Z) : Prop :=
  StronglySorted (fun a b => a > b) bounds.

(** Every record of a page is newer than every record of the pages
    fetched after it. *)
Fixpoint separated (pages : list (list Trustar13.Indicator)) : Prop :=
  match pages with
  | [] => True
  | page :: later =>
      (forall x y, In x page -> In y (concat later) ->
                   Trustar13.last_seen y < Trustar13.last_seen x) /\
      separated later
  end.

(** Two clients that differ at most in the enclaves the user can see. *)
Definition same_answers (ts ts' : Trustar13.TruStar) : Prop :=
  Trustar13.ping_fails ts = Trustar13.ping_fails ts' /\
  Trustar13.enclave_ids ts = Trustar13.enclave_ids ts' /\
  (forall n q, Trustar13.search_indicators_page ts n q
               = Trustar13.search_indicators_page ts' n q) /\
  (forall items encs, Trustar13.get_indicators_metadata ts items encs
                      = Trustar13.get_indicators_metadata ts' items encs).

(** The command line with other values for [-f] and [-t]. *)
Definition with_bounds (args : Trustar13.arguments) (f t : option string)
  : Trustar13.arguments :=
  {| Trustar13.outfile := Trustar13.outfile args;
     Trustar13.arg_all := Trustar13.arg_all args;
     Trustar13.arg_csv := Trustar13.arg_csv args;
     Trustar13.arg_enclaves := Trustar13.arg_enclaves args;
     Trustar13.arg_from_time := f;
     Trustar13.arg_types := Trustar13.arg_types args;
     Trustar13.arg_last_days := Trustar13.arg_last_days args;
     Trustar13.arg_min_calls := Trustar13.arg_min_calls args;
     Trustar13.arg_split_tags := Trustar13.arg_split_tags args;
     Trustar13.arg_to_time := t;
     Trustar13.arg_only_vals := Trustar13.arg_only_vals args;
     Trustar13.arg_only_vt := Trustar13.arg_only_vt args |}.

(** [get_trustar_iocs.py -l 7] and [get_trustar_iocs.py -l week]. *)
Definition last_days_run (text : string) : Trustar13.arguments :=
  {| Trustar13.outfile := None;
     Trustar13.arg_all := false;
     Trustar13.arg_csv := false;
     Trustar13.arg_enclaves := EmptyString;
     Trustar13.arg_from_time := None;
     Trustar13.arg_types := EmptyString;
     Trustar13.arg_last_days := Some text;
     Trustar13.arg_min_calls := false;
     Trustar13.arg_split_tags := false;
     Trustar13.arg_to_time := None;
     Trustar13.arg_only_vals := false;
     Trustar13.arg_only_vt := false |}.

(** A client whose ping is refused. *)
Definition unreachable_source : Trustar13.TruStar :=
  {| Trustar13.ping_fails := true;
     Trustar13.enclave_ids := [];
     Trustar13.get_user_enclaves := [];
     Trustar13.search_indicators_page := fun _ _ => [];
     Trustar13.get_indicators_metadata := fun _ _ => [] |}.

(** The client of a user who sees no enclave. *)
Definition without_access (ts : Trustar13.TruStar) : Trustar13.TruStar :=
  {| Trustar13.ping_fails := Trustar13.ping_fails ts;
     Trustar13.enclave_ids := Trustar13.enclave_ids ts;
     Trustar13.get_user_enclaves := [];
     Trustar13.search_indicators_page := Trustar13.search_indicators_page ts;
     Trustar13.get_indicators_metadata := Trustar13.get_indicators_metadata ts |}.

(** The requests of a run, in order. *)
Definition requests_made (out : list Trustar13.event) : list Trustar13.event :=
  filter is_request out.

(** ** Records the CSV writers cannot write *)

(** What one observable leaves in the run of [obl_dict_to_csv]. *)
Definition trustar2_row_event (header : list string) (observable : dict)
  : Trustar2Csv.event :=
  match Trustar2Csv.csv_row header observable with
  | Ok row => Trustar2Csv.WriteRow row
  | Raise e => Trustar2Csv.PrintErrorWriting observable e
  end.

(** The record has no entry for one of the columns the first record
    gave the file. *)
Definition lacks_a_column (first record : dict) : Prop :=
  exists k, In k (keys first) /\ k <> "tags" /\ lookup k record = None.

(** ** The fields [filter_results] keeps *)

(** The key under which an entry of a MISP attribute is kept, if it is. *)
Definition output_key (k : string) : option string :=
  if negb (existsb (String.eqb k) MispCsv.OUTPUT_FIELDS) then None
  else if String.eqb k "Tag" then Some "tags"
  else if String.eqb k "Event" then Some "event"
  else Some k.

(** ** Duplicates named by a 400 answer *)

(** An indicator as [upload_iocs] builds it from an IOC whose value is
    a string. *)
Definition string_valued (ioc : value) : Prop :=
  exists d s, ioc = VDict d /\ lookup "value" d = Some (VStr s).

(** [ioc.get("value") == duplicate_ioc_value] and its negation. *)
Definition names_it (duplicate_ioc_value ioc : value) : bool :=
  value_eqb (MispCrowdstrike.ioc_value ioc) duplicate_ioc_value.

Definition spared (duplicate_ioc_value ioc : value) : bool :=
  negb (names_it duplicate_ioc_value ioc).

(** No two neighbours of the list satisfy [p]. *)
Fixpoint no_neighbours {A : Type} (p : A -> bool) (l : list A) : Prop :=
  match l with
  | [] => True
  | x :: r =>
      match r with
      | [] => True
      | y :: _ => (p x && p y)%bool = false
      end /\ no_neighbours p r
  end.

(** ** The Splunk mappers on addresses, URLs and tags *)

(** The [cidr] field of an address: the value itself when what follows
    its first slash reads as an integer no greater than 32, and the value
    with "/32" appended in every other case. *)
Definition cidr_of (rt : runtime) (v : string) : string :=
  match split1 "/" v with
  | Some (_, suffix) =>
      match rt_int_of_str rt suffix with
      | Ok n => if n <=? 32 then v else (v ++ "/32")%string
      | Raise _ => (v ++ "/32")%string
      end
  | None => (v ++ "/32")%string
  end.

(** The MISP copy of the URL branch: the decision tree without its
    branch for a value that holds no slash. *)
Definition misp_decision_tree (v : string) : outcome :=
  if substr "/" (scheme_stripped v) then decision_tree v else Url v None.



Definition ipv6_block : dict :=
  [("value", VStr "2001:db8::/64"); ("indicatorType", VStr "CIDR_BLOCK");
   ("lastSeen", VInt 1700000000000); ("tags", VList [])].

(** ** Runs of the delivery to Splunk *)

(** The requests of a run, in order. *)
Fixpoint requests_in (out : list Splunk.event) : list Splunk.request :=
  match out with
  | [] => []
  | Splunk.Request r :: rest => r :: requests_in rest
  | _ :: rest => requests_in rest
  end.

(** The session key in the answer to the login, when there is one. *)
Definition session_key (answer : Splunk.response + string) : option value :=
  match answer with
  | inl auth_resp =>
      match Splunk.json auth_resp with
      | Some body =>
          match subscript body (VStr "sessionKey") with
          | Ok key => Some key
          | Raise _ => None
          end
      | None => None
      end
  | inr _ => None
  end.

(** The headers of a session, once [post_iocs_to_splunk] has added the
    content type. *)
Definition session_headers (rt : runtime) (key : value) : dict :=
  [("Authorization", VStr ("Splunk " ++ str rt key));
   ("Content-Type", VStr "application/json")].

(** The one request that carries the records. *)
Definition batch_save (rt : runtime) (base key : value) (iocs : list dict)
  : Splunk.request :=
  {| Splunk.req_method := Splunk.POST;
     Splunk.req_url :=
       str rt base ++ "/servicesNS/nobody/search/storage/collections/data/"
         ++ Splunk.SPLUNK_KVSTORE_NAME ++ "/batch_save";
     Splunk.req_headers := Some (session_headers rt key);
     Splunk.req_payload := Splunk.Json iocs |}.

Definition is_batch (r : Splunk.request) : bool :=
  match Splunk.req_payload r with
  | Splunk.Json _ => true
  | _ => false
  end.

(** The answer to [GET .../collections/config/threat_intel] that makes
    the script create the collection. *)
Definition collection_missing (resp : Splunk.response) : bool :=
  ((Splunk.status_code resp =? 404)
   && substr "Could not find object id" (Splunk.content resp))%bool.

(** A Splunk that lets the script in: it answers the login with a
    session key, knows the collection and accepts the batch. *)
Definition splunk_ok (key : value) : Splunk.server :=
  fun _ r =>
    inl {| Splunk.status_code := 200;
           Splunk.content := "b'{}'";
           Splunk.json := Some (VDict [("sessionKey", key)]) |}.

(** A Splunk that cannot be reached. *)
Definition splunk_down : Splunk.server :=
  fun _ _ => inr "Connection refused".

(** The contents of [splunk.conf]. *)
Definition sample_splunk_conf : result value :=
  Ok (VDict [("base_url", VStr "https://splunk.example:8089");
             ("username", VStr "svc_intel"); ("password", VStr "hunter2")]).

(** [rh-isac.conf] with every section and option the MISP script asks
    for. *)
Definition sample_config : MispSplunkScript.config :=
  {| MispSplunkScript.found := fun _ => true;
     MispSplunkScript.sections := ["RH-ISAC MISP"; "splunk"];
     MispSplunkScript.option_value :=
       fun section name =>
         if String.eqb section "splunk" then
           if String.eqb name "base_url" then Some "https://splunk.example:8089"
           else if String.eqb name "username" then Some "svc_intel"
           else if String.eqb name "password" then Some "hunter2"
           else None
         else if String.eqb name "Key" then Some "0123456789abcdef"
         else None |}.

(** A MISP that returns one vetted attribute. *)
Definition sample_misp : MispSplunkScript.misp :=
  {| MispSplunkScript.connect := fun _ => None;
     MispSplunkScript.search :=
       fun _ => inl (VDict [("Attribute",
                             VList [VDict [("value", VStr "evil.example");
                                           ("type", VStr "domain");
                                           ("timestamp", VStr "1700000000");
                                           ("Tag", VList [VDict [("name", VStr "rhisac: vetted")]]);
                                           ("Event", VDict [("info", VStr "OSINT report")])]])]) |}.

(** The two requests of [check_splunk_kvstore]. *)
Definition kvstore_lookup (rt : runtime) (st : Splunk.state) : Splunk.request :=
  {| Splunk.req_method := Splunk.GET;
     Splunk.req_url := Splunk.config_url rt st ++ Splunk.SPLUNK_KVSTORE_NAME;
     Splunk.req_headers := Splunk.SPLUNK_HEADERS st;
     Splunk.req_payload := Splunk.NoPayload |}.

Definition kvstore_create (rt : runtime) (st : Splunk.state) : Splunk.request :=
  {| Splunk.req_method := Splunk.POST;
     Splunk.req_url := Splunk.config_url rt st;
     Splunk.req_headers := Splunk.SPLUNK_HEADERS st;
     Splunk.req_payload := Splunk.Data [("name", VStr Splunk.SPLUNK_KVSTORE_NAME)] |}.

(** The state after a login that was answered with a session key. *)
Definition logged_in (rt : runtime) (base key : value) : Splunk.state :=
  {| Splunk.SPLUNK_HEADERS := Some [("Authorization", VStr ("Splunk " ++ str rt key))];
     Splunk.SPLUNK_BASE_URL := base;
     Splunk.calls := 1 |}.

(** What [auth_to_splunk] of the TruSTAR script reads in [splunk.conf]:
    the base URL, the user name and the password. *)
Definition splunk_settings (s_conf : result value) : result (value * value * value) :=
  conf <- s_conf ;;
  base <- subscript conf (VStr "base_url") ;;
  username <- subscript conf (VStr "username") ;;
  password <- subscript conf (VStr "password") ;;
  Ok (base, username, password).

(** The conversations a script can have with Splunk: the login alone;
    or, once the login was answered with a session key, the look-up of
    the collection, its creation if it is missing, and the batch of
    records last. *)
Definition conversation (rt : runtime) (srv : Splunk.server)
  (base username password : value) (iocs : list dict)
  (requests : list Splunk.request) : Prop :=
  requests = [Splunk.login_request rt base username password] \/
  exists key,
    session_key (srv 0%nat (Splunk.login_request rt base username password)) = Some key /\
    (requests = [Splunk.login_request rt base username password;
                 kvstore_lookup rt (logged_in rt base key)]
     \/ requests = [Splunk.login_request rt base username password;
                    kvstore_lookup rt (logged_in rt base key);
                    kvstore_create rt (logged_in rt base key)]
     \/ requests = [Splunk.login_request rt base username password;
                    kvstore_lookup rt (logged_in rt base key);
                    batch_save rt base key iocs]
     \/ requests = [Splunk.login_request rt base username password;
                    kvstore_lookup rt (logged_in rt base key);
                    kvstore_create rt (logged_in rt base key);
                    batch_save rt base key iocs]).

(** The requests of a delivery, decided by the answers: the login;
    then, if its answer holds a session key, the look-up of the
    collection; then, if the look-up is answered and the answer says the
    collection is missing, its creation; and last the batch of records,
    unless the look-up or the creation failed. *)
Definition splunk_requests (rt : runtime) (srv : Splunk.server)
  (base username password : value) (iocs : list dict) : list Splunk.request :=
  Splunk.login_request rt base username password
  :: match session_key (srv 0%nat (Splunk.login_request rt base username password)) with
     | None => []
     | Some key =>
         kvstore_lookup rt (logged_in rt base key)
         :: match srv 1%nat (kvstore_lookup rt (logged_in rt base key)) with
            | inr _ => []
            | inl found =>
                if collection_missing found then
                  kvstore_create rt (logged_in rt base key)
                  :: match srv 2%nat (kvstore_create rt (logged_in rt base key)) with
                     | inr _ => []
                     | inl created =>
                         if Splunk.status_code created =? 201
                         then [batch_save rt base key iocs]
                         else []
                     end
                else [batch_save rt base key iocs]
            end
     end.

(** A Splunk that has no collection yet: it answers the look-up, the
    second request, with 404, and the creation with 201. *)
Definition splunk_without_collection (key : value) : Splunk.server :=
  fun n r =>
    match n with
    | 1%nat => inl {| Splunk.status_code := 404;
                      Splunk.content := "Could not find object id=threat_intel";
                      Splunk.json := None |}
    | 2%nat => inl {| Splunk.status_code := 201;
                      Splunk.content := "b'{}'";
                      Splunk.json := None |}
    | _ => inl {| Splunk.status_code := 200;
                  Splunk.content := "b'{}'";
                  Splunk.json := Some (VDict [("sessionKey", key)]) |}
    end.

(** ** From a MISP attribute to a Falcon indicator *)

(** The indicator [upload_iocs] submits for a value of Falcon type
    [cs_type] with the given description. *)
Definition falcon_indicator (expiration_timestamp cs_type description : string)
  (v : value) : value :=
  VDict [("source", VStr "RH-ISAC Vetted");
         ("action", VStr "detect");
         ("expiration", VStr expiration_timestamp);
         ("description", VStr description);
         ("type", VStr cs_type);
         ("value", v);
         ("severity", VStr "HIGH");
         ("applied_globally", VBool true);
         ("platforms", VList [VStr "windows"])].

(** ** The file written by [get_24h_trustar2_iocs_csv.py] *)

(** The one search of a run. *)
Definition last24h_query (ts : Trustar2CsvScript.TruStar) : Trustar2CsvScript.query :=
  {| Trustar2CsvScript.enclave_ids := Trustar2CsvScript.ENCLAVE_IDS;
     Trustar2CsvScript.from_ := Trustar2CsvScript.from_time ts;
     Trustar2CsvScript.to_ := Trustar2CsvScript.to_time ts;
     Trustar2CsvScript.page_size := 1000 |}.

(** The line of the file for an observable tagged with [ns]. *)
Definition observable_line (o : Trustar2CsvScript.Observable) (ns : list string)
  : list value :=
  [Trustar2CsvScript.obl_value o; Trustar2CsvScript.obl_type o;
   Trustar2CsvScript.first_seen o; Trustar2CsvScript.last_seen o]
  ++ match ns with
     | [] => []
     | _ => [VStr (String.concat "|" ns)]
     end.

Definition written_line (cells : list value) : Trustar2CsvScript.event :=
  Trustar2CsvScript.Csv (Trustar2Csv.WriteRow cells).

(** The names in a list of tags given as names. *)
Definition string_names (tags : value) : list string :=
  match tags with
  | VList ts => flat_map (fun t => match t with VStr s => [s] | _ => [] end) ts
  | _ => []
  end.

Definition sample_observables : list (list Trustar2CsvScript.Observable) :=
  [[{| Trustar2CsvScript.obl_value := VStr "198.51.100.7";
       Trustar2CsvScript.obl_type := VStr "IP4";
       Trustar2CsvScript.obl_tags := VList [VStr "botnet"; VStr "c2"];
       Trustar2CsvScript.first_seen := VInt 1699990000000;
       Trustar2CsvScript.last_seen := VInt 1700000000000 |};
    {| Trustar2CsvScript.obl_value := VStr "login.example.net";
       Trustar2CsvScript.obl_type := VStr "URL";
       Trustar2CsvScript.obl_tags := VList [];
       Trustar2CsvScript.first_seen := VInt 1699980000000;
       Trustar2CsvScript.last_seen := VInt 1699995000000 |}];
   [{| Trustar2CsvScript.obl_value := VStr "d41d8cd98f00b204e9800998ecf8427e";
       Trustar2CsvScript.obl_type := VStr "MD5";
       Trustar2CsvScript.obl_tags := VList [VStr "phishing"];
       Trustar2CsvScript.first_seen := VInt 1699970000000;
       Trustar2CsvScript.last_seen := VInt 1699990000000 |}]].

Definition sample_trustar2 : Trustar2CsvScript.TruStar :=
  {| Trustar2CsvScript.config_from_file := None;
     Trustar2CsvScript.from_time := 1699913600000;
     Trustar2CsvScript.to_time := 1700000000000;
     Trustar2CsvScript.search := fun _ => sample_observables |}.

(* ================================================================== *)
(** * Properties *)
(* ================================================================== *)

(** ** Strings and the result monad *)

Lemma bind_ok {A B : Type} (m : result A) (k : A -> result B) (b : B) :
  (x <- m ;; k x) = Ok b -> exists a, m = Ok a /\ k a = Ok b.
Proof.
  destruct m as [a | e]; simpl; intros H.
  - exists a; split; [reflexivity | exact H].
  - discriminate H.
Qed.

Lemma mapM_Forall2 {A B : Type} (f : A -> result B) (l : list A) (out : list B) :
  mapM f l = Ok out -> Forall2 (fun x y => f x = Ok y) l out.
Proof.
  revert out; induction l as [| x l IH]; intros out; cbn [mapM].
  - intros [= <-]; constructor.
  - intros H; apply bind_ok in H as (y & Hy & H).
    apply bind_ok in H as (ys & Hys & H); injection H as <-.
    constructor; [exact Hy | apply IH, Hys].
Qed.

Lemma mapM_app {A B : Type} (f : A -> result B) (l1 l2 : list A) (o1 o2 : list B) :
  mapM f l1 = Ok o1 -> mapM f l2 = Ok o2 -> mapM f (l1 ++ l2) = Ok (o1 ++ o2).
Proof.
  revert o1; induction l1 as [| x l1 IH]; intros o1; cbn [mapM app].
  - intros [= <-] H2; exact H2.
  - intros H H2; apply bind_ok in H as (y & Hy & H).
    apply bind_ok in H as (ys & Hys & H); injection H as <-.
    rewrite Hy, (IH ys Hys H2); reflexivity.
Qed.

Lemma getitem_lookup (d : dict) (k : string) (v : value) :
  lookup k d = Some v -> getitem d k = Ok v.
Proof. unfold getitem; intros ->; reflexivity. Qed.

Lemma getitem_ok (d : dict) (k : string) (v : value) :
  getitem d k = Ok v -> lookup k d = Some v.
Proof. unfold getitem; destruct (lookup k d); congruence. Qed.

Lemma split1_slash_cons (c : ascii) (s : string) :
  split1 "/" (String c s) =
  if Ascii.eqb c "/"%char then Some (EmptyString, s)
  else match split1 "/" s with
       | Some (a, b) => Some (String c a, b)
       | None => None
       end.
Proof.
  cbn [split1 String.prefix String.length drop].
  destruct (ascii_dec "/" c) as [<- | Hne].
  - destruct s; reflexivity.
  - destruct (Ascii.eqb_spec c "/"%char) as [-> | _]; [contradiction Hne; reflexivity |].
    reflexivity.
Qed.

(** Splitting at the first slash gives back the string. *)
Lemma split1_slash_app (s netloc remainder : string) :
  split1 "/" s = Some (netloc, remainder) ->
  s = (netloc ++ "/" ++ remainder)%string /\ substr "/" netloc = false.
Proof.
  revert netloc remainder; induction s as [| c s IH]; intros netloc remainder.
  - discriminate.
  - rewrite split1_slash_cons.
    destruct (Ascii.eqb_spec c "/"%char) as [-> | Hne].
    + intros [= <- <-]; split; reflexivity.
    + destruct (split1 "/" s) as [[a b] |] eqn:E; [| discriminate].
      intros [= <- <-].
      destruct (IH a b eq_refl) as [-> Hno]; split; [reflexivity |].
      unfold substr in *; rewrite split1_slash_cons.
      destruct (Ascii.eqb_spec c "/"%char) as [-> | _]; [contradiction Hne; reflexivity |].
      destruct (split1 "/" a) as [[? ?] |]; [discriminate Hno | reflexivity].
Qed.

Lemma drop_last_snoc (a : string) (c : ascii) :
  drop_last (a ++ String c EmptyString) = a.
Proof.
  induction a as [| x a IH]; [reflexivity |].
  cbn [append drop_last]; rewrite IH.
  destruct a; reflexivity.
Qed.

(** [value[:-1]] of a value that ends at its first slash is the network
    location. *)
Lemma drop_last_netloc (s netloc : string) :
  split1 "/" s = Some (netloc, EmptyString) -> drop_last s = netloc.
Proof.
  intros H; destruct (split1_slash_app _ _ _ H) as [-> _].
  apply drop_last_snoc.
Qed.

(** ** The URL reclassifier *)

Lemma trustar_strip_scheme (v : string) :
  Trustar2Splunk.strip_scheme (VStr v) = Ok (VStr (scheme_stripped v)).
Proof.
  unfold Trustar2Splunk.strip_scheme, scheme_stripped, contains, substr,
    str_split_max1, split_max1; simpl.
  destruct (split1 "://" v) as [[a b] |]; reflexivity.
Qed.

Lemma misp_strip_scheme (v : string) :
  MispSplunk.strip_scheme (VStr v) = Ok (VStr (scheme_stripped v)).
Proof.
  unfold MispSplunk.strip_scheme, scheme_stripped, contains, substr,
    str_split_max1, split_max1; simpl.
  destruct (split1 "://" v) as [[a b] |]; reflexivity.
Qed.

(** The TruSTAR branch, computed on a string value. *)
Lemma trustar_reclassify_url (rt : runtime) (fields : dict) (v : string) :
  Trustar2Splunk.reclassify_url rt fields (VStr v) =
  Ok (match decision_tree v with
      | Domain d => setitem (setitem fields "ioc_type" (VStr "domain")) "value" (VStr d)
      | Url _ (Some w) => setitem fields "wildcard" (VStr w)
      | Url _ None => fields
      end).
Proof.
  unfold Trustar2Splunk.reclassify_url, decision_tree, has_userinfo_or_port.
  rewrite trustar_strip_scheme; cbn [bind contains].
  set (s := scheme_stripped v).
  unfold substr at 1, str_split_max1, split_max1; cbn [as_str bind].
  destruct (split1 "/" s) as [[netloc path] |] eqn:E; cbn [bind unpack2 truthy str].
  - destruct (String.eqb path EmptyString) eqn:P; cbn [negb orb].
    + apply String.eqb_eq in P; subst path.
      destruct (substr "@" netloc || substr ":" netloc)%bool; [reflexivity |].
      cbn [bind]; rewrite (drop_last_netloc _ _ E); reflexivity.
    + reflexivity.
  - destruct (substr "@" s), (substr ":" s); reflexivity.
Qed.

(** The MISP branch agrees with the tree as soon as a slash is left. *)
Lemma misp_reclassify_url (rt : runtime) (fields : dict) (v : string) :
  substr "/" (scheme_stripped v) = true ->
  MispSplunk.reclassify_url rt fields (VStr v) =
  Ok (match decision_tree v with
      | Domain d => setitem (setitem fields "ioc_type" (VStr "domain")) "value" (VStr d)
      | Url _ (Some w) => setitem fields "wildcard" (VStr w)
      | Url _ None => fields
      end).
Proof.
  unfold MispSplunk.reclassify_url, decision_tree, has_userinfo_or_port.
  rewrite misp_strip_scheme; cbn [bind contains].
  set (s := scheme_stripped v).
  unfold substr at 1 2, str_split_max1, split_max1; cbn [as_str bind].
  destruct (split1 "/" s) as [[netloc path] |] eqn:E; [| discriminate].
  intros _; cbn [bind unpack2 truthy str].
  destruct (String.eqb path EmptyString) eqn:P; cbn [negb orb].
  - apply String.eqb_eq in P; subst path.
    destruct (substr "@" netloc || substr ":" netloc)%bool; [reflexivity |].
    cbn [bind]; rewrite (drop_last_netloc _ _ E); reflexivity.
  - reflexivity.
Qed.

Lemma trustar_initial_fields_shape (rt : runtime) (ind base : dict) (v : value) (ty : string) :
  lookup "value" ind = Some v ->
  lookup "indicatorType" ind = Some (VStr ty) ->
  Trustar2Splunk.initial_fields rt ind = Ok base ->
  exists updated joined,
    base = [("value", v); ("ioc_type", VStr (lower ty)); ("updated", VInt updated);
            ("source", VStr "RH-ISAC Vetted"); ("tags", VStr joined)].
Proof.
  intros Hv Hty; unfold Trustar2Splunk.initial_fields.
  rewrite (getitem_lookup _ _ _ Hv), (getitem_lookup _ _ _ Hty); cbn [bind str_lower as_str].
  intros H.
  apply bind_ok in H as (ls & _ & H).
  apply bind_ok in H as (q & _ & H).
  apply bind_ok in H as (updated & _ & H).
  apply bind_ok in H as (tags & _ & H).
  apply bind_ok in H as (ts & _ & H).
  apply bind_ok in H as (names & _ & H).
  apply bind_ok in H as (joined & _ & H).
  injection H as <-; exists updated, joined; reflexivity.
Qed.

Lemma misp_initial_fields_shape (rt : runtime) (ind base : dict) (v : value) (ty : string) :
  lookup "value" ind = Some v ->
  lookup "type" ind = Some (VStr ty) ->
  MispSplunk.initial_fields rt ind = Ok base ->
  exists updated joined,
    base = [("value", v); ("ioc_type", VStr (lower ty)); ("updated", updated);
            ("source", VStr "RH-ISAC Vetted"); ("tags", VStr joined)].
Proof.
  intros Hv Hty; unfold MispSplunk.initial_fields.
  rewrite (getitem_lookup _ _ _ Hv), (getitem_lookup _ _ _ Hty); cbn [bind str_lower as_str].
  intros H.
  apply bind_ok in H as (ts & _ & H).
  apply bind_ok in H as (n & _ & H).
  apply bind_ok in H as (updated & _ & H).
  apply bind_ok in H as (tags & _ & H).
  apply bind_ok in H as (items & _ & H).
  apply bind_ok in H as (events & _ & H).
  apply bind_ok in H as (joined & _ & H).
  injection H as <-; exists updated, joined; reflexivity.
Qed.

(** The fields read back after the branch has run on the initial
    dictionary of a URL. *)
Lemma observed_after_branch (v : string) (updated : value) (joined : string) :
  observed
    (match decision_tree v with
     | Domain d =>
         setitem (setitem [("value", VStr v); ("ioc_type", VStr "url");
                           ("updated", updated); ("source", VStr "RH-ISAC Vetted");
                           ("tags", VStr joined)] "ioc_type" (VStr "domain"))
           "value" (VStr d)
     | Url _ (Some w) =>
         setitem [("value", VStr v); ("ioc_type", VStr "url");
                  ("updated", updated); ("source", VStr "RH-ISAC Vetted");
                  ("tags", VStr joined)] "wildcard" (VStr w)
     | Url _ None =>
         [("value", VStr v); ("ioc_type", VStr "url");
          ("updated", updated); ("source", VStr "RH-ISAC Vetted");
          ("tags", VStr joined)]
     end) = Some (decision_tree v).
Proof.
  unfold decision_tree.
  destruct (split1 "/" (scheme_stripped v)) as [[netloc path] |].
  - destruct (negb (String.eqb path EmptyString) || has_userinfo_or_port netloc)%bool;
      reflexivity.
  - destruct (has_userinfo_or_port (scheme_stripped v)); reflexivity.
Qed.

(** One turn of the TruSTAR loop on a URL indicator. *)
Lemma trustar_field_values_url (rt : runtime) (ind fields : dict) (v : string) :
  lookup "indicatorType" ind = Some (VStr "URL") ->
  lookup "value" ind = Some (VStr v) ->
  Trustar2Splunk.field_values rt ind = Ok fields ->
  observed fields = Some (decision_tree v).
Proof.
  intros Hty Hv; unfold Trustar2Splunk.field_values; intros H.
  apply bind_ok in H as (base & Hbase & H).
  destruct (trustar_initial_fields_shape rt ind base _ _ Hv Hty Hbase)
    as (updated & joined & ->).
  rewrite (getitem_lookup _ _ _ Hty), (getitem_lookup _ _ _ Hv) in H.
  cbn [bind eq_str String.eqb Ascii.eqb Bool.eqb orb] in H.
  rewrite trustar_reclassify_url in H; injection H as <-.
  apply (observed_after_branch v (VInt updated) joined).
Qed.

(** One turn of the MISP loop on a [url] attribute: the decision tree
    when a slash is left, the initial fields when none is. *)
Lemma misp_field_values_url (rt : runtime) (ind fields : dict) (v : string)
  (out : list MispSplunk.event) :
  lookup "type" ind = Some (VStr "url") ->
  lookup "value" ind = Some (VStr v) ->
  MispSplunk.field_values rt ind = (out, Ok (Some fields)) ->
  (substr "/" (scheme_stripped v) = true -> observed fields = Some (decision_tree v)) /\
  (substr "/" (scheme_stripped v) = false ->
   MispSplunk.initial_fields rt ind = Ok fields /\ observed fields = Some (Url v None)).
Proof.
  intros Hty Hv; unfold MispSplunk.field_values.
  destruct (MispSplunk.initial_fields rt ind) as [base | e] eqn:Hbase;
    cbn [lift iobind]; [| discriminate].
  destruct (misp_initial_fields_shape rt ind base _ _ Hv Hty Hbase)
    as (updated & joined & ->).
  rewrite (getitem_lookup _ _ _ Hty), (getitem_lookup _ _ _ Hv).
  cbn [lift iobind bind eq_str String.eqb Ascii.eqb Bool.eqb].
  destruct (substr "/" (scheme_stripped v)) eqn:Hslash.
  - rewrite (misp_reclassify_url rt _ v Hslash); cbn.
    intros [= <- <-]; split; [intros _ | discriminate].
    apply (observed_after_branch v updated joined).
  - unfold MispSplunk.reclassify_url; rewrite misp_strip_scheme.
    cbn [bind contains]; rewrite Hslash; cbn.
    intros [= <- <-]; split; [discriminate | intros _; split; reflexivity].
Qed.

(** ** Cardinality of the field mappers *)

Lemma mapM_length {A B : Type} (f : A -> result B) (l : list A) (out : list B) :
  mapM f l = Ok out -> List.length out = List.length l.
Proof.
  revert out; induction l as [| x l IH]; intros out; cbn [mapM].
  - intros [= <-]; reflexivity.
  - intros H.
    apply bind_ok in H as (y & _ & H).
    apply bind_ok in H as (ys & Hys & H).
    injection H as <-; cbn [List.length]; f_equal; apply IH, Hys.
Qed.

Lemma mapM_total {A B : Type} (f : A -> result B) (l : list A) :
  Forall (fun x => exists y, f x = Ok y) l -> exists out, mapM f l = Ok out.
Proof.
  induction 1 as [| x l [y Hy] _ [out IH]]; cbn [mapM].
  - exists []; reflexivity.
  - exists (y :: out); rewrite Hy, IH; reflexivity.
Qed.






(** One turn of the MISP loop: a record of a supported type is mapped
    in silence, any other is answered by the message and dropped. *)
Lemma misp_field_values_cases (rt : runtime) (ind : dict) (out : list MispSplunk.event)
  (r : option dict) :
  MispSplunk.field_values rt ind = (out, Ok r) ->
  (unsupported ind = false /\ out = [] /\ exists fields, r = Some fields) \/
  (unsupported ind = true /\ out = [MispSplunk.PrintErrorParsingType (get ind "type")]
   /\ r = None).
Proof.
  unfold MispSplunk.field_values, unsupported, get, get_default, getitem.
  destruct (MispSplunk.initial_fields rt ind) as [base | e]; cbn [lift iobind];
    [| discriminate].
  destruct (lookup "type" ind) as [ty |]; cbn [lift iobind]; [| discriminate].
  destruct (if eq_str ty "url" then _ else _) as [fields | e]; cbn [iobind];
    [| discriminate].
  destruct (existsb (eq_str ty) MispSplunk.SUPPORTED_TYPES); cbn.
  - intros [= <- <-]; left; repeat split; eexists; reflexivity.
  - intros [= <- <-]; right; repeat split.
Qed.


Lemma misp_build_inv (rt : runtime) (ind : dict) (rest : list dict)
  (out : list MispSplunk.event) (res : list dict) :
  MispSplunk.build_field_values rt (ind :: rest) = (out, Ok res) ->
  exists out1 r out2 res2,
    MispSplunk.field_values rt ind = (out1, Ok r) /\
    MispSplunk.build_field_values rt rest = (out2, Ok res2) /\
    out = out1 ++ out2 /\
    res = match r with Some fields => fields :: res2 | None => res2 end.
Proof.
  cbn [MispSplunk.build_field_values].
  destruct (MispSplunk.field_values rt ind) as [out1 [r | e]]; cbn [iobind];
    [| discriminate].
  destruct (MispSplunk.build_field_values rt rest) as [out2 [res2 | e]]; cbn [iobind ret];
    [| discriminate].
  rewrite app_nil_r; intros [= <- <-].
  exists out1, r, out2, res2; repeat split.
Qed.


(** The records the MISP mapper returns are those of the turns of its
    loop on the records of a supported type, in order. *)
Lemma misp_build_Forall2 (rt : runtime) (inds : list dict)
  (out : list MispSplunk.event) (res : list dict) :
  MispSplunk.build_field_values rt inds = (out, Ok res) ->
  Forall2 (fun ind fields => MispSplunk.field_values rt ind = ([], Ok (Some fields)))
    (filter (fun ind => negb (unsupported ind)) inds) res.
Proof.
  revert out res; induction inds as [| ind rest IH]; intros out res H.
  - injection H as <- <-; constructor.
  - apply misp_build_inv in H as (out1 & r & out2 & res2 & H1 & H2 & -> & ->).
    pose proof (IH _ _ H2) as Hrest.
    destruct (misp_field_values_cases rt ind out1 r H1)
      as [(Hu & -> & fields & ->) | (Hu & -> & ->)];
      cbn [filter]; rewrite Hu; cbn [negb]; [| exact Hrest].
    constructor; [exact H1 | exact Hrest].
Qed.






(** ** The URL reclassifier on a batch *)




(** ** Tag flattening in the CSV writers *)

Lemma index_head {A : Type} (x : A) (l : list A) : index (x :: l) 0 = Ok x.
Proof.
  unfold index; cbn [Z.ltb Z.compare Z.leb andb List.length].
  destruct (Z.ltb_spec 0 (Z.of_nat (S (List.length l)))) as [_ | H]; [reflexivity | lia].
Qed.

Lemma join_strings (sep : string) (ns : list string) :
  join sep (map VStr ns) = Ok (String.concat sep ns).
Proof.
  unfold join.
  assert (H : mapM (as_str TypeError) (map VStr ns) = Ok ns).
  { induction ns as [| n ns IH]; [reflexivity |].
    cbn [map mapM as_str bind]; rewrite IH; reflexivity. }
  rewrite H; reflexivity.
Qed.

Lemma tag_objects_names (ts : list value) (ns : list string) :
  tag_objects ts ns ->
  mapM (fun t => subscript t (VStr "name")) ts = Ok (map VStr ns).
Proof.
  induction 1 as [| t n ts ns (d & -> & Hn) _ IH]; [reflexivity |].
  cbn [mapM subscript map]; rewrite (getitem_lookup _ _ _ Hn), IH; reflexivity.
Qed.

(** The list built by [ind_dict_to_csv] is the list of names, whichever
    shape the tags have. *)
Lemma trustar13_tag_list (ind : dict) (ts : list value) (ns : list string) :
  lookup "tags" ind = Some (VList ts) ->
  tag_objects ts ns \/ tag_strings ts ns ->
  Trustar13.tag_list ind = Ok (map VStr ns).
Proof.
  intros Htags Hshape; unfold Trustar13.tag_list, get, get_default.
  rewrite Htags, (getitem_lookup _ _ _ Htags); cbn [truthy iter].
  unfold tag_strings in Hshape; destruct Hshape as [Hobj | ->].
  - pose proof (tag_objects_names ts ns Hobj) as Hnames.
    destruct Hobj as [| t n ts ns (d & -> & Hn) Hrest]; [reflexivity |].
    cbn [bind subscript]; rewrite index_head; cbn [bind is_dict].
    exact Hnames.
  - destruct ns as [| n ns]; [reflexivity |].
    cbn [map bind subscript]; rewrite index_head; reflexivity.
Qed.

Lemma trustar2_tag_list (ind : dict) (ts : list value) (ns : list string) :
  lookup "tags" ind = Some (VList ts) ->
  tag_objects ts ns \/ tag_strings ts ns ->
  Trustar2Csv.tag_list ind = Ok (map VStr ns).
Proof. exact (trustar13_tag_list ind ts ns). Qed.

(** C7.  The CSV writers flatten tags to the names joined with ["|"],
    whether a record carries them as objects with a [name] or as the
    names themselves: the row ends with the same cell in both cases.
    ([obl_dict_to_csv] adds the cell only when there are tags.) *)
Theorem tag_flattening_ignores_representation
  (header : list string) (ind : dict) (row ts : list value) (ns : list string) :
  mapM (getitem ind) (filter not_tags header) = Ok row ->
  lookup "tags" ind = Some (VList ts) ->
  tag_objects ts ns \/ tag_strings ts ns ->
  Trustar13.csv_row header false ind = Ok (row ++ [VStr (String.concat "|" ns)]) /\
  Trustar2Csv.csv_row header ind
  = Ok (match ns with
        | [] => row
        | _ => row ++ [VStr (String.concat "|" ns)]
        end).
Proof.
  intros Hrow Htags Hshape; split.
  - unfold Trustar13.csv_row; fold not_tags; rewrite Hrow; cbn [bind].
    rewrite (trustar13_tag_list ind ts ns Htags Hshape); cbn [bind].
    rewrite join_strings; reflexivity.
  - unfold Trustar2Csv.csv_row; fold not_tags; rewrite Hrow; cbn [bind].
    rewrite (trustar2_tag_list ind ts ns Htags Hshape).
    unfold get, get_default; rewrite Htags.
    assert (Hts : truthy (VList ts) = match ns with [] => false | _ => true end).
    { unfold tag_strings in Hshape.
      destruct Hshape as [Hobj | ->]; [destruct Hobj | destruct ns]; reflexivity. }
    rewrite Hts; destruct ns as [| n ns]; [reflexivity |].
    cbn [bind]; rewrite join_strings; reflexivity.
Qed.

Lemma tag_flattening_ignores_representation_witness :
  (Trustar13.csv_row ["value"; "tags"] false
     [("value", VStr "198.51.100.7");
      ("tags", VList [VDict [("name", VStr "a")]; VDict [("name", VStr "b")]])]
   = Ok ([VStr "198.51.100.7"] ++ [VStr "a|b"]) /\
   Trustar2Csv.csv_row ["value"; "tags"]
     [("value", VStr "198.51.100.7");
      ("tags", VList [VDict [("name", VStr "a")]; VDict [("name", VStr "b")]])]
   = Ok ([VStr "198.51.100.7"] ++ [VStr "a|b"]))
  /\
  (Trustar13.csv_row ["value"; "tags"] false
     [("value", VStr "198.51.100.7"); ("tags", VList [VStr "a"; VStr "b"])]
   = Ok ([VStr "198.51.100.7"] ++ [VStr "a|b"]) /\
   Trustar2Csv.csv_row ["value"; "tags"]
     [("value", VStr "198.51.100.7"); ("tags", VList [VStr "a"; VStr "b"])]
   = Ok ([VStr "198.51.100.7"] ++ [VStr "a|b"])).
Proof.
  split.
  - eapply (tag_flattening_ignores_representation ["value"; "tags"] _
              [VStr "198.51.100.7"] _ ["a"; "b"]).
    + reflexivity.
    + reflexivity.
    + left; repeat constructor; eexists; split; reflexivity.
  - eapply (tag_flattening_ignores_representation ["value"; "tags"] _
              [VStr "198.51.100.7"] _ ["a"; "b"]).
    + reflexivity.
    + reflexivity.
    + right; reflexivity.
Defined.

(** ** Header and rows of the CSV writers *)

Lemma filter_not_tags_id (l : list string) :
  ~ In "tags" l -> filter not_tags l = l.
Proof.
  induction l as [| x l IH]; intros Hnot; [reflexivity |].
  cbn [filter]; unfold not_tags at 1.
  destruct (String.eqb_spec x "tags") as [-> | _].
  - contradiction Hnot; left; reflexivity.
  - cbn [negb]; f_equal; apply IH; intros Hin; apply Hnot; right; exact Hin.
Qed.

Lemma remove_first_tags (l : list string) :
  NoDup l -> Trustar13.remove_first "tags" l = filter not_tags l.
Proof.
  induction 1 as [| x l Hx _ IH]; [reflexivity |].
  cbn [Trustar13.remove_first filter]; unfold not_tags at 1.
  destruct (String.eqb_spec x "tags") as [-> | _]; cbn [negb].
  - symmetry; apply filter_not_tags_id, Hx.
  - f_equal; exact IH.
Qed.

Lemma existsb_tags (l : list string) :
  In "tags" l -> existsb (String.eqb "tags") l = true.
Proof.
  intros Hin; apply existsb_exists; exists "tags"; split; [exact Hin | reflexivity].
Qed.

(** The header of the three writers: the keys of the first record, with
    [tags] taken out of its place and put last. *)
Lemma csv_header_tags_last (first : dict) :
  NoDup (keys first) -> In "tags" (keys first) ->
  Trustar13.csv_header first = filter not_tags (keys first) ++ ["tags"].
Proof.
  intros Hnd Hin; unfold Trustar13.csv_header.
  rewrite (existsb_tags _ Hin), (remove_first_tags _ Hnd); reflexivity.
Qed.

Lemma no_exit_bind {A B : Type} (m : result A) (k : A -> result B) :
  no_exit m -> (forall a, no_exit (k a)) -> no_exit (x <- m ;; k x).
Proof. destruct m as [a | e]; cbn; auto. Qed.

Lemma no_exit_mapM {A B : Type} (f : A -> result B) (l : list A) :
  (forall x, no_exit (f x)) -> no_exit (mapM f l).
Proof.
  intros Hf; induction l as [| x l IH]; cbn [mapM]; [exact I |].
  apply no_exit_bind; [apply Hf | intros y].
  apply no_exit_bind; [exact IH | intros ys; exact I].
Qed.

Lemma no_exit_getitem (d : dict) (k : string) : no_exit (getitem d k).
Proof. unfold getitem; destruct (lookup k d); exact I. Qed.

Lemma no_exit_index {A : Type} (l : list A) (i : Z) : no_exit (index l i).
Proof.
  unfold index; destruct (_ && _)%bool; [| exact I].
  destruct (nth_error l _); exact I.
Qed.

Lemma no_exit_subscript (v k : value) : no_exit (subscript v k).
Proof.
  destruct v, k; cbn [subscript]; try exact I;
    try apply no_exit_getitem; try apply no_exit_index;
    (apply no_exit_bind; [apply no_exit_index | intros; exact I]).
Qed.

Lemma no_exit_iter (v : value) : no_exit (iter v).
Proof. destruct v; exact I. Qed.

Lemma no_exit_join (sep : string) (l : list value) : no_exit (join sep l).
Proof.
  unfold join; apply no_exit_bind; [| intros; exact I].
  apply no_exit_mapM; intros x; destruct x; exact I.
Qed.

Lemma no_exit_tag_list (ind : dict) : no_exit (Trustar13.tag_list ind).
Proof.
  unfold Trustar13.tag_list; apply no_exit_bind.
  - destruct (truthy (get ind "tags")); [| exact I].
    apply no_exit_bind; [apply no_exit_getitem | intros tags].
    apply no_exit_bind; [apply no_exit_subscript | intros; exact I].
  - intros b; apply no_exit_bind; [apply no_exit_iter | intros items].
    destruct b; [| exact I].
    apply no_exit_mapM; intros; apply no_exit_subscript.
Qed.

Lemma no_exit_trustar_csv_row (header : list string) (split_tags : bool) (ind : dict) :
  no_exit (Trustar13.csv_row header split_tags ind).
Proof.
  unfold Trustar13.csv_row; apply no_exit_bind.
  - apply no_exit_mapM; intros; apply no_exit_getitem.
  - intros row; apply no_exit_bind; [apply no_exit_tag_list | intros tags].
    destruct split_tags; [exact I |].
    apply no_exit_bind; [apply no_exit_join | intros; exact I].
Qed.

Lemma no_exit_misp_csv_row (rt : runtime) (header : list string) (ioc : dict) :
  no_exit (MispCsv.csv_row rt header ioc).
Proof.
  unfold MispCsv.csv_row; apply no_exit_bind.
  - apply no_exit_mapM; intros; apply no_exit_getitem.
  - intros row; destruct (truthy (get ioc "tags")); exact I.
Qed.

Lemma trustar_write_indicators (header : list string) (split_tags : bool)
  (indicators : list dict) :
  Trustar13.write_indicators header split_tags indicators
  = (map (trustar_row_event header split_tags) indicators, Ok tt).
Proof.
  induction indicators as [| ind rest IH]; [reflexivity |].
  cbn [Trustar13.write_indicators map]; rewrite IH.
  unfold Trustar13.write_indicator, trustar_row_event.
  pose proof (no_exit_trustar_csv_row header split_tags ind) as Hne.
  destruct (Trustar13.csv_row header split_tags ind) as [row | e]; [reflexivity |].
  destruct e; try reflexivity; destruct Hne.
Qed.

Lemma misp_write_iocs (rt : runtime) (header : list string) (iocs : list dict) :
  MispCsv.write_iocs rt header iocs = (map (misp_row_event rt header) iocs, Ok tt).
Proof.
  induction iocs as [| ioc rest IH]; [reflexivity |].
  cbn [MispCsv.write_iocs map]; rewrite IH.
  unfold MispCsv.write_ioc, misp_row_event.
  pose proof (no_exit_misp_csv_row rt header ioc) as Hne.
  destruct (MispCsv.csv_row rt header ioc) as [row | e]; [reflexivity |].
  destruct e; try reflexivity; destruct Hne.
Qed.

(** C8 (amended).  Given a non-empty list, both writers emit a header
    row, one row or error message for each record, and a closing
    message.  The header is the key list of the first record with [tags]
    moved to the last column.  A row written by [ind_dict_to_csv] without
    [split_tags] is the record's other header fields followed by the
    flattened tags; with [split_tags] the tags follow as cells of their
    own.  A row written by [ioc_dicts_to_csv] ends with the tags value,
    double quotes turned into single ones, when that value is non-empty,
    and has no tags cell when it is empty or missing. *)
Theorem csv_tags_column_is_last :
  (forall first : dict,
      NoDup (keys first) -> In "tags" (keys first) ->
      Trustar13.csv_header first = filter not_tags (keys first) ++ ["tags"] /\
      MispCsv.csv_header first = filter not_tags (keys first) ++ ["tags"])
  /\ (forall (first : dict) (rest : list dict) (split_tags : bool),
      Trustar13.ind_dict_to_csv (first :: rest) split_tags
      = (Trustar13.WriteRow (map VStr (Trustar13.csv_header first))
           :: map (trustar_row_event (Trustar13.csv_header first) split_tags) (first :: rest)
           ++ [Trustar13.PrintWroteCsv], Ok tt))
  /\ (forall (header : list string) (split_tags : bool) (ind : dict) (row : list value),
      Trustar13.csv_row header split_tags ind = Ok row ->
      exists others tags,
        mapM (getitem ind) (filter not_tags header) = Ok others /\
        List.length others = List.length (filter not_tags header) /\
        Trustar13.tag_list ind = Ok tags /\
        if split_tags then row = others ++ tags
        else exists flat, join "|" tags = Ok flat /\ row = others ++ [VStr flat])
  /\ (forall (rt : runtime) (first : dict) (rest : list dict),
      MispCsv.ioc_dicts_to_csv rt (first :: rest)
      = (MispCsv.WriteRow (map VStr (MispCsv.csv_header first))
           :: map (misp_row_event rt (MispCsv.csv_header first)) (first :: rest)
           ++ [MispCsv.PrintWrote (List.length (first :: rest))], Ok tt))
  /\ (forall (rt : runtime) (header : list string) (ioc : dict) (row : list value),
      MispCsv.csv_row rt header ioc = Ok row ->
      exists others,
        mapM (getitem ioc) (filter not_tags header) = Ok others /\
        List.length others = List.length (filter not_tags header) /\
        row = if truthy (get ioc "tags")
              then others ++ [VStr (replace_char MispCsv.DQUOTE "'" (str rt (get ioc "tags")))]
              else others).
Proof.
  split; [| split; [| split; [| split]]].
  - intros first Hnd Hin; split; apply csv_header_tags_last; assumption.
  - intros first rest split_tags.
    unfold Trustar13.ind_dict_to_csv; rewrite index_head.
    cbn [lift iobind emit]; rewrite trustar_write_indicators.
    cbn [iobind emit app]; reflexivity.
  - intros header split_tags ind row H.
    unfold Trustar13.csv_row in H; fold not_tags in H.
    apply bind_ok in H as (others & Hothers & H).
    apply bind_ok in H as (tags & Htags & H).
    exists others, tags; repeat split; try assumption.
    + apply (mapM_length _ _ _ Hothers).
    + destruct split_tags.
      * injection H as <-; reflexivity.
      * apply bind_ok in H as (flat & Hflat & H).
        injection H as <-; exists flat; split; [exact Hflat | reflexivity].
  - intros rt first rest.
    unfold MispCsv.ioc_dicts_to_csv; rewrite index_head.
    cbn [lift iobind emit]; rewrite misp_write_iocs.
    cbn [iobind emit app]; reflexivity.
  - intros rt header ioc row H.
    unfold MispCsv.csv_row in H; fold not_tags in H.
    apply bind_ok in H as (others & Hothers & H).
    exists others; repeat split; try assumption.
    + apply (mapM_length _ _ _ Hothers).
    + destruct (truthy (get ioc "tags")); injection H as <-; reflexivity.
Qed.

Lemma csv_tags_column_is_last_witness :
  Trustar13.csv_header [("tags", VList [VStr "a"]); ("value", VStr "198.51.100.7")]
  = filter not_tags (keys [("tags", VList [VStr "a"]); ("value", VStr "198.51.100.7")])
      ++ ["tags"] /\
  MispCsv.csv_header [("tags", VList [VStr "a"]); ("value", VStr "198.51.100.7")]
  = filter not_tags (keys [("tags", VList [VStr "a"]); ("value", VStr "198.51.100.7")])
      ++ ["tags"].
Proof.
  apply (proj1 csv_tags_column_is_last).
  - repeat constructor; cbn; intuition discriminate.
  - left; reflexivity.
Defined.

(** C8 as stated: "each data row places the flattened tags value in that
    final position".  An attribute whose only tag is the vetted marker
    leaves [filter_results] with an empty tags string; the header written
    is [type], [value], [tags], and the row written for the attribute
    holds its type and its value only, with no cell under [tags]. *)
Lemma misp_row_without_tags_cell :
  MispCsv.filter_results [vetted_only_attribute]
  = Ok [[("tags", VStr EmptyString); ("type", VStr "domain"); ("value", VStr "evil.example")]]
  /\ MispCsv.ioc_dicts_to_csv ref_runtime
       [[("tags", VStr EmptyString); ("type", VStr "domain"); ("value", VStr "evil.example")]]
     = ([MispCsv.WriteRow [VStr "type"; VStr "value"; VStr "tags"];
         MispCsv.WriteRow [VStr "domain"; VStr "evil.example"];
         MispCsv.PrintWrote 1], Ok tt).
Proof. split; vm_compute; reflexivity. Qed.

(** ** The vetted marker in [filter_results] *)

Lemma lookup_setitem_same (d : dict) (k : string) (v : value) :
  lookup k (setitem d k v) = Some v.
Proof.
  induction d as [| [k' v'] d IH]; cbn [setitem lookup].
  - rewrite String.eqb_refl; reflexivity.
  - destruct (String.eqb k' k) eqn:E; cbn [lookup]; rewrite E; [reflexivity | exact IH].
Qed.

Lemma lookup_setitem_other (d : dict) (k k' : string) (v : value) :
  k <> k' -> lookup k' (setitem d k v) = lookup k' d.
Proof.
  intros Hne; induction d as [| [k0 v0] d IH]; cbn [setitem lookup].
  - destruct (String.eqb_spec k k'); [contradiction | reflexivity].
  - destruct (String.eqb_spec k0 k) as [-> | Hk0]; cbn [lookup].
    + destruct (String.eqb_spec k k'); [contradiction | reflexivity].
    + rewrite IH; reflexivity.
Qed.

Lemma lookup_not_in (k : string) (d : dict) :
  ~ In k (keys d) -> lookup k d = None.
Proof.
  induction d as [| [k' v] d IH]; intros Hnot; [reflexivity |].
  cbn [lookup]; destruct (String.eqb_spec k' k) as [-> | _].
  - contradiction Hnot; left; reflexivity.
  - apply IH; intros Hin; apply Hnot; right; exact Hin.
Qed.

(** An item other than [Tag] leaves the [tags] entry as it is. *)
Lemma keep_item_other (keep keep' : dict) (k : string) (v : value) :
  k <> "Tag" ->
  MispCsv.keep_item keep (k, v) = Ok keep' ->
  lookup "tags" keep' = lookup "tags" keep.
Proof.
  intros Hk; unfold MispCsv.keep_item.
  destruct (existsb (String.eqb k) MispCsv.OUTPUT_FIELDS) eqn:Hout; cbn [negb].
  - destruct (String.eqb_spec k "Tag") as [-> | _]; [contradiction Hk; reflexivity |].
    destruct (String.eqb_spec k "Event") as [-> | _].
    + intros H; apply bind_ok in H as (info & _ & H); injection H as <-.
      apply lookup_setitem_other; discriminate.
    + intros [= <-]; apply lookup_setitem_other.
      intros ->; discriminate Hout.
  - intros [= <-]; reflexivity.
Qed.

Lemma keep_items_without_tag (items : list (string * value)) (keep keep' : dict) :
  ~ In "Tag" (keys items) ->
  MispCsv.keep_items keep items = Ok keep' ->
  lookup "tags" keep' = lookup "tags" keep.
Proof.
  revert keep; induction items as [| [k v] rest IH]; intros keep Hnot;
    cbn [MispCsv.keep_items].
  - intros [= <-]; reflexivity.
  - intros H; apply bind_ok in H as (keep1 & H1 & H).
    rewrite (IH keep1); [| intros Hin; apply Hnot; right; exact Hin | exact H].
    apply (keep_item_other keep keep1 k v); [| exact H1].
    intros ->; apply Hnot; left; reflexivity.
Qed.

(** The names joined for the [tags] entry. *)
Lemma tag_names_kept (ts : list value) (ns : list string) :
  tag_objects ts ns ->
  (names <- MispCsv.tag_names (VList ts) ;; join "|" names)
  = Ok (String.concat "|" (kept_names ns)).
Proof.
  intros Hobj; unfold MispCsv.tag_names; cbn [iter bind].
  rewrite (tag_objects_names ts ns Hobj); cbn [bind].
  assert (H : filter (fun n => negb (eq_str n MispCsv.VETTED_TAG)) (map VStr ns)
              = map VStr (kept_names ns)).
  { unfold kept_names; clear; induction ns as [| n ns IH]; [reflexivity |].
    cbn [map filter eq_str]; destruct (String.eqb n MispCsv.VETTED_TAG);
      cbn [negb map]; rewrite IH; reflexivity. }
  rewrite H; apply join_strings.
Qed.

Lemma keep_items_tags (items : list (string * value)) (keep keep' : dict)
  (ts : list value) (ns : list string) :
  NoDup (keys items) ->
  lookup "Tag" items = Some (VList ts) ->
  tag_objects ts ns ->
  MispCsv.keep_items keep items = Ok keep' ->
  lookup "tags" keep' = Some (VStr (String.concat "|" (kept_names ns))).
Proof.
  intros Hnd Htag Hobj; revert keep; induction items as [| [k v] rest IH];
    intros keep; [discriminate Htag |].
  cbn [MispCsv.keep_items]; intros H; apply bind_ok in H as (keep1 & H1 & H).
  inversion Hnd as [| ? ? Hk Hrest]; subst.
  cbn [lookup] in Htag; destruct (String.eqb_spec k "Tag") as [-> | Hne].
  - injection Htag as ->.
    rewrite (keep_items_without_tag rest keep1 keep' Hk H).
    change (MispCsv.keep_item keep ("Tag", VList ts))
      with (names <- MispCsv.tag_names (VList ts) ;;
            joined <- join "|" names ;;
            Ok (setitem keep "tags" (VStr joined))) in H1.
    pose proof (tag_names_kept ts ns Hobj) as Hj.
    destruct (MispCsv.tag_names (VList ts)) as [names | e]; [| discriminate Hj].
    cbn [bind] in *; rewrite Hj in H1; cbn [bind] in H1.
    injection H1 as <-; apply lookup_setitem_same.
  - apply (IH Hrest Htag keep1 H).
Qed.

(** [filter_results] goes through once every [Event] has its [info]. *)
Lemma keep_items_total (items : list (string * value)) (keep : dict)
  (ts : list value) (ns : list string) :
  NoDup (keys items) ->
  lookup "Tag" items = Some (VList ts) ->
  tag_objects ts ns ->
  event_has_info items ->
  exists keep', MispCsv.keep_items keep items = Ok keep'.
Proof.
  intros Hnd Htag Hobj Hev.
  assert (Hstep : forall k v keep0, In (k, v) items -> exists keep1,
             MispCsv.keep_item keep0 (k, v) = Ok keep1).
  { intros k v keep0 Hin.
    assert (Hlk : lookup k items = Some v).
    { clear - Hnd Hin; induction items as [| [k0 v0] rest IH]; [destruct Hin |].
      inversion Hnd as [| ? ? Hk Hrest]; subst; cbn [lookup].
      destruct Hin as [[= -> ->] | Hin]; [rewrite String.eqb_refl; reflexivity |].
      destruct (String.eqb_spec k0 k) as [-> | _]; [| apply IH; assumption].
      contradiction Hk; apply (in_map fst _ _ Hin). }
    unfold MispCsv.keep_item.
    destruct (negb _); [eexists; reflexivity |].
    destruct (String.eqb_spec k "Tag") as [-> | _].
    - rewrite Htag in Hlk; injection Hlk as <-.
      pose proof (tag_names_kept ts ns Hobj) as Hj.
      destruct (MispCsv.tag_names (VList ts)) as [names | e]; [| discriminate Hj].
      cbn [bind] in *; rewrite Hj; eexists; reflexivity.
    - destruct (String.eqb_spec k "Event") as [-> | _]; [| eexists; reflexivity].
      destruct (Hev v Hlk) as (d & info & -> & Hinfo).
      cbn [subscript]; rewrite (getitem_lookup _ _ _ Hinfo); eexists; reflexivity. }
  clear Hnd Htag Hev; revert keep; induction items as [| [k v] rest IH]; intros keep.
  - eexists; reflexivity.
  - destruct (Hstep k v keep (or_introl eq_refl)) as [keep1 H1].
    cbn [MispCsv.keep_items]; rewrite H1; cbn [bind].
    apply IH; intros k' v' keep0 Hin; apply Hstep; right; exact Hin.
Qed.

Lemma split_char_no_sep (c : ascii) (s : string) :
  has_char c s = false -> split_char c s = [s].
Proof.
  induction s as [| x s IH]; [reflexivity |].
  cbn [has_char split_char]; intros H; apply orb_false_iff in H as [Hx Hs].
  rewrite Hx, (IH Hs); reflexivity.
Qed.

Lemma split_char_app (c : ascii) (s rest : string) :
  has_char c s = false ->
  split_char c (s ++ String c rest) = s :: split_char c rest.
Proof.
  induction s as [| x s IH]; cbn [has_char append split_char].
  - intros _; rewrite Ascii.eqb_refl; reflexivity.
  - intros H; apply orb_false_iff in H as [Hx Hs].
    rewrite Hx, (IH Hs); reflexivity.
Qed.

(** Splitting the joined names at ["|"] gives the names back. *)
Lemma split_concat (ns : list string) :
  ns <> [] ->
  Forall (fun n => has_char "|" n = false) ns ->
  split_char "|" (String.concat "|" ns) = ns.
Proof.
  intros Hne Hall; induction Hall as [| n ns Hn Hns IH]; [contradiction Hne; reflexivity |].
  destruct ns as [| m ns].
  - apply split_char_no_sep, Hn.
  - change (String.concat "|" (n :: m :: ns))
      with (n ++ String "|" (String.concat "|" (m :: ns)))%string.
    rewrite (split_char_app _ _ _ Hn), IH; [reflexivity | discriminate].
Qed.

Lemma kept_names_spec (ns : list string) (n : string) :
  In n (kept_names ns) <-> In n ns /\ n <> MispCsv.VETTED_TAG.
Proof.
  unfold kept_names; rewrite filter_In.
  destruct (String.eqb_spec n MispCsv.VETTED_TAG); cbn [negb]; intuition congruence.
Qed.

(** [filter_results] goes through on an attribute without [Tag] as
    well. *)
Lemma keep_items_readable (items : list (string * value)) (keep : dict) :
  tagged_attribute items -> exists keep', MispCsv.keep_items keep items = Ok keep'.
Proof.
  intros (Hnd & Htag & Hev).
  assert (Hstep : forall k v keep0, In (k, v) items -> exists keep1,
             MispCsv.keep_item keep0 (k, v) = Ok keep1).
  { intros k v keep0 Hin.
    assert (Hlk : lookup k items = Some v).
    { clear - Hnd Hin; induction items as [| [k0 v0] rest IH]; [destruct Hin |].
      inversion Hnd as [| ? ? Hk Hrest]; subst; cbn [lookup].
      destruct Hin as [[= -> ->] | Hin]; [rewrite String.eqb_refl; reflexivity |].
      destruct (String.eqb_spec k0 k) as [-> | _]; [| apply IH; assumption].
      contradiction Hk; apply (in_map fst _ _ Hin). }
    unfold MispCsv.keep_item.
    destruct (negb _); [eexists; reflexivity |].
    destruct (String.eqb_spec k "Tag") as [-> | _].
    - destruct (Htag v Hlk) as (ts & ns & -> & Hobj).
      pose proof (tag_names_kept ts ns Hobj) as Hj.
      destruct (MispCsv.tag_names (VList ts)) as [names | e]; [| discriminate Hj].
      cbn [bind] in *; rewrite Hj; eexists; reflexivity.
    - destruct (String.eqb_spec k "Event") as [-> | _]; [| eexists; reflexivity].
      destruct (Hev v Hlk) as (d & info & -> & Hinfo).
      cbn [subscript]; rewrite (getitem_lookup _ _ _ Hinfo); eexists; reflexivity. }
  clear Hnd Htag Hev; revert keep; induction items as [| [k v] rest IH]; intros keep.
  - eexists; reflexivity.
  - destruct (Hstep k v keep (or_introl eq_refl)) as [keep1 H1].
    cbn [MispCsv.keep_items]; rewrite H1; cbn [bind].
    apply IH; intros k' v' keep0 Hin; apply Hstep; right; exact Hin.
Qed.

(** The marker is none of the names kept, nor a piece of their join. *)
Lemma kept_names_marker_free (ns : list string) :
  ~ In MispCsv.VETTED_TAG (kept_names ns) /\
  (forall n, In n ns -> n <> MispCsv.VETTED_TAG -> In n (kept_names ns)) /\
  (Forall (fun n => has_char "|" n = false) ns ->
   marker_free (String.concat "|" (kept_names ns))).
Proof.
  split; [intros Hin; apply kept_names_spec in Hin as [_ Hne]; apply Hne; reflexivity |].
  split; [intros n Hin Hne; apply kept_names_spec; split; assumption |].
  intros Hfree; unfold marker_free.
  destruct (kept_names ns) as [| m ms] eqn:Hk.
  - cbn; intros [H | []]; discriminate H.
  - rewrite split_concat; [| discriminate |].
    + rewrite <- Hk; intros Hin; apply kept_names_spec in Hin as [_ Hne].
      apply Hne; reflexivity.
    + rewrite <- Hk; unfold kept_names.
      rewrite Forall_forall in *; intros n Hin.
      apply filter_In in Hin as [Hin _]; apply Hfree, Hin.
Qed.

(** Replacing the double quotes moves no ["|"]. *)
Lemma split_char_replace_char (q a : ascii) (s : string) :
  Ascii.eqb q "|" = false -> Ascii.eqb a "|" = false ->
  split_char "|" (replace_char q a s) = map (replace_char q a) (split_char "|" s).
Proof.
  intros Hq Ha; induction s as [| c s IH]; [reflexivity |].
  cbn [replace_char split_char].
  destruct (Ascii.eqb_spec c "|"%char) as [-> | Hc].
  - assert (Hq' : Ascii.eqb "|" q = false) by (rewrite Ascii.eqb_sym; exact Hq).
    rewrite Hq', Ascii.eqb_refl, IH; reflexivity.
  - assert (Hc' : Ascii.eqb (if Ascii.eqb c q then a else c) "|" = false).
    { destruct (Ascii.eqb c q); [exact Ha |].
      destruct (Ascii.eqb_spec c "|"%char); [contradiction | reflexivity]. }
    rewrite Hc', IH.
    destruct (split_char "|" s) as [| piece pieces]; reflexivity.
Qed.

Lemma replace_char_without (q a : ascii) (n m : string) :
  replace_char q a n = m -> has_char a m = false -> n = m.
Proof.
  revert m; induction n as [| c n IH]; intros m; cbn [replace_char].
  - intros <-; reflexivity.
  - intros <-; cbn [has_char]; intros H.
    apply orb_false_iff in H as [Hc Hrest].
    destruct (Ascii.eqb_spec c q) as [-> | _].
    + rewrite Ascii.eqb_refl in Hc; discriminate Hc.
    + f_equal; apply (IH _ eq_refl Hrest).
Qed.

Lemma marker_free_replace_char (t : string) :
  marker_free t -> marker_free (replace_char MispCsv.DQUOTE "'" t).
Proof.
  unfold marker_free; intros Hfree Hin.
  rewrite split_char_replace_char in Hin by reflexivity.
  apply in_map_iff in Hin as (n & Hn & Hin).
  apply replace_char_without in Hn; [| reflexivity].
  apply Hfree; rewrite <- Hn; exact Hin.
Qed.

(** ** The pagination loop of [retrieve_iocs] *)

Lemma fold_min_le (l : list Z) (a : Z) : fold_left Z.min l a <= a.
Proof.
  revert a; induction l as [| x l IH]; intros a; cbn [fold_left]; [lia |].
  specialize (IH (Z.min a x)); lia.
Qed.

Lemma fold_min_lower (l : list Z) (a m : Z) :
  m <= a -> Forall (fun x => m <= x) l -> m <= fold_left Z.min l a.
Proof.
  intros Ha Hall; revert a Ha; induction Hall as [| x l Hx _ IH]; intros a Ha;
    cbn [fold_left]; [exact Ha |].
  apply IH; lia.
Qed.

Lemma last_cons_default {A : Type} (y : A) (l : list A) (d d' : A) :
  List.last (y :: l) d = List.last (y :: l) d'.
Proof.
  revert y; induction l as [| z l IH]; intros y; [reflexivity |].
  change (List.last (y :: z :: l) d) with (List.last (z :: l) d).
  change (List.last (y :: z :: l) d') with (List.last (z :: l) d').
  apply IH.
Qed.

Lemma last_in {A : Type} (x : A) (l : list A) : In (List.last (x :: l) x) (x :: l).
Proof.
  revert x; induction l as [| y l IH]; intros x; [left; reflexivity |].
  change (List.last (x :: y :: l) x) with (List.last (y :: l) x).
  right; rewrite (last_cons_default y l x y); apply IH.
Qed.


Lemma searches_of_app (a b : list Trustar13.event) :
  searches_of (a ++ b) = searches_of a ++ searches_of b.
Proof.
  induction a as [| e a IH]; [reflexivity |].
  destruct e; cbn [app searches_of]; rewrite IH; reflexivity.
Qed.

Section LoopRefinesPagination.

Variable ts : Trustar13.TruStar.
Variable from_time : Z.
Variable enclaves : list string.
Variable ioc_types : list string.

Hypothesis Hsorted : orders_pages ts.




Hypothesis Hbound : respects_upper_bound ts.


End LoopRefinesPagination.

(** More fuel does not change the outcome of a loop that has ended. *)
Lemma fetch_loop_more_fuel (ts : Trustar13.TruStar) (from_time : Z)
  (enclaves ioc_types : list string) (fuel extra calls : nat)
  (st : Trustar13.loop_state) (r : list Trustar13.event * Trustar13.loop_state) :
  Trustar13.fetch_loop ts from_time enclaves ioc_types fuel calls st = Some r ->
  Trustar13.fetch_loop ts from_time enclaves ioc_types (fuel + extra) calls st = Some r.
Proof.
  revert calls st r; induction fuel as [| fuel IH]; intros calls st r; [discriminate |].
  cbn [Trustar13.fetch_loop Nat.add].
  destruct (Trustar13.loop_body _ _ _ _ _) as [[out1 st1] continue].
  destruct continue; [| exact (fun H => H)].
  destruct (Trustar13.fetch_loop ts from_time enclaves ioc_types fuel (S calls) st1)
    as [[out2 final] |] eqn:Hrec; [| discriminate].
  rewrite (IH _ _ _ Hrec); exact (fun H => H).
Qed.



(** ** Pagination over a synthetic source *)

Lemma pages_of_app (a b : list Trustar13.event) :
  pages_of (a ++ b) = pages_of a ++ pages_of b.
Proof.
  induction a as [| e a IH]; [reflexivity |].
  destruct e; cbn [app pages_of]; rewrite IH; reflexivity.
Qed.

Lemma sorted_app_inv {A : Type} (R : A -> A -> Prop) (l1 l2 : list A) :
  StronglySorted R (l1 ++ l2) ->
  StronglySorted R l1 /\ StronglySorted R l2 /\
  (forall x y, In x l1 -> In y l2 -> R x y).
Proof.
  induction l1 as [| a l1 IH]; cbn [app]; intros Hs.
  - repeat split; [constructor | exact Hs | intros x y []].
  - inversion Hs as [| ? ? Htail Ha]; subst.
    destruct (IH Htail) as (H1 & H2 & H12).
    rewrite Forall_app in Ha; destruct Ha as [Ha1 Ha2].
    repeat split; [constructor; assumption | exact H2 |].
    intros x y [<- | Hx] Hy; [| apply H12; assumption].
    rewrite Forall_forall in Ha2; apply Ha2, Hy.
Qed.


Lemma strictly_decreasing_newest_first (l : list Trustar13.Indicator) :
  strictly_decreasing l -> newest_first l.
Proof.
  unfold strictly_decreasing, newest_first; induction 1 as [| x l _ IH Hx];
    constructor; [exact IH |].
  eapply Forall_impl; [| exact Hx]; cbn; intros; lia.
Qed.


Lemma sorted_filter {A : Type} (R : A -> A -> Prop) (p : A -> bool) (l : list A) :
  StronglySorted R l -> StronglySorted R (filter p l).
Proof.
  induction 1 as [| x l _ IH Hx]; cbn [filter]; [constructor |].
  destruct (p x); [| exact IH].
  constructor; [exact IH |].
  rewrite Forall_forall in *; intros y Hy; apply filter_In in Hy as [Hy _]; auto.
Qed.

Lemma sorted_firstn {A : Type} (R : A -> A -> Prop) (n : nat) (l : list A) :
  StronglySorted R l -> StronglySorted R (firstn n l).
Proof.
  intros Hs; rewrite <- (firstn_skipn n l) in Hs.
  apply (sorted_app_inv R _ _ Hs).
Qed.

(** The synthetic source is a service as C1 wants it. *)
Lemma synthetic_orders_pages (P : nat) (records : list Trustar13.Indicator) :
  strictly_decreasing records -> orders_pages (synthetic_source P records).
Proof.
  intros Hs n q; cbn [synthetic_source Trustar13.search_indicators_page].
  apply strictly_decreasing_newest_first.
  apply sorted_firstn, sorted_filter, Hs.
Qed.

Lemma synthetic_respects_upper_bound (P : nat) (records : list Trustar13.Indicator) :
  respects_upper_bound (synthetic_source P records).
Proof.
  intros n q item; cbn [synthetic_source Trustar13.search_indicators_page].
  unfold synthetic_page; intros Hin.
  assert (Hsub : forall (k : nat) (l : list Trustar13.Indicator),
             In item (firstn k l) -> In item l).
  { induction k as [| k IH]; intros [| x l]; cbn [firstn In]; try tauto.
    intros [H | H]; [left; exact H | right; apply IH, H]. }
  pose proof (Hsub _ _ Hin) as Hf.
  apply filter_In in Hf as [_ Hw]; unfold in_window in Hw.
  apply andb_true_iff in Hw as [_ Hw]; lia.
Qed.




Section SyntheticRun.

Variable P : nat.
Variable records : list Trustar13.Indicator.
Variable from_time : Z.
Variable enclaves : list string.
Variable ioc_types : list string.

Hypothesis HP : (0 < P <= 1000)%nat.



End SyntheticRun.


Lemma sample_records_decreasing : strictly_decreasing sample_records.
Proof.
  unfold strictly_decreasing, sample_records.
  repeat (constructor; [| repeat constructor; cbn [Trustar13.last_seen]; lia]).
  constructor.
Qed.




(** Five records in pages of two: three pages and one empty answer. *)
Example sample_run_makes_four_searches :
  option_map (fun r => List.length (searches_of (fst r)))
    (Trustar13.fetch_loop (synthetic_source 2 sample_records) 1700000000000 [] []
       4 0 {| Trustar13.pg_to := 1700000010000; Trustar13.all_metadata := [] |})
  = Some 4%nat.
Proof. vm_compute; reflexivity. Qed.

(** ** Rejected flag combinations *)

Lemma parse_bound_silent (cal : Trustar13.calendar) (o : option string)
  (out : list Trustar13.event) (t : option Z) :
  Trustar13.parse_bound cal o = (out, Ok t) -> out = [].
Proof.
  unfold Trustar13.parse_bound.
  destruct (Trustar13.nonempty o) as [dt |]; [| intros [= <- _]; reflexivity].
  destruct (Trustar13.strptime_date cal dt); [intros [= <- _]; reflexivity |].
  destruct (Trustar13.strptime_datetime cal dt); [intros [= <- _]; reflexivity |].
  cbn; discriminate.
Qed.

Lemma parse_bound_events (cal : Trustar13.calendar) (o : option string) :
  Forall (fun e => is_request e = false /\ is_write e = false)
    (fst (Trustar13.parse_bound cal o)).
Proof.
  unfold Trustar13.parse_bound.
  destruct (Trustar13.nonempty o) as [dt |]; [| constructor].
  destruct (Trustar13.strptime_date cal dt); [constructor |].
  destruct (Trustar13.strptime_datetime cal dt); [constructor |].
  cbn; repeat constructor.
Qed.

(** Parsing the window prints only to refuse an argument, and makes no
    request. *)
Lemma parse_window_events (cal : Trustar13.calendar) (args : Trustar13.arguments) :
  Forall (fun e => is_request e = false /\ is_write e = false)
    (fst (Trustar13.parse_window cal args)) /\
  (forall w, snd (Trustar13.parse_window cal args) = Ok w ->
             fst (Trustar13.parse_window cal args) = []).
Proof.
  unfold Trustar13.parse_window.
  destruct (Trustar13.nonempty (Trustar13.arg_last_days args)) as [text |].
  - destruct (Trustar13.parse_days cal text) as [days |].
    + destruct (Trustar13.days_before_utcnow cal days); cbn; split;
        try constructor; try reflexivity; discriminate.
    + cbn; split; [repeat constructor | discriminate].
  - pose proof (parse_bound_events cal (Trustar13.arg_from_time args)) as Ha.
    pose proof (parse_bound_silent cal (Trustar13.arg_from_time args)) as Sa.
    destruct (Trustar13.parse_bound cal (Trustar13.arg_from_time args)) as [outa [a | e]];
      cbn [iobind fst snd] in *; [| split; [exact Ha | discriminate]].
    pose proof (parse_bound_events cal (Trustar13.arg_to_time args)) as Hb.
    pose proof (parse_bound_silent cal (Trustar13.arg_to_time args)) as Sb.
    destruct (Trustar13.parse_bound cal (Trustar13.arg_to_time args)) as [outb [b | e]];
      cbn [iobind fst snd ret] in *.
    + rewrite (Sa _ _ eq_refl), (Sb _ _ eq_refl); split; [constructor | reflexivity].
    + split; [apply Forall_app; split; assumption | discriminate].
Qed.

(** C9 (amended).  With both [-v] and [-vt] the run makes no request
    and writes nothing, whatever the service and however long the loop is
    allowed to run.  When the time arguments parse, [retrieve_iocs]
    prints that the two parameters cannot both be true and returns the
    empty list, the script prints that nothing matched, and the
    interpreter exits with status 0; when they do not, the script has
    stopped before, with the result of that step. *)
Theorem both_flags_print_and_exit_with_status_zero
  (fuel : nat) (ts : Trustar13.TruStar) (clk : Trustar13.clock)
  (cal : Trustar13.calendar) (args : Trustar13.arguments) :
  Trustar13.arg_only_vals args = true ->
  Trustar13.arg_only_vt args = true ->
  exists out r,
    Trustar13.main fuel ts clk cal args = Some (out, r) /\
    Forall (fun e => is_request e = false /\ is_write e = false) out /\
    (forall w, snd (Trustar13.parse_window cal args) = Ok w ->
               out = [Trustar13.PrintBothFlags; Trustar13.PrintNoMatch] /\
               r = Ok tt /\ Trustar13.exit_status r = 0) /\
    (forall e, snd (Trustar13.parse_window cal args) = Raise e ->
               out = fst (Trustar13.parse_window cal args) /\ r = Raise e).
Proof.
  intros Hv Hvt; unfold Trustar13.main, Trustar13.retrieve_iocs.
  rewrite Hv, Hvt; cbn [andb].
  destruct (parse_window_events cal args) as [Hev Hsilent].
  destruct (Trustar13.parse_window cal args) as [out0 [[from_time to_time] | e]];
    cbn [fst snd] in *.
  - rewrite (Hsilent _ eq_refl).
    eexists; eexists; split; [reflexivity |].
    cbn; split; [repeat constructor | split].
    + intros w _; repeat split.
    + discriminate.
  - exists out0, (Raise e); split; [reflexivity | split; [exact Hev | split]].
    + discriminate.
    + intros e' [= <-]; split; reflexivity.
Qed.

Lemma both_flags_print_and_exit_with_status_zero_witness :
  exists out r,
    Trustar13.main 0 (synthetic_source 2 sample_records) sample_clock
      day_count_calendar both_flags = Some (out, r) /\
    Forall (fun e => is_request e = false /\ is_write e = false) out /\
    (forall w, snd (Trustar13.parse_window day_count_calendar both_flags) = Ok w ->
               out = [Trustar13.PrintBothFlags; Trustar13.PrintNoMatch] /\
               r = Ok tt /\ Trustar13.exit_status r = 0) /\
    (forall e, snd (Trustar13.parse_window day_count_calendar both_flags) = Raise e ->
               out = fst (Trustar13.parse_window day_count_calendar both_flags) /\
               r = Raise e).
Proof.
  apply (both_flags_print_and_exit_with_status_zero 0 (synthetic_source 2 sample_records)
           sample_clock day_count_calendar both_flags); reflexivity.
Defined.

(** C9 as stated: "the process exits with a non-zero exit code".  The
    run with [-v -vt] prints its two messages and ends with status 0. *)
Lemma both_flags_exit_status_is_zero :
  Trustar13.main 0 (synthetic_source 2 sample_records) sample_clock
    day_count_calendar both_flags
  = Some ([Trustar13.PrintBothFlags; Trustar13.PrintNoMatch], Ok tt)
  /\ Trustar13.exit_status (Ok tt) = 0.
Proof. split; reflexivity. Qed.

(** ** Blocks of at most 200 IOCs *)

Section Blocks.

Variable expiration_timestamp : string.

Let add_ioc := MispCrowdstrike.add_ioc expiration_timestamp.
Let add_iocs := MispCrowdstrike.add_iocs expiration_timestamp.

Lemma add_ioc_classified (st : MispCrowdstrike.blocks_state) (ioc : dict)
  (c : value + value * value) :
  classify expiration_timestamp ioc = Ok c ->
  add_ioc st ioc
  = (messages_of [c],
     Ok (match c with inl d => push st d | inr _ => st end)).
Proof.
  subst add_ioc; unfold classify, MispCrowdstrike.add_ioc.
  destruct (getitem ioc "type") as [ty | e]; cbn [bind lift iobind]; [| discriminate].
  destruct (MispCrowdstrike.mapped_type ty) as [[cs_type |] | e];
    cbn [bind lift iobind]; [| | discriminate].
  - destruct (MispCrowdstrike.ioc_dict expiration_timestamp cs_type ioc) as [d | e];
      cbn [bind iobind]; [| discriminate].
    intros [= <-]; unfold push; cbn [messages_of].
    destruct (Nat.leb _ _); reflexivity.
  - destruct (getitem ioc "value") as [v | e]; cbn [bind iobind]; [| discriminate].
    intros [= <-]; reflexivity.
Qed.

Lemma messages_of_cons (c : value + value * value) (cs : list (value + value * value)) :
  messages_of (c :: cs) = messages_of [c] ++ messages_of cs.
Proof. destruct c as [d | [ty v]]; reflexivity. Qed.

Lemma add_iocs_classified (iocs : list dict) (cs : list (value + value * value))
  (st : MispCrowdstrike.blocks_state) :
  mapM (classify expiration_timestamp) iocs = Ok cs ->
  add_iocs st iocs = (messages_of cs, Ok (fold_left push (encoded_of cs) st)).
Proof.
  subst add_iocs; revert cs st; induction iocs as [| ioc rest IH]; intros cs st;
    cbn [mapM MispCrowdstrike.add_iocs].
  - intros [= <-]; reflexivity.
  - intros H; apply bind_ok in H as (c & Hc & H).
    apply bind_ok in H as (cs' & Hcs & H); injection H as <-.
    fold add_ioc; rewrite (add_ioc_classified st ioc c Hc); cbn [iobind].
    rewrite (IH cs' _ Hcs), (messages_of_cons c cs').
    destruct c as [d | [ty v]]; reflexivity.
Qed.

Lemma push_spec (st : MispCrowdstrike.blocks_state) (d : value) :
  blocks_invariant st ->
  blocks_invariant (push st d) /\
  contents (push st d) = contents st ++ [d] /\
  MispCrowdstrike.ioc_count (push st d) = S (MispCrowdstrike.ioc_count st).
Proof.
  unfold blocks_invariant, contents, push; intros [Hlen Hfull].
  assert (Hl : List.length (MispCrowdstrike.ioc_block st ++ [d])
               = S (List.length (MispCrowdstrike.ioc_block st)))
    by (rewrite length_app; cbn [List.length]; lia).
  destruct (Nat.leb_spec MispCrowdstrike.BLOCK_SIZE
              (List.length (MispCrowdstrike.ioc_block st ++ [d]))) as [Hge | Hlt];
    cbn [MispCrowdstrike.ioc_block MispCrowdstrike.ioc_blocks MispCrowdstrike.ioc_count].
  - repeat split.
    + unfold MispCrowdstrike.BLOCK_SIZE; cbn [List.length]; lia.
    + apply Forall_app; split; [exact Hfull |].
      constructor; [lia | constructor].
    + rewrite concat_app; cbn [concat]; rewrite !app_nil_r, app_assoc; reflexivity.
  - repeat split; [lia | exact Hfull | rewrite app_assoc; reflexivity].
Qed.

Lemma fold_push_spec (ds : list value) (st : MispCrowdstrike.blocks_state) :
  blocks_invariant st ->
  blocks_invariant (fold_left push ds st) /\
  contents (fold_left push ds st) = contents st ++ ds /\
  MispCrowdstrike.ioc_count (fold_left push ds st)
  = (MispCrowdstrike.ioc_count st + List.length ds)%nat.
Proof.
  revert st; induction ds as [| d ds IH]; intros st Hinv; cbn [fold_left].
  - rewrite app_nil_r; cbn [List.length]; repeat split; [apply Hinv | apply Hinv | lia].
  - destruct (push_spec st d Hinv) as (Hinv' & Hc & Hn).
    destruct (IH _ Hinv') as (Hinv'' & Hc' & Hn').
    repeat split; [apply Hinv'' | apply Hinv'' | |].
    + rewrite Hc', Hc, <- app_assoc; reflexivity.
    + rewrite Hn', Hn; cbn [List.length]; lia.
Qed.

End Blocks.







(** Two hundred and one domains make a full block and a block of one. *)
Example two_hundred_and_one_iocs :
  match MispCrowdstrike.make_blocks sample_expiration
          (repeat (filtered_ioc "domain" "evil.example" "tlp:amber") 201) with
  | (_, Ok (count, blocks)) => (count, map (@List.length value) blocks)
  | (_, Raise _) => (0%nat, [])
  end = (201%nat, [200%nat; 1%nat]).
Proof. vm_compute; reflexivity. Qed.

(** ** Resubmission after a 400 answer *)

Lemma list_remove_length (i : nat) (ioc : value) (block : list value) :
  (List.length (MispCrowdstrike.list_remove i ioc block) <= List.length block)%nat.
Proof.
  revert i; induction block as [| x r IH]; intros i; cbn [MispCrowdstrike.list_remove];
    [apply Nat.le_refl |].
  destruct i as [| i]; cbn [List.length]; [lia |].
  destruct (value_eqb x ioc); cbn [List.length]; [lia |].
  specialize (IH i); lia.
Qed.

(** The turns given to the inner loop by [remove_duplicate] are enough:
    more would not change the block. *)
Lemma remove_loop_enough (fuel extra i : nat) (v : value) (block : list value) :
  (List.length block - i <= fuel)%nat ->
  MispCrowdstrike.remove_loop (fuel + extra) i v block
  = MispCrowdstrike.remove_loop fuel i v block.
Proof.
  revert i block; induction fuel as [| fuel IH]; intros i block Hlen.
  - assert (Hnone : nth_error block i = None) by (apply nth_error_None; lia).
    destruct extra; cbn [Nat.add MispCrowdstrike.remove_loop]; [reflexivity |].
    rewrite Hnone; reflexivity.
  - cbn [Nat.add MispCrowdstrike.remove_loop].
    destruct (nth_error block i) as [ioc |] eqn:Hnth; [| reflexivity].
    assert (Hi : (i < List.length block)%nat)
      by (apply nth_error_Some; rewrite Hnth; discriminate).
    destruct (value_eqb (MispCrowdstrike.ioc_value ioc) v); apply IH.
    + pose proof (list_remove_length i ioc block); lia.
    + lia.
Qed.

Lemma requests_of_app (a b : list MispCrowdstrike.event) :
  requests_of (a ++ b) = requests_of a ++ requests_of b.
Proof.
  induction a as [| e a IH]; [reflexivity |].
  destruct e; cbn [app requests_of]; rewrite IH; reflexivity.
Qed.

Lemma process_errors_requests (errors : list dict) (block : list value) :
  requests_of (fst (MispCrowdstrike.process_errors errors block)) = [].
Proof.
  revert block; induction errors as [| error rest IH]; intros block;
    cbn [MispCrowdstrike.process_errors]; [reflexivity |].
  destruct (contains "Warning: Duplicate type" (get error "message")) as [[|] | e];
    cbn [lift iobind emit]; [| | reflexivity].
  - specialize (IH (MispCrowdstrike.remove_duplicate (get error "value") block)).
    destruct (MispCrowdstrike.process_errors rest _) as [out r]; cbn [fst] in *.
    destruct r; cbn [fst requests_of app]; exact IH.
  - specialize (IH block).
    destruct (MispCrowdstrike.process_errors rest block) as [out r]; cbn [fst] in *.
    destruct r; cbn [fst requests_of app]; exact IH.
Qed.

(** X1.  A block is submitted once, and once more when the answer is
    400 and its errors could be read; no other answer leads to a second
    request. *)
Lemma one_resubmission_on_400_only (api : MispCrowdstrike.falcon)
  (total i calls : nat) (block : list value) (out : list MispCrowdstrike.event) (n : nat) :
  MispCrowdstrike.submit_block api total i calls block = (out, Ok n) ->
  if MispCrowdstrike.status_code (api calls block) =? 400
  then exists block',
         snd (MispCrowdstrike.process_errors
                (MispCrowdstrike.resources (api calls block)) block) = Ok block' /\
         requests_of out = [block; block'] /\ n = S (S calls)
  else requests_of out = [block] /\ n = S calls.
Proof.
  unfold MispCrowdstrike.submit_block; cbn [emit iobind app].
  destruct (MispCrowdstrike.status_code (api calls block) =? 400) eqn:E400.
  - pose proof (process_errors_requests
                  (MispCrowdstrike.resources (api calls block)) block) as Hreq.
    destruct (MispCrowdstrike.process_errors _ block) as [out1 [block' | e]];
      cbn [fst snd iobind emit app] in *; [| discriminate].
    destruct (MispCrowdstrike.is_success _); cbn [emit iobind ret app];
      intros [= <- <-]; exists block'; repeat split;
      cbn [requests_of]; rewrite requests_of_app, Hreq; reflexivity.
  - destruct (MispCrowdstrike.status_code (api calls block) =? 429);
      [cbn; intros [= <- <-]; split; reflexivity |].
    destruct (MispCrowdstrike.is_success _); cbn; intros [= <- <-]; split; reflexivity.
Qed.

(** C5, at a block where the code misses.  Two domains with the same
    value make one block; the service answers 400 and names that value
    as a duplicate.  Removing from the list while iterating over it
    steps over the second IOC: the block submitted again still holds
    it. *)
Theorem adjacent_duplicate_is_resubmitted :
  MispCrowdstrike.make_blocks sample_expiration
    [filtered_ioc "domain" "evil.example" "tlp:amber";
     filtered_ioc "domain" "evil.example" "tlp:green"]
  = ([], Ok (2%nat, [[falcon_domain "evil.example" "tlp:amber";
                      falcon_domain "evil.example" "tlp:green"]]))
  /\ requests_of
       (fst (MispCrowdstrike.upload_iocs sample_expiration refuse_once
               [filtered_ioc "domain" "evil.example" "tlp:amber";
                filtered_ioc "domain" "evil.example" "tlp:green"]))
     = [[falcon_domain "evil.example" "tlp:amber";
         falcon_domain "evil.example" "tlp:green"];
        [falcon_domain "evil.example" "tlp:green"]]
  /\ MispCrowdstrike.ioc_value (falcon_domain "evil.example" "tlp:green")
     = get (duplicate_error "evil.example") "value".
Proof. repeat split; vm_compute; reflexivity. Qed.

(** ** Further properties of the scripts *)

(** A run of X1: a block of two domains against a service that refuses
    once. *)
Lemma one_resubmission_on_400_only_witness :
  exists block',
    snd (MispCrowdstrike.process_errors
           (MispCrowdstrike.resources
              (refuse_once 0%nat [falcon_domain "evil.example" "tlp:amber";
                                  falcon_domain "bad.example" "tlp:green"]))
           [falcon_domain "evil.example" "tlp:amber";
            falcon_domain "bad.example" "tlp:green"]) = Ok block' /\
    requests_of
      (fst (MispCrowdstrike.submit_block refuse_once 1%nat 0%nat 0%nat
              [falcon_domain "evil.example" "tlp:amber";
               falcon_domain "bad.example" "tlp:green"]))
    = [[falcon_domain "evil.example" "tlp:amber";
        falcon_domain "bad.example" "tlp:green"]; block'] /\
    2%nat = 2%nat.
Proof.
  apply (one_resubmission_on_400_only refuse_once 1%nat 0%nat 0%nat
           [falcon_domain "evil.example" "tlp:amber";
            falcon_domain "bad.example" "tlp:green"] _ 2%nat).
  vm_compute; reflexivity.
Defined.

(** ** A service that ignores the upper bound *)

Lemma fetch_loop_none_above (ts : Trustar13.TruStar) (from_time : Z)
  (enclaves ioc_types : list string) :
  answers_above ts from_time ->
  forall fuel calls st,
    Trustar13.fetch_loop ts from_time enclaves ioc_types fuel calls st = None.
Proof.
  intros Habove fuel; induction fuel as [| fuel IH]; intros calls st; [reflexivity |].
  cbn [Trustar13.fetch_loop].
  destruct (Habove calls (Trustar13.page_query from_time enclaves ioc_types st))
    as (first & rest & -> & Hlast).
  cbn [Trustar13.loop_body].
  destruct (Z.ltb_spec (Trustar13.last_seen (List.last (first :: rest) first) - 1) from_time)
    as [Hlt | Hge]; [lia |].
  cbn [negb]; rewrite IH; reflexivity.
Qed.

(** X2.  The loop of [retrieve_iocs] leaves only on an empty page or on
    a bound that fell below [from_time].  Against a service that keeps
    answering with records seen after [from_time], whatever upper bound
    is asked, the message "ERROR: Aborting" aborts nothing: no number of
    turns ends the loop, and [retrieve_iocs] does not return. *)
Theorem retrieve_iocs_does_not_return_when_the_bound_is_ignored
  (ts : Trustar13.TruStar) (clk : Trustar13.clock) (from_time to_time : option Z)
  (ioc_types : list string) (only_vals only_vt : bool) (enclaves : list string)
  (min_calls all_meta : bool) :
  answers_above ts (window_from clk from_time) ->
  (only_vals && only_vt)%bool = false ->
  (negb min_calls && Trustar13.ping_fails ts)%bool = false ->
  forall fuel,
    Trustar13.retrieve_iocs fuel ts clk from_time to_time ioc_types
      only_vals only_vt enclaves min_calls all_meta = None.
Proof.
  intros Habove Hflags Hping fuel; unfold Trustar13.retrieve_iocs.
  rewrite Hflags, Hping.
  fold (window_from clk from_time); fold (window_to clk to_time).
  rewrite (fetch_loop_none_above ts _ _ ioc_types Habove); reflexivity.
Qed.

Lemma retrieve_iocs_does_not_return_when_the_bound_is_ignored_witness :
  Trustar13.retrieve_iocs 1000 stubborn_source sample_clock (Some 1700000000000) None []
    false false [] false false = None.
Proof.
  apply (retrieve_iocs_does_not_return_when_the_bound_is_ignored stubborn_source
           sample_clock (Some 1700000000000) None [] false false [] false false).
  - intros n q; eexists; eexists; split; [reflexivity | cbn; lia].
  - reflexivity.
  - reflexivity.
Defined.

(** ** Every run of [retrieve_iocs] against a service that honours the
    upper bound *)

Lemma loop_body_searches (ts : Trustar13.TruStar) (from_time : Z) (enclaves : list string)
  (items : list Trustar13.Indicator) (st : Trustar13.loop_state) :
  searches_of (fst (fst (Trustar13.loop_body ts from_time enclaves items st))) = [].
Proof.
  destruct items as [| first rest]; cbn [Trustar13.loop_body fst]; [reflexivity |].
  cbn [app searches_of]; destruct (_ <? _); reflexivity.
Qed.

Lemma loop_body_bound (ts : Trustar13.TruStar) (from_time : Z) (enclaves : list string)
  (first : Trustar13.Indicator) (rest : list Trustar13.Indicator)
  (st : Trustar13.loop_state) :
  Trustar13.pg_to (snd (fst (Trustar13.loop_body ts from_time enclaves (first :: rest) st)))
  = Trustar13.last_seen (List.last (first :: rest) first) - 1.
Proof. reflexivity. Qed.

(** The loop ends within [enough_fuel] turns, whatever the order of the
    records inside a page. *)
Lemma fetch_loop_ends_under_bound (ts : Trustar13.TruStar) (from_time : Z)
  (enclaves ioc_types : list string) :
  respects_upper_bound ts ->
  forall fuel calls st,
    (enough_fuel from_time (Trustar13.pg_to st) <= fuel)%nat ->
    exists out final,
      Trustar13.fetch_loop ts from_time enclaves ioc_types fuel calls st
      = Some (out, final).
Proof.
  intros Hbound; unfold enough_fuel.
  induction fuel as [| fuel IH]; intros calls st Hfuel; [lia |].
  cbn [Trustar13.fetch_loop].
  set (q := Trustar13.page_query from_time enclaves ioc_types st).
  pose proof (Hbound calls q) as Hb.
  destruct (Trustar13.search_indicators_page ts calls q) as [| first rest] eqn:Hpage.
  - cbn [Trustar13.loop_body]; eexists; eexists; reflexivity.
  - cbn [Trustar13.loop_body].
    set (earliest := Trustar13.last_seen (List.last (first :: rest) first)).
    assert (Hle : earliest <= Trustar13.pg_to st)
      by (apply (Hb (List.last (first :: rest) first)), last_in).
    destruct (Z.ltb_spec (earliest - 1) from_time) as [Hlt | Hge]; cbn [negb];
      [eexists; eexists; reflexivity |].
    match goal with
    | |- context [Trustar13.fetch_loop _ _ _ _ fuel (S calls) ?st'] =>
        destruct (IH (S calls) st') as (out2 & final & ->);
          [cbn [Trustar13.pg_to]; lia | eexists; eexists; reflexivity]
    end.
Qed.

Lemma fetch_loop_searches_le_fuel (ts : Trustar13.TruStar) (from_time : Z)
  (enclaves ioc_types : list string) (fuel calls : nat) (st final : Trustar13.loop_state)
  (out : list Trustar13.event) :
  Trustar13.fetch_loop ts from_time enclaves ioc_types fuel calls st = Some (out, final) ->
  (List.length (searches_of out) <= fuel)%nat.
Proof.
  revert calls st out final; induction fuel as [| fuel IH]; intros calls st out final;
    [discriminate |].
  cbn [Trustar13.fetch_loop].
  pose proof (loop_body_searches ts from_time enclaves
                (Trustar13.search_indicators_page ts calls
                   (Trustar13.page_query from_time enclaves ioc_types st)) st) as Hs.
  destruct (Trustar13.loop_body _ _ _ _ _) as [[out1 st1] continue]; cbn [fst] in Hs.
  destruct continue.
  - destruct (Trustar13.fetch_loop ts from_time enclaves ioc_types fuel (S calls) st1)
      as [[out2 final2] |] eqn:Hrec; [| discriminate].
    intros [= <- <-]; cbn [searches_of List.length].
    rewrite searches_of_app, Hs; cbn [app]; specialize (IH _ _ _ _ Hrec); lia.
  - intros [= <- <-]; cbn [searches_of List.length]; rewrite Hs; cbn [List.length]; lia.
Qed.

Lemma searches_of_print_enclaves (usr_encs : list (string * string)) (enclaves : list string) :
  searches_of (Trustar13.print_enclaves usr_encs enclaves) = [].
Proof.
  induction enclaves as [| encid rest IH]; cbn [Trustar13.print_enclaves]; [reflexivity |].
  destruct (find _ _); cbn [searches_of]; [exact IH | reflexivity].
Qed.

(** What [retrieve_iocs] is made of once its two early returns are
    passed. *)
Lemma retrieve_iocs_unfold (fuel : nat) (ts : Trustar13.TruStar) (clk : Trustar13.clock)
  (from_time to_time : option Z) (ioc_types : list string) (only_vals only_vt : bool)
  (enclaves : list string) (min_calls all_meta : bool) :
  (only_vals && only_vt)%bool = false ->
  (negb min_calls && Trustar13.ping_fails ts)%bool = false ->
  Trustar13.retrieve_iocs fuel ts clk from_time to_time ioc_types
    only_vals only_vt enclaves min_calls all_meta
  = match Trustar13.fetch_loop ts (window_from clk from_time)
            (resolved_enclaves ts enclaves) ioc_types fuel 0
            {| Trustar13.pg_to := window_to clk to_time; Trustar13.all_metadata := [] |} with
    | None => None
    | Some (out_loop, final) =>
        let out :=
          (if min_calls then [] else [Trustar13.ApiPing])
            ++ (if min_calls then []
                else Trustar13.ApiGetUserEnclaves :: Trustar13.PrintRetrievingFrom
                       :: Trustar13.print_enclaves (Trustar13.get_user_enclaves ts)
                            (resolved_enclaves ts enclaves))
            ++ [Trustar13.PrintWindow (window_from clk from_time) (window_to clk to_time)]
            ++ out_loop in
        match Trustar13.select_fields only_vals only_vt all_meta
                (Trustar13.all_metadata final) with
        | Ok res => Some (out ++ [Trustar13.PrintNewline], Ok res)
        | Raise e => Some (out, Raise e)
        end
    end.
Proof.
  intros Hflags Hping; unfold Trustar13.retrieve_iocs; rewrite Hflags, Hping.
  reflexivity.
Qed.

(** X3.  Against a service that answers within the upper bound of each
    query, [retrieve_iocs] returns for every combination of its
    arguments, within a number of turns fixed by the window; more turns
    change nothing, and it makes no more searches than that number. *)
Theorem retrieve_iocs_returns_for_all_arguments
  (ts : Trustar13.TruStar) (clk : Trustar13.clock) (from_time to_time : option Z)
  (ioc_types : list string) (only_vals only_vt : bool) (enclaves : list string)
  (min_calls all_meta : bool) :
  respects_upper_bound ts ->
  exists out r,
    (forall extra,
        Trustar13.retrieve_iocs
          (enough_fuel (window_from clk from_time) (window_to clk to_time) + extra)
          ts clk from_time to_time ioc_types only_vals only_vt enclaves min_calls all_meta
        = Some (out, r)) /\
    (List.length (searches_of out)
     <= enough_fuel (window_from clk from_time) (window_to clk to_time))%nat.
Proof.
  intros Hbound.
  destruct (only_vals && only_vt)%bool eqn:Hflags.
  { exists [Trustar13.PrintBothFlags], (Ok []); split.
    - intros extra; unfold Trustar13.retrieve_iocs; rewrite Hflags; reflexivity.
    - cbn; lia. }
  destruct (negb min_calls && Trustar13.ping_fails ts)%bool eqn:Hping.
  { exists [Trustar13.ApiPing; Trustar13.PrintApiFailure], (Ok []); split.
    - intros extra; unfold Trustar13.retrieve_iocs; rewrite Hflags, Hping; reflexivity.
    - cbn; lia. }
  set (from_ms := window_from clk from_time); set (to_ms := window_to clk to_time).
  destruct (fetch_loop_ends_under_bound ts from_ms (resolved_enclaves ts enclaves)
              ioc_types Hbound (enough_fuel from_ms to_ms) 0
              {| Trustar13.pg_to := to_ms; Trustar13.all_metadata := [] |})
    as (out_loop & final & Hrun); [cbn [Trustar13.pg_to]; lia |].
  pose proof (fetch_loop_searches_le_fuel _ _ _ _ _ _ _ _ _ Hrun) as Hcount.
  assert (Hsearch : forall tail,
             searches_of
               ((if min_calls then [] else [Trustar13.ApiPing])
                  ++ (if min_calls then []
                      else Trustar13.ApiGetUserEnclaves :: Trustar13.PrintRetrievingFrom
                             :: Trustar13.print_enclaves (Trustar13.get_user_enclaves ts)
                                  (resolved_enclaves ts enclaves))
                  ++ [Trustar13.PrintWindow from_ms to_ms] ++ out_loop ++ tail)
             = searches_of out_loop ++ searches_of tail).
  { intros tail; rewrite !searches_of_app.
    destruct min_calls; cbn [searches_of app];
      rewrite ?searches_of_print_enclaves; reflexivity. }
  destruct (Trustar13.select_fields only_vals only_vt all_meta
              (Trustar13.all_metadata final)) as [res | e] eqn:Hsel.
  - eexists; eexists; split.
    + intros extra; rewrite (retrieve_iocs_unfold _ _ _ _ _ _ _ _ _ _ _ Hflags Hping).
      fold from_ms to_ms.
      rewrite (fetch_loop_more_fuel _ _ _ _ _ extra _ _ _ Hrun); cbv zeta.
      rewrite Hsel; reflexivity.
    + rewrite <- !app_assoc, Hsearch; cbn [searches_of]; rewrite app_nil_r; exact Hcount.
  - eexists; eexists; split.
    + intros extra; rewrite (retrieve_iocs_unfold _ _ _ _ _ _ _ _ _ _ _ Hflags Hping).
      fold from_ms to_ms.
      rewrite (fetch_loop_more_fuel _ _ _ _ _ extra _ _ _ Hrun); cbv zeta.
      rewrite Hsel; reflexivity.
    + specialize (Hsearch []); rewrite app_nil_r in Hsearch.
      rewrite Hsearch; cbn [searches_of]; rewrite app_nil_r; exact Hcount.
Qed.

Lemma retrieve_iocs_returns_for_all_arguments_witness :
  exists out r,
    (forall extra,
        Trustar13.retrieve_iocs
          (enough_fuel (window_from sample_clock (Some 1700000000000))
             (window_to sample_clock None) + extra)
          (synthetic_source 2 sample_records) sample_clock (Some 1700000000000) None []
          true false [] false false
        = Some (out, r)) /\
    (List.length (searches_of out)
     <= enough_fuel (window_from sample_clock (Some 1700000000000%Z))
          (window_to sample_clock None))%nat.
Proof.
  apply (retrieve_iocs_returns_for_all_arguments (synthetic_source 2 sample_records)
           sample_clock (Some 1700000000000) None [] true false [] false false).
  apply synthetic_respects_upper_bound.
Defined.

(** The searches of the loop: the same query at every turn but for the
    upper bound, which starts at [pg_to] and, under a service that
    honours it, goes down at every turn. *)
Lemma fetch_loop_searches (ts : Trustar13.TruStar) (from_time : Z)
  (enclaves ioc_types : list string) (fuel calls : nat) (st final : Trustar13.loop_state)
  (out : list Trustar13.event) :
  Trustar13.fetch_loop ts from_time enclaves ioc_types fuel calls st = Some (out, final) ->
  exists later,
    searches_of out
    = map (bounded_query from_time enclaves ioc_types) (Trustar13.pg_to st :: later) /\
    (respects_upper_bound ts -> decreasing (Trustar13.pg_to st :: later)).
Proof.
  revert calls st out final; induction fuel as [| fuel IH]; intros calls st out final;
    [discriminate |].
  cbn [Trustar13.fetch_loop].
  change (Trustar13.page_query from_time enclaves ioc_types st)
    with (bounded_query from_time enclaves ioc_types (Trustar13.pg_to st)).
  set (q := bounded_query from_time enclaves ioc_types (Trustar13.pg_to st)).
  pose proof (loop_body_searches ts from_time enclaves
                (Trustar13.search_indicators_page ts calls q) st) as Hs.
  destruct (Trustar13.search_indicators_page ts calls q) as [| first rest] eqn:Hpage.
  - cbn [Trustar13.loop_body]; intros [= <- <-]; exists []; split; [reflexivity |].
    intros _; repeat constructor.
  - pose proof (loop_body_bound ts from_time enclaves first rest st) as Hto.
    destruct (Trustar13.loop_body ts from_time enclaves (first :: rest) st)
      as [[out1 st1] continue]; cbn [fst snd] in Hs, Hto.
    destruct continue.
    + destruct (Trustar13.fetch_loop ts from_time enclaves ioc_types fuel (S calls) st1)
        as [[out2 final2] |] eqn:Hrec; [| discriminate].
      intros [= <- <-].
      destruct (IH _ _ _ _ Hrec) as (later & Hq & Hdec).
      exists (Trustar13.pg_to st1 :: later); split.
      * cbn [searches_of]; rewrite searches_of_app, Hs, Hq; reflexivity.
      * intros Hbound; specialize (Hdec Hbound).
        assert (Hlt : Trustar13.pg_to st1 < Trustar13.pg_to st).
        { rewrite Hto.
          pose proof (Hbound calls q (List.last (first :: rest) first)) as Hb.
          rewrite Hpage in Hb; specialize (Hb (last_in first rest)).
          cbn [q bounded_query Trustar13.q_to_time] in Hb; lia. }
        constructor; [exact Hdec |].
        constructor; [lia |].
        apply StronglySorted_inv in Hdec as [_ Hall].
        eapply Forall_impl; [| exact Hall]; cbv beta; intros b Hb; lia.
    + intros [= <- <-]; exists []; split.
      * cbn [searches_of]; rewrite Hs; reflexivity.
      * intros _; repeat constructor.
Qed.

(** X4.  In every run of [retrieve_iocs] the searches differ in their
    upper bound only: each asks for pages of 1000 from the enclaves
    resolved at the start (the caller's, else the configured ones, else
    the vetted enclave), with the given types and the lower bound of the
    window.  A run that passes the validation and the ping starts at the
    upper bound of the window, and against a service that honours the
    upper bound each search asks strictly below the one before. *)
Theorem searches_differ_in_their_upper_bound_only
  (fuel : nat) (ts : Trustar13.TruStar) (clk : Trustar13.clock)
  (from_time to_time : option Z) (ioc_types : list string) (only_vals only_vt : bool)
  (enclaves : list string) (min_calls all_meta : bool)
  (out : list Trustar13.event) (r : result (list dict)) :
  Trustar13.retrieve_iocs fuel ts clk from_time to_time ioc_types
    only_vals only_vt enclaves min_calls all_meta = Some (out, r) ->
  exists bounds,
    searches_of out
    = map (bounded_query (window_from clk from_time) (resolved_enclaves ts enclaves)
             ioc_types) bounds /\
    ((only_vals && only_vt)%bool = false ->
     (negb min_calls && Trustar13.ping_fails ts)%bool = false ->
     exists later, bounds = window_to clk to_time :: later) /\
    (respects_upper_bound ts -> decreasing bounds).
Proof.
  destruct (only_vals && only_vt)%bool eqn:Hflags.
  { unfold Trustar13.retrieve_iocs; rewrite Hflags; intros [= <- <-].
    exists []; repeat split; [discriminate | intros _; constructor]. }
  destruct (negb min_calls && Trustar13.ping_fails ts)%bool eqn:Hping.
  { unfold Trustar13.retrieve_iocs; rewrite Hflags, Hping; intros [= <- <-].
    exists []; repeat split; [discriminate | intros _; constructor]. }
  rewrite (retrieve_iocs_unfold _ _ _ _ _ _ _ _ _ _ _ Hflags Hping).
  destruct (Trustar13.fetch_loop _ _ _ _ _ _ _) as [[out_loop final] |] eqn:Hrun;
    [| discriminate].
  destruct (fetch_loop_searches _ _ _ _ _ _ _ _ _ Hrun) as (later & Hq & Hdec).
  cbn [Trustar13.pg_to] in Hq, Hdec.
  cbv zeta; destruct (Trustar13.select_fields _ _ _ _) as [res | e]; intros [= <- <-];
    exists (window_to clk to_time :: later);
    (split; [| split; [intros _ _; exists later; reflexivity | exact Hdec]]);
    rewrite !searches_of_app; destruct min_calls; cbn [searches_of app];
    rewrite ?searches_of_print_enclaves, ?app_nil_r; exact Hq.
Qed.

Lemma searches_differ_in_their_upper_bound_only_witness :
  exists out r,
    Trustar13.retrieve_iocs 4 (synthetic_source 2 sample_records) sample_clock
      (Some 1700000000000) (Some 1700000010000) [] false false [] true true
    = Some (out, r) /\
    exists bounds,
      searches_of out
      = map (bounded_query (window_from sample_clock (Some 1700000000000))
               (resolved_enclaves (synthetic_source 2 sample_records) []) []) bounds /\
      ((false && false)%bool = false ->
       (negb true && Trustar13.ping_fails (synthetic_source 2 sample_records))%bool = false ->
       exists later, bounds = window_to sample_clock (Some 1700000010000) :: later) /\
      (respects_upper_bound (synthetic_source 2 sample_records) -> decreasing bounds).
Proof.
  eexists; eexists; split; [vm_compute; reflexivity |].
  eapply (searches_differ_in_their_upper_bound_only 4 (synthetic_source 2 sample_records)
            sample_clock (Some 1700000000000) (Some 1700000010000) [] false false []
            true true).
  vm_compute; reflexivity.
Defined.

(** In a page ordered newest first no record is older than the last. *)
Lemma newest_first_last_least (x : Trustar13.Indicator) (l : list Trustar13.Indicator) :
  newest_first (x :: l) ->
  forall y, In y (x :: l) ->
            Trustar13.last_seen (List.last (x :: l) x) <= Trustar13.last_seen y.
Proof.
  unfold newest_first; revert x; induction l as [| z l IH]; intros x Hs y Hy.
  - destruct Hy as [<- | []]; cbn; lia.
  - inversion Hs as [| ? ? Htail Hx]; subst.
    change (List.last (x :: z :: l) x) with (List.last (z :: l) x).
    rewrite (last_cons_default z l x z).
    destruct Hy as [<- | Hy]; [| apply (IH z Htail y Hy)].
    pose proof (last_in z l) as Hin.
    rewrite Forall_forall in Hx; specialize (Hx _ Hin); lia.
Qed.

Lemma loop_body_pages (ts : Trustar13.TruStar) (from_time : Z) (enclaves : list string)
  (first : Trustar13.Indicator) (rest : list Trustar13.Indicator)
  (st : Trustar13.loop_state) :
  pages_of (fst (fst (Trustar13.loop_body ts from_time enclaves (first :: rest) st)))
  = [first :: rest].
Proof.
  cbn [Trustar13.loop_body fst app pages_of]; destruct (_ <? _); reflexivity.
Qed.

Lemma fetch_loop_pages (ts : Trustar13.TruStar) (from_time : Z)
  (enclaves ioc_types : list string) :
  orders_pages ts -> respects_upper_bound ts ->
  forall (fuel calls : nat) (st final : Trustar13.loop_state) (out : list Trustar13.event),
    Trustar13.fetch_loop ts from_time enclaves ioc_types fuel calls st = Some (out, final) ->
    separated (pages_of out) /\
    Forall newest_first (pages_of out) /\
    Forall (fun y => Trustar13.last_seen y <= Trustar13.pg_to st) (concat (pages_of out)).
Proof.
  intros Hsorted Hbound fuel; induction fuel as [| fuel IH]; intros calls st final out;
    [discriminate |].
  cbn [Trustar13.fetch_loop].
  set (q := Trustar13.page_query from_time enclaves ioc_types st).
  pose proof (Hsorted calls q) as Hs.
  pose proof (Hbound calls q) as Hb.
  destruct (Trustar13.search_indicators_page ts calls q) as [| first rest] eqn:Hpage.
  - cbn [Trustar13.loop_body]; intros [= <- <-]; cbn [pages_of concat separated].
    repeat split; constructor.
  - pose proof (loop_body_pages ts from_time enclaves first rest st) as Hp.
    pose proof (loop_body_bound ts from_time enclaves first rest st) as Hto.
    destruct (Trustar13.loop_body ts from_time enclaves (first :: rest) st)
      as [[out1 st1] continue]; cbn [fst snd] in Hp, Hto.
    assert (Hpage_le : Forall (fun y => Trustar13.last_seen y <= Trustar13.pg_to st)
                         (first :: rest)).
    { apply Forall_forall; intros y Hy; apply (Hb y Hy). }
    destruct continue.
    + destruct (Trustar13.fetch_loop ts from_time enclaves ioc_types fuel (S calls) st1)
        as [[out2 final2] |] eqn:Hrec; [| discriminate].
      intros [= <- <-].
      destruct (IH _ _ _ _ Hrec) as (Hsep & Hnf & Hle).
      cbn [pages_of]; rewrite pages_of_app, Hp; cbn [app concat separated].
      split; [split; [| exact Hsep] | split].
      * intros x y Hx Hy.
        rewrite Forall_forall in Hle; specialize (Hle y Hy).
        pose proof (newest_first_last_least first rest Hs x Hx); lia.
      * constructor; assumption.
      * change (first :: rest ++ concat (pages_of out2))
          with ((first :: rest) ++ concat (pages_of out2)).
        apply Forall_app; split; [exact Hpage_le |].
        eapply Forall_impl; [| exact Hle]; cbv beta; intros y Hy.
        rewrite Forall_forall in Hpage_le.
        specialize (Hpage_le _ (last_in first rest)); lia.
    + intros [= <- <-]; cbn [pages_of]; rewrite Hp; cbn [concat separated].
      rewrite app_nil_r.
      split; [split; [intros x y _ [] | exact I] |].
      split; [constructor; [exact Hs | constructor] | exact Hpage_le].
Qed.

Lemma pages_of_print_enclaves (usr_encs : list (string * string)) (enclaves : list string) :
  pages_of (Trustar13.print_enclaves usr_encs enclaves) = [].
Proof.
  induction enclaves as [| encid rest IH]; cbn [Trustar13.print_enclaves]; [reflexivity |].
  destruct (find _ _); cbn [pages_of]; [exact IH | reflexivity].
Qed.

(** X5.  Against a service that orders its pages newest first and
    answers within the upper bound of the query, the pages
    [retrieve_iocs] fetches do not overlap: every record of a page was
    seen strictly after every record of the pages fetched later, so no
    record comes twice in different pages, and none was seen after the
    end of the window.  (A record that shares its [last_seen] with the
    last record of a page and was left out of that page is below no later
    bound: it is not fetched at all.) *)
Theorem fetched_pages_do_not_overlap
  (fuel : nat) (ts : Trustar13.TruStar) (clk : Trustar13.clock)
  (from_time to_time : option Z) (ioc_types : list string) (only_vals only_vt : bool)
  (enclaves : list string) (min_calls all_meta : bool)
  (out : list Trustar13.event) (r : result (list dict)) :
  orders_pages ts -> respects_upper_bound ts ->
  Trustar13.retrieve_iocs fuel ts clk from_time to_time ioc_types
    only_vals only_vt enclaves min_calls all_meta = Some (out, r) ->
  separated (pages_of out) /\
  Forall newest_first (pages_of out) /\
  Forall (fun y => Trustar13.last_seen y <= window_to clk to_time) (concat (pages_of out)).
Proof.
  intros Hsorted Hbound.
  destruct (only_vals && only_vt)%bool eqn:Hflags.
  { unfold Trustar13.retrieve_iocs; rewrite Hflags; intros [= <- <-].
    cbn; repeat split; constructor. }
  destruct (negb min_calls && Trustar13.ping_fails ts)%bool eqn:Hping.
  { unfold Trustar13.retrieve_iocs; rewrite Hflags, Hping; intros [= <- <-].
    cbn; repeat split; constructor. }
  rewrite (retrieve_iocs_unfold _ _ _ _ _ _ _ _ _ _ _ Hflags Hping).
  destruct (Trustar13.fetch_loop _ _ _ _ _ _ _) as [[out_loop final] |] eqn:Hrun;
    [| discriminate].
  pose proof (fetch_loop_pages ts _ _ _ Hsorted Hbound _ _ _ _ _ Hrun) as Hpages.
  cbn [Trustar13.pg_to] in Hpages.
  cbv zeta; destruct (Trustar13.select_fields _ _ _ _) as [res | e]; intros [= <- <-];
    rewrite !pages_of_app; destruct min_calls; cbn [pages_of app];
    rewrite ?pages_of_print_enclaves, ?app_nil_r; exact Hpages.
Qed.

Lemma fetched_pages_do_not_overlap_witness :
  exists out r,
    Trustar13.retrieve_iocs 4 (synthetic_source 2 sample_records) sample_clock
      (Some 1700000000000) (Some 1700000010000) [] false false [] true true
    = Some (out, r) /\
    separated (pages_of out) /\
    Forall newest_first (pages_of out) /\
    Forall (fun y => Trustar13.last_seen y
                     <= window_to sample_clock (Some 1700000010000))
      (concat (pages_of out)).
Proof.
  eexists; eexists; split; [vm_compute; reflexivity |].
  eapply (fetched_pages_do_not_overlap 4 (synthetic_source 2 sample_records)
            sample_clock (Some 1700000000000) (Some 1700000010000) [] false false []
            true true).
  - apply synthetic_orders_pages, sample_records_decreasing.
  - apply synthetic_respects_upper_bound.
  - vm_compute; reflexivity.
Defined.

(** ** The enclave check and the calls it costs *)

Lemma loop_body_same_answers (ts ts' : Trustar13.TruStar) (from_time : Z)
  (enclaves : list string) (items : list Trustar13.Indicator) (st : Trustar13.loop_state) :
  same_answers ts ts' ->
  Trustar13.loop_body ts from_time enclaves items st
  = Trustar13.loop_body ts' from_time enclaves items st.
Proof.
  intros (_ & _ & _ & Hmeta); destruct items as [| first rest]; [reflexivity |].
  cbn [Trustar13.loop_body]; rewrite Hmeta; reflexivity.
Qed.

Lemma fetch_loop_same_answers (ts ts' : Trustar13.TruStar) (from_time : Z)
  (enclaves ioc_types : list string) (fuel calls : nat) (st : Trustar13.loop_state) :
  same_answers ts ts' ->
  Trustar13.fetch_loop ts from_time enclaves ioc_types fuel calls st
  = Trustar13.fetch_loop ts' from_time enclaves ioc_types fuel calls st.
Proof.
  intros Hsame; revert calls st; induction fuel as [| fuel IH]; intros calls st;
    [reflexivity |].
  cbn [Trustar13.fetch_loop].
  destruct Hsame as (Hp & He & Hsearch & Hmeta) eqn:Hs; clear Hs.
  rewrite Hsearch.
  rewrite (loop_body_same_answers ts ts') by (repeat split; assumption).
  destruct (Trustar13.loop_body ts' _ _ _ _) as [[out1 st1] continue].
  rewrite IH; reflexivity.
Qed.

Lemma requests_of_print_enclaves (usr_encs : list (string * string)) (enclaves : list string) :
  requests_made (Trustar13.print_enclaves usr_encs enclaves) = [].
Proof.
  unfold requests_made.
  induction enclaves as [| encid rest IH]; cbn [Trustar13.print_enclaves]; [reflexivity |].
  destruct (find _ _); cbn [filter is_request]; [exact IH | reflexivity].
Qed.

Lemma requests_made_app (a b : list Trustar13.event) :
  requests_made (a ++ b) = requests_made a ++ requests_made b.
Proof. apply filter_app. Qed.

(** X6.  The check "Confirm user has access to desired enclave(s)" only
    prints: two clients that differ in the enclaves the user can see are
    sent the same requests by [retrieve_iocs], and the same result is
    returned.  A user without access to an enclave is told so and the
    enclave is queried all the same. *)
Theorem enclave_access_check_changes_nothing
  (fuel : nat) (ts ts' : Trustar13.TruStar) (clk : Trustar13.clock)
  (from_time to_time : option Z) (ioc_types : list string) (only_vals only_vt : bool)
  (enclaves : list string) (min_calls all_meta : bool) :
  same_answers ts ts' ->
  match Trustar13.retrieve_iocs fuel ts clk from_time to_time ioc_types
          only_vals only_vt enclaves min_calls all_meta,
        Trustar13.retrieve_iocs fuel ts' clk from_time to_time ioc_types
          only_vals only_vt enclaves min_calls all_meta with
  | Some (out, r), Some (out', r') => requests_made out = requests_made out' /\ r = r'
  | None, None => True
  | _, _ => False
  end.
Proof.
  intros Hsame; pose proof Hsame as (Hp & He & _ & _).
  destruct (only_vals && only_vt)%bool eqn:Hflags.
  { unfold Trustar13.retrieve_iocs; rewrite Hflags; split; reflexivity. }
  destruct (negb min_calls && Trustar13.ping_fails ts)%bool eqn:Hping.
  { unfold Trustar13.retrieve_iocs; rewrite Hflags, <- Hp, Hping; split; reflexivity. }
  assert (Hping' : (negb min_calls && Trustar13.ping_fails ts')%bool = false)
    by (rewrite <- Hp; exact Hping).
  rewrite (retrieve_iocs_unfold _ ts _ _ _ _ _ _ _ _ _ Hflags Hping).
  rewrite (retrieve_iocs_unfold _ ts' _ _ _ _ _ _ _ _ _ Hflags Hping').
  assert (Henc : resolved_enclaves ts' enclaves = resolved_enclaves ts enclaves)
    by (unfold resolved_enclaves; rewrite He; reflexivity).
  rewrite Henc, <- (fetch_loop_same_answers ts ts' _ _ _ _ _ _ Hsame).
  destruct (Trustar13.fetch_loop ts _ _ _ _ _ _) as [[out_loop final] |]; [| exact I].
  cbv zeta; destruct (Trustar13.select_fields _ _ _ _) as [res | e];
    (split; [| reflexivity]);
    rewrite !requests_made_app; destruct min_calls; try reflexivity;
    change (requests_made (Trustar13.ApiGetUserEnclaves :: Trustar13.PrintRetrievingFrom
                             :: ?l))
      with (Trustar13.ApiGetUserEnclaves :: requests_made l);
    rewrite !requests_of_print_enclaves; reflexivity.
Qed.

Lemma enclave_access_check_changes_nothing_witness :
  match Trustar13.retrieve_iocs 4 (synthetic_source 2 sample_records) sample_clock
          (Some 1700000000000) (Some 1700000010000) [] false false [] false false,
        Trustar13.retrieve_iocs 4 (without_access (synthetic_source 2 sample_records))
          sample_clock (Some 1700000000000) (Some 1700000010000) [] false false []
          false false with
  | Some (out, r), Some (out', r') => requests_made out = requests_made out' /\ r = r'
  | None, None => True
  | _, _ => False
  end.
Proof.
  apply (enclave_access_check_changes_nothing 4 (synthetic_source 2 sample_records)
           (without_access (synthetic_source 2 sample_records)) sample_clock
           (Some 1700000000000) (Some 1700000010000) [] false false [] false false).
  repeat split; reflexivity.
Defined.

Lemma fetch_loop_requests (ts : Trustar13.TruStar) (from_time : Z)
  (enclaves ioc_types : list string) (fuel calls : nat) (st final : Trustar13.loop_state)
  (out : list Trustar13.event) :
  Trustar13.fetch_loop ts from_time enclaves ioc_types fuel calls st = Some (out, final) ->
  (List.length (requests_made out) <= 2 * List.length (searches_of out))%nat /\
  ~ In Trustar13.ApiPing out /\ ~ In Trustar13.ApiGetUserEnclaves out.
Proof.
  revert calls st out final; induction fuel as [| fuel IH]; intros calls st out final;
    [discriminate |].
  cbn [Trustar13.fetch_loop].
  set (q := Trustar13.page_query from_time enclaves ioc_types st).
  destruct (Trustar13.search_indicators_page ts calls q) as [| first rest].
  - cbn [Trustar13.loop_body]; intros [= <- <-]; cbn; split; [lia |].
    split; intros [H | []]; discriminate H.
  - cbn [Trustar13.loop_body].
    set (note := if Trustar13.pg_to st <? _ then _ else _).
    assert (Hnote : requests_made note = [] /\ searches_of note = [] /\
                    ~ In Trustar13.ApiPing note /\ ~ In Trustar13.ApiGetUserEnclaves note).
    { subst note; destruct (_ <? _); cbn; repeat split; try tauto;
        intros [H | []]; discriminate H. }
    destruct Hnote as (Hn1 & Hn2 & Hn3 & Hn4).
    destruct (negb _).
    + match goal with
      | |- context [Trustar13.fetch_loop _ _ _ _ fuel (S calls) ?st'] =>
          destruct (Trustar13.fetch_loop ts from_time enclaves ioc_types fuel (S calls) st')
            as [[out2 final2] |] eqn:Hrec; [| discriminate]
      end.
      intros [= <- <-]; destruct (IH _ _ _ _ Hrec) as (Hlen & Hp & Hl).
      cbn [app searches_of]; unfold requests_made in *; cbn [filter is_request].
      rewrite filter_app, searches_of_app, Hn1, Hn2; cbn [app List.length].
      split; [lia |].
      split; intros [H | [H | [H | H]]]; try discriminate H;
        apply in_app_or in H as [H | H]; tauto.
    + intros [= <- <-].
      cbn [app searches_of]; unfold requests_made in *; cbn [filter is_request].
      rewrite Hn1, Hn2; cbn [List.length]; split; [lia |].
      split; intros [H | [H | [H | H]]]; try discriminate H; tauto.
Qed.

Lemma print_enclaves_no_request (usr_encs : list (string * string)) (enclaves : list string) :
  ~ In Trustar13.ApiPing (Trustar13.print_enclaves usr_encs enclaves) /\
  ~ In Trustar13.ApiGetUserEnclaves (Trustar13.print_enclaves usr_encs enclaves).
Proof.
  induction enclaves as [| encid rest [IH1 IH2]]; cbn [Trustar13.print_enclaves];
    [split; intros [] |].
  destruct (find _ _); split; intros [H | H]; try discriminate H; tauto.
Qed.

(** X7.  What a run of [retrieve_iocs] costs in API calls: at most two
    requests for each search (the search and the metadata of its page),
    and two more, the ping and the listing of the user's enclaves, unless
    [min_calls] is set; with [min_calls] neither of the two is ever
    made. *)
Theorem min_calls_saves_the_ping_and_the_enclave_listing
  (fuel : nat) (ts : Trustar13.TruStar) (clk : Trustar13.clock)
  (from_time to_time : option Z) (ioc_types : list string) (only_vals only_vt : bool)
  (enclaves : list string) (min_calls all_meta : bool)
  (out : list Trustar13.event) (r : result (list dict)) :
  Trustar13.retrieve_iocs fuel ts clk from_time to_time ioc_types
    only_vals only_vt enclaves min_calls all_meta = Some (out, r) ->
  (List.length (requests_made out)
   <= 2 * List.length (searches_of out) + (if min_calls then 0 else 2))%nat /\
  (min_calls = true ->
   ~ In Trustar13.ApiPing out /\ ~ In Trustar13.ApiGetUserEnclaves out).
Proof.
  destruct (only_vals && only_vt)%bool eqn:Hflags.
  { unfold Trustar13.retrieve_iocs; rewrite Hflags; intros [= <- <-]; cbn.
    split; [lia | intros _; split; intros [H | []]; discriminate H]. }
  destruct (negb min_calls && Trustar13.ping_fails ts)%bool eqn:Hping.
  { unfold Trustar13.retrieve_iocs; rewrite Hflags, Hping; intros [= <- <-].
    destruct min_calls; [discriminate Hping |]; cbn.
    split; [lia | discriminate]. }
  rewrite (retrieve_iocs_unfold _ _ _ _ _ _ _ _ _ _ _ Hflags Hping).
  destruct (Trustar13.fetch_loop _ _ _ _ _ _ _) as [[out_loop final] |] eqn:Hrun;
    [| discriminate].
  destruct (fetch_loop_requests _ _ _ _ _ _ _ _ _ Hrun) as (Hlen & Hp & Hl).
  destruct (print_enclaves_no_request (Trustar13.get_user_enclaves ts)
              (resolved_enclaves ts enclaves)) as (Hep & Hel).
  cbv zeta; destruct (Trustar13.select_fields _ _ _ _) as [res | e]; intros [= <- <-];
    rewrite !requests_made_app, !searches_of_app; destruct min_calls;
    cbn [app searches_of];
    change (requests_made (Trustar13.PrintWindow ?a ?b :: ?l)) with (requests_made l);
    change (requests_made [Trustar13.PrintNewline]) with (@nil Trustar13.event);
    change (requests_made (@nil Trustar13.event)) with (@nil Trustar13.event);
    change (requests_made [Trustar13.ApiPing]) with [Trustar13.ApiPing];
    try change (requests_made (Trustar13.ApiGetUserEnclaves :: Trustar13.PrintRetrievingFrom
                                 :: ?l))
      with (Trustar13.ApiGetUserEnclaves :: requests_made l);
    rewrite ?requests_of_print_enclaves, ?searches_of_print_enclaves, ?app_nil_r;
    cbn [app List.length searches_of];
    (split; [lia |]); try discriminate;
    intros _; split; intros H;
    repeat (apply in_app_or in H as [H | H] || destruct H as [H | H]);
    try discriminate H; tauto.
Qed.

Lemma min_calls_saves_the_ping_and_the_enclave_listing_witness :
  exists out r,
    Trustar13.retrieve_iocs 4 (synthetic_source 2 sample_records) sample_clock
      (Some 1700000000000) (Some 1700000010000) [] false false [] true false
    = Some (out, r) /\
    (List.length (requests_made out) <= 2 * List.length (searches_of out) + 0)%nat /\
    (true = true ->
     ~ In Trustar13.ApiPing out /\ ~ In Trustar13.ApiGetUserEnclaves out).
Proof.
  eexists; eexists; split; [vm_compute; reflexivity |].
  eapply (min_calls_saves_the_ping_and_the_enclave_listing 4
            (synthetic_source 2 sample_records) sample_clock
            (Some 1700000000000) (Some 1700000010000) [] false false [] true false).
  vm_compute; reflexivity.
Defined.

(** ** Runs of the command line that retrieve nothing *)

(** X8.  When the ping is refused (and [-m] does not skip it) the
    script reports the failure, makes no other request, writes no file
    and ends normally: the exit status is 0, as for a run that found
    nothing. *)
Theorem refused_ping_ends_the_run_with_status_zero
  (fuel : nat) (ts : Trustar13.TruStar) (clk : Trustar13.clock)
  (cal : Trustar13.calendar) (args : Trustar13.arguments) (w : option Z * option Z) :
  Trustar13.ping_fails ts = true ->
  Trustar13.arg_min_calls args = false ->
  (Trustar13.arg_only_vals args && Trustar13.arg_only_vt args)%bool = false ->
  snd (Trustar13.parse_window cal args) = Ok w ->
  exists r,
    Trustar13.main fuel ts clk cal args
    = Some ([Trustar13.ApiPing; Trustar13.PrintApiFailure; Trustar13.PrintNoMatch], r) /\
    r = Ok tt /\ Trustar13.exit_status r = 0.
Proof.
  intros Hping Hmin Hflags Hw.
  destruct (parse_window_events cal args) as [_ Hsilent].
  specialize (Hsilent w Hw).
  unfold Trustar13.main.
  destruct (Trustar13.parse_window cal args) as [out [[from_time to_time] | e]];
    cbn [fst snd] in *; [| discriminate Hw].
  subst out; unfold Trustar13.retrieve_iocs; rewrite Hflags, Hmin, Hping.
  exists (Ok tt); repeat split; reflexivity.
Qed.

Lemma refused_ping_ends_the_run_with_status_zero_witness :
  exists r,
    Trustar13.main 0 unreachable_source sample_clock day_count_calendar (last_days_run "7")
    = Some ([Trustar13.ApiPing; Trustar13.PrintApiFailure; Trustar13.PrintNoMatch], r) /\
    r = Ok tt /\ Trustar13.exit_status r = 0.
Proof.
  apply (refused_ping_ends_the_run_with_status_zero 0 unreachable_source sample_clock
           day_count_calendar (last_days_run "7")
           (Some (1700000010000 - 7 * Trustar13.DAY_MS), Some 1700000010000));
    reflexivity.
Defined.

Lemma parse_bound_raises (cal : Trustar13.calendar) (o : option string)
  (out : list Trustar13.event) (e : exn) :
  Trustar13.parse_bound cal o = (out, Raise e) ->
  e = SystemExit 0 /\ exists dt, out = [Trustar13.PrintInvalidDate dt].
Proof.
  unfold Trustar13.parse_bound.
  destruct (Trustar13.nonempty o) as [dt |]; [| discriminate].
  destruct (Trustar13.strptime_date cal dt); [discriminate |].
  destruct (Trustar13.strptime_datetime cal dt); [discriminate |].
  cbn; intros [= <- <-]; split; [reflexivity | exists dt; reflexivity].
Qed.

(** X9.  A time argument that cannot be read stops the script before it
    touches the API: a last_days that is no integer, or a from_time or
    to_time in neither date format, prints one message and leaves through
    [sys.exit()], so with exit status 0, having made no request and
    written nothing.  The one other way out of the parsing is a day count
    too large for [timedelta], which raises out of the script without a
    message. *)
Theorem unreadable_time_argument_stops_before_any_request
  (fuel : nat) (ts : Trustar13.TruStar) (clk : Trustar13.clock)
  (cal : Trustar13.calendar) (args : Trustar13.arguments) (e : exn) :
  snd (Trustar13.parse_window cal args) = Raise e ->
  exists msgs,
    Trustar13.main fuel ts clk cal args = Some (msgs, Raise e) /\
    Forall (fun ev => is_request ev = false /\ is_write ev = false) msgs /\
    ((Trustar13.exit_status (@Raise unit e) = 0 /\
      exists msg, msgs = [msg] /\
                  (msg = Trustar13.PrintInvalidLastDays \/
                   exists dt, msg = Trustar13.PrintInvalidDate dt))
     \/ (msgs = [] /\
         exists text days,
           Trustar13.nonempty (Trustar13.arg_last_days args) = Some text /\
           Trustar13.parse_days cal text = Some days /\
           Trustar13.days_before_utcnow cal days = Raise e)).
Proof.
  intros He.
  destruct (parse_window_events cal args) as [Hquiet _].
  exists (fst (Trustar13.parse_window cal args)).
  split; [| split; [exact Hquiet |]].
  - unfold Trustar13.main.
    destruct (Trustar13.parse_window cal args) as [out [w | e']]; cbn [fst snd] in *;
      [discriminate He | injection He as ->; reflexivity].
  - revert He; unfold Trustar13.parse_window.
    destruct (Trustar13.nonempty (Trustar13.arg_last_days args)) as [text |].
    + destruct (Trustar13.parse_days cal text) as [days |] eqn:Hparse.
      * destruct (Trustar13.days_before_utcnow cal days) as [start | e'] eqn:Hdays;
          cbn [lift iobind ret fst snd app]; [discriminate |].
        intros [= <-]; right; split; [reflexivity |].
        exists text, days; repeat split; first [reflexivity | assumption].
      * cbn; intros [= <-]; left; split; [reflexivity |].
        eexists; split; [reflexivity | left; reflexivity].
    + destruct (Trustar13.parse_bound cal (Trustar13.arg_from_time args))
        as [out1 [a | e1]] eqn:H1.
      * apply parse_bound_silent in H1 as ->.
        destruct (Trustar13.parse_bound cal (Trustar13.arg_to_time args))
          as [out2 [b | e2]] eqn:H2; cbn [iobind ret fst snd app]; [discriminate |].
        apply parse_bound_raises in H2 as (-> & dt & ->).
        intros [= <-]; left; split; [reflexivity |].
        eexists; split; [reflexivity | right; exists dt; reflexivity].
      * apply parse_bound_raises in H1 as (-> & dt & ->).
        cbn [iobind fst snd]; intros [= <-]; left; split; [reflexivity |].
        eexists; split; [reflexivity | right; exists dt; reflexivity].
Qed.

Lemma unreadable_time_argument_stops_before_any_request_witness :
  exists msgs,
    Trustar13.main 4 (synthetic_source 2 sample_records) sample_clock day_count_calendar
      (last_days_run "week") = Some (msgs, Raise (SystemExit 0)) /\
    Forall (fun ev => is_request ev = false /\ is_write ev = false) msgs /\
    ((Trustar13.exit_status (@Raise unit (SystemExit 0)) = 0 /\
      exists msg, msgs = [msg] /\
                  (msg = Trustar13.PrintInvalidLastDays \/
                   exists dt, msg = Trustar13.PrintInvalidDate dt))
     \/ (msgs = [] /\
         exists text days,
           Trustar13.nonempty (Trustar13.arg_last_days (last_days_run "week")) = Some text /\
           Trustar13.parse_days day_count_calendar text = Some days /\
           Trustar13.days_before_utcnow day_count_calendar days = Raise (SystemExit 0))).
Proof.
  apply (unreadable_time_argument_stops_before_any_request 4
           (synthetic_source 2 sample_records) sample_clock day_count_calendar
           (last_days_run "week") (SystemExit 0)).
  reflexivity.
Defined.

(** X10.  [-l] decides the window alone: when last_days is given, the
    from_time and to_time arguments are not even read, so the run is the
    same whatever they hold, a date that cannot be parsed included. *)
Theorem last_days_overrides_from_and_to
  (fuel : nat) (ts : Trustar13.TruStar) (clk : Trustar13.clock)
  (cal : Trustar13.calendar) (args : Trustar13.arguments) (text : string)
  (f t : option string) :
  Trustar13.nonempty (Trustar13.arg_last_days args) = Some text ->
  Trustar13.main fuel ts clk cal (with_bounds args f t)
  = Trustar13.main fuel ts clk cal args.
Proof.
  intros Hl; unfold Trustar13.main, Trustar13.parse_window.
  cbn [with_bounds Trustar13.arg_last_days Trustar13.arg_types Trustar13.arg_only_vals
         Trustar13.arg_only_vt Trustar13.arg_enclaves Trustar13.arg_min_calls
         Trustar13.arg_all Trustar13.arg_csv Trustar13.arg_split_tags].
  rewrite Hl; reflexivity.
Qed.

Lemma last_days_overrides_from_and_to_witness :
  Trustar13.main 4 (synthetic_source 2 sample_records) sample_clock day_count_calendar
    (with_bounds (last_days_run "7") (Some "next tuesday") None)
  = Trustar13.main 4 (synthetic_source 2 sample_records) sample_clock day_count_calendar
      (last_days_run "7").
Proof.
  apply (last_days_overrides_from_and_to 4 (synthetic_source 2 sample_records)
           sample_clock day_count_calendar (last_days_run "7") "7"
           (Some "next tuesday") None).
  reflexivity.
Defined.

(** ** CSV output of the restricted projections *)

Lemma pick_value_only (md out : list dict) :
  mapM (Trustar13.pick ["value"]) md = Ok out ->
  Forall (fun o => exists v, o = [("value", v)]) out.
Proof.
  intros H; apply mapM_Forall2 in H.
  induction H as [| ind o md out Ho _ IH]; constructor; [| exact IH].
  unfold Trustar13.pick in Ho; cbn [mapM] in Ho.
  destruct (getitem ind "value") as [v | e]; cbn in Ho; [| discriminate Ho].
  injection Ho as <-; exists v; reflexivity.
Qed.

Lemma pick_value_and_type (md out : list dict) :
  mapM (Trustar13.pick ["value"; "indicatorType"]) md = Ok out ->
  Forall (fun o => exists v ty, o = [("value", v); ("indicatorType", ty)]) out.
Proof.
  intros H; apply mapM_Forall2 in H.
  induction H as [| ind o md out Ho _ IH]; constructor; [| exact IH].
  unfold Trustar13.pick in Ho; cbn [mapM] in Ho.
  destruct (getitem ind "value") as [v | e]; cbn in Ho; [| discriminate Ho].
  destruct (getitem ind "indicatorType") as [ty | e]; cbn in Ho; [| discriminate Ho].
  injection Ho as <-; exists v, ty; reflexivity.
Qed.

(** X11.  With [-v] or [-vt] the records have no [tags] entry, so the
    CSV header has no tags column; [ind_dict_to_csv] still appends the
    flattened tags to every row.  Unless [-s] is given, each data row of
    such a file therefore ends with an empty cell that stands under no
    column of the header. *)
Theorem restricted_csv_rows_end_with_a_cell_without_column :
  (forall (all_meta : bool) (md : list dict) (first : dict) (rest : list dict),
      Trustar13.select_fields true false all_meta md = Ok (first :: rest) ->
      Trustar13.ind_dict_to_csv (first :: rest) false
      = (Trustar13.WriteRow [VStr "value"]
           :: map (fun o => Trustar13.WriteRow [get o "value"; VStr EmptyString])
                (first :: rest)
           ++ [Trustar13.PrintWroteCsv], Ok tt))
  /\ (forall (only_vals all_meta : bool) (md : list dict) (first : dict) (rest : list dict),
      Trustar13.select_fields only_vals true all_meta md = Ok (first :: rest) ->
      Trustar13.ind_dict_to_csv (first :: rest) false
      = (Trustar13.WriteRow [VStr "value"; VStr "indicatorType"]
           :: map (fun o => Trustar13.WriteRow
                              [get o "value"; get o "indicatorType"; VStr EmptyString])
                (first :: rest)
           ++ [Trustar13.PrintWroteCsv], Ok tt)).
Proof.
  split.
  - intros all_meta md first rest Hsel; cbn [Trustar13.select_fields] in Hsel.
    apply pick_value_only in Hsel.
    unfold Trustar13.ind_dict_to_csv; rewrite index_head; cbn [lift iobind emit app].
    rewrite trustar_write_indicators; cbn [iobind emit app].
    inversion Hsel as [| ? ? [v0 ->] _]; subst.
    change (Trustar13.csv_header [("value", v0)]) with ["value"].
    f_equal; f_equal; f_equal.
    apply map_ext_in; intros o Ho.
    rewrite Forall_forall in Hsel; destruct (Hsel o Ho) as [v ->]; reflexivity.
  - intros only_vals all_meta md first rest Hsel; cbn [Trustar13.select_fields] in Hsel.
    apply pick_value_and_type in Hsel.
    unfold Trustar13.ind_dict_to_csv; rewrite index_head; cbn [lift iobind emit app].
    rewrite trustar_write_indicators; cbn [iobind emit app].
    inversion Hsel as [| ? ? (v0 & ty0 & ->) _]; subst.
    change (Trustar13.csv_header [("value", v0); ("indicatorType", ty0)])
      with ["value"; "indicatorType"].
    f_equal; f_equal; f_equal.
    apply map_ext_in; intros o Ho.
    rewrite Forall_forall in Hsel; destruct (Hsel o Ho) as (v & ty & ->); reflexivity.
Qed.

Lemma restricted_csv_rows_end_with_a_cell_without_column_witness :
  Trustar13.ind_dict_to_csv
    [[("value", VStr "evil.example")]; [("value", VStr "198.51.100.7")]] false
  = (Trustar13.WriteRow [VStr "value"]
       :: map (fun o => Trustar13.WriteRow [get o "value"; VStr EmptyString])
            [[("value", VStr "evil.example")]; [("value", VStr "198.51.100.7")]]
       ++ [Trustar13.PrintWroteCsv], Ok tt).
Proof.
  apply (proj1 restricted_csv_rows_end_with_a_cell_without_column false
           (map to_dict (firstn 2 sample_records))).
  reflexivity.
Defined.

(** ** Records the CSV writers cannot write *)

Lemma no_exit_trustar2_csv_row (header : list string) (observable : dict) :
  no_exit (Trustar2Csv.csv_row header observable).
Proof.
  unfold Trustar2Csv.csv_row.
  apply no_exit_bind; [apply no_exit_mapM; intros; apply no_exit_getitem |].
  intros row; destruct (truthy _); [| exact I].
  apply no_exit_bind.
  - unfold Trustar2Csv.tag_list.
    apply no_exit_bind.
    + destruct (truthy _); [| exact I].
      apply no_exit_bind; [apply no_exit_getitem |]; intros tags.
      apply no_exit_bind; [apply no_exit_subscript |]; intros t0; exact I.
    + intros b; apply no_exit_bind; [apply no_exit_iter |]; intros items.
      destruct b; [| exact I].
      apply no_exit_mapM; intros; apply no_exit_subscript.
  - intros tags; apply no_exit_bind; [apply no_exit_join |]; intros; exact I.
Qed.

Lemma trustar2_write_observables (header : list string) (observables : list dict) :
  Trustar2Csv.write_observables header observables
  = (map (trustar2_row_event header) observables, Ok tt).
Proof.
  induction observables as [| o rest IH]; [reflexivity |].
  cbn [Trustar2Csv.write_observables map].
  unfold Trustar2Csv.write_observable, trustar2_row_event at 1.
  pose proof (no_exit_trustar2_csv_row header o) as Hne.
  destruct (Trustar2Csv.csv_row header o) as [row | e].
  - cbn [emit iobind]; rewrite IH; reflexivity.
  - destruct e; try (cbn [emit iobind]; rewrite IH; reflexivity).
    destruct Hne.
Qed.

Lemma in_remove_first (k t : string) (l : list string) :
  In k l -> k <> t -> In k (Trustar13.remove_first t l).
Proof.
  intros Hin Hne; induction l as [| x l IH]; [destruct Hin |].
  cbn [Trustar13.remove_first].
  destruct (String.eqb_spec x t) as [-> | Hx].
  - destruct Hin as [-> | Hin]; [contradiction | exact Hin].
  - destruct Hin as [-> | Hin]; [left; reflexivity | right; apply IH, Hin].
Qed.

Lemma column_in_header (first : dict) (k : string) :
  In k (keys first) -> k <> "tags" ->
  In k (filter not_tags (Trustar13.csv_header first)).
Proof.
  intros Hin Hne; apply filter_In; split.
  - unfold Trustar13.csv_header; cbv zeta.
    destruct (existsb _ _); [| exact Hin].
    apply in_or_app; left; apply in_remove_first; assumption.
  - unfold not_tags; destruct (String.eqb_spec k "tags"); [contradiction | reflexivity].
Qed.

Lemma getitem_columns_raise (record : dict) (columns : list string) (k : string) :
  In k columns -> lookup k record = None ->
  mapM (getitem record) columns = Raise KeyError.
Proof.
  intros Hin Hnone; induction columns as [| c columns IH]; [destruct Hin |].
  cbn [mapM]; unfold getitem at 1.
  destruct (lookup c record) as [v |] eqn:Hc; [| reflexivity].
  destruct Hin as [-> | Hin]; [congruence |].
  cbn [bind]; rewrite (IH Hin); reflexivity.
Qed.

(** X12.  The header of a CSV file comes from the first record alone,
    and every record then leaves one line in the run, in order: its row,
    or the message "Error writing indicator" printed in its place.  For
    a record that has no entry for one of the columns the line is the
    message, with the [KeyError]: the record is not written, the
    records after it are handled as if it had not been there, and the
    writer returns normally; the closing message of [obl_dict_to_csv]
    and [ioc_dicts_to_csv] still counts the record among the IOCs
    written.  On an empty list the writers raise [IndexError] at
    [iocs[0]], before any row. *)
Theorem record_lacking_a_column_is_reported_and_skipped :
  (forall (first : dict) (rest : list dict) (split_tags : bool),
      Trustar13.ind_dict_to_csv (first :: rest) split_tags
      = (Trustar13.WriteRow (map VStr (Trustar13.csv_header first))
           :: map (trustar_row_event (Trustar13.csv_header first) split_tags)
                (first :: rest)
           ++ [Trustar13.PrintWroteCsv], Ok tt) /\
      forall record,
        lacks_a_column first record ->
        trustar_row_event (Trustar13.csv_header first) split_tags record
        = Trustar13.PrintErrorWriting record KeyError)
  /\ (forall (first : dict) (rest : list dict),
      Trustar2Csv.obl_dict_to_csv (first :: rest)
      = (Trustar2Csv.WriteRow (map VStr (Trustar2Csv.csv_header first))
           :: map (trustar2_row_event (Trustar2Csv.csv_header first)) (first :: rest)
           ++ [Trustar2Csv.PrintWrote (List.length (first :: rest))], Ok tt) /\
      forall record,
        lacks_a_column first record ->
        trustar2_row_event (Trustar2Csv.csv_header first) record
        = Trustar2Csv.PrintErrorWriting record KeyError)
  /\ (forall (rt : runtime) (first : dict) (rest : list dict),
      MispCsv.ioc_dicts_to_csv rt (first :: rest)
      = (MispCsv.WriteRow (map VStr (MispCsv.csv_header first))
           :: map (misp_row_event rt (MispCsv.csv_header first)) (first :: rest)
           ++ [MispCsv.PrintWrote (List.length (first :: rest))], Ok tt) /\
      forall record,
        lacks_a_column first record ->
        misp_row_event rt (MispCsv.csv_header first) record
        = MispCsv.PrintErrorWriting record KeyError)
  /\ (forall (rt : runtime) (split_tags : bool),
      Trustar13.ind_dict_to_csv [] split_tags = ([], Raise IndexError) /\
      Trustar2Csv.obl_dict_to_csv [] = ([], Raise IndexError) /\
      MispCsv.ioc_dicts_to_csv rt [] = ([], Raise IndexError)).
Proof.
  split; [| split; [| split]].
  - intros first rest split_tags; split.
    + unfold Trustar13.ind_dict_to_csv; rewrite index_head; cbn [lift iobind emit app].
      rewrite trustar_write_indicators; cbn [iobind emit app]; reflexivity.
    + intros record (k & Hk & Hne & Hnone).
      unfold trustar_row_event, Trustar13.csv_row.
      pose proof (getitem_columns_raise record _ k (column_in_header first k Hk Hne) Hnone)
        as Hraise.
      unfold not_tags in Hraise; rewrite Hraise; reflexivity.
  - intros first rest; split.
    + unfold Trustar2Csv.obl_dict_to_csv; rewrite index_head; cbn [lift iobind emit app].
      rewrite trustar2_write_observables; cbn [iobind emit app]; reflexivity.
    + intros record (k & Hk & Hne & Hnone).
      change (Trustar2Csv.csv_header first) with (Trustar13.csv_header first).
      unfold trustar2_row_event, Trustar2Csv.csv_row.
      pose proof (getitem_columns_raise record _ k (column_in_header first k Hk Hne) Hnone)
        as Hraise.
      unfold not_tags in Hraise; rewrite Hraise; reflexivity.
  - intros rt first rest; split.
    + unfold MispCsv.ioc_dicts_to_csv; rewrite index_head; cbn [lift iobind emit app].
      rewrite misp_write_iocs; cbn [iobind emit app]; reflexivity.
    + intros record (k & Hk & Hne & Hnone).
      change (MispCsv.csv_header first) with (Trustar13.csv_header first).
      unfold misp_row_event, MispCsv.csv_row.
      pose proof (getitem_columns_raise record _ k (column_in_header first k Hk Hne) Hnone)
        as Hraise.
      unfold not_tags in Hraise; rewrite Hraise; reflexivity.
  - intros rt split_tags; repeat split; reflexivity.
Qed.

(** Three observables, the second without [indicatorType]: the header,
    the first row, the message, the third row, and a count of three. *)
Lemma record_lacking_a_column_is_reported_and_skipped_witness :
  Trustar2Csv.obl_dict_to_csv
    [[("value", VStr "evil.example"); ("indicatorType", VStr "URL")];
     [("value", VStr "198.51.100.7")];
     [("value", VStr "bad.example"); ("indicatorType", VStr "URL")]]
  = ([Trustar2Csv.WriteRow [VStr "value"; VStr "indicatorType"];
      Trustar2Csv.WriteRow [VStr "evil.example"; VStr "URL"];
      Trustar2Csv.PrintErrorWriting [("value", VStr "198.51.100.7")] KeyError;
      Trustar2Csv.WriteRow [VStr "bad.example"; VStr "URL"];
      Trustar2Csv.PrintWrote 3], Ok tt)
  /\ trustar2_row_event
       (Trustar2Csv.csv_header [("value", VStr "evil.example"); ("indicatorType", VStr "URL")])
       [("value", VStr "198.51.100.7")]
     = Trustar2Csv.PrintErrorWriting [("value", VStr "198.51.100.7")] KeyError.
Proof.
  destruct (proj1 (proj2 record_lacking_a_column_is_reported_and_skipped)
              [("value", VStr "evil.example"); ("indicatorType", VStr "URL")]
              [[("value", VStr "198.51.100.7")];
               [("value", VStr "bad.example"); ("indicatorType", VStr "URL")]])
    as [Hrun Hrecord].
  split; [exact Hrun |].
  apply Hrecord.
  exists "indicatorType"; split; [right; left; reflexivity |].
  split; [discriminate | reflexivity].
Defined.

(** ** The fields [filter_results] keeps *)

Lemma keys_setitem (x : string) (d : dict) (k : string) (v : value) :
  In x (keys (setitem d k v)) <-> In x (keys d) \/ x = k.
Proof.
  unfold keys; induction d as [| [k' v'] d IH]; cbn [setitem map fst In].
  - split; [intros [<- | []]; right; reflexivity | intros [[] | ->]; left; reflexivity].
  - destruct (String.eqb_spec k' k) as [-> | Hne]; cbn [map fst In].
    + split; [intros H; left; exact H | intros [H | ->]; [exact H | left; reflexivity]].
    + rewrite IH; tauto.
Qed.

Lemma keep_item_keys (keep keep' : dict) (k : string) (v : value) :
  MispCsv.keep_item keep (k, v) = Ok keep' ->
  forall x, In x (keys keep') <-> In x (keys keep) \/ output_key k = Some x.
Proof.
  unfold MispCsv.keep_item, output_key.
  destruct (negb (existsb (String.eqb k) MispCsv.OUTPUT_FIELDS)).
  - intros [= <-] x; split; [left; assumption | intros [H | H]; [exact H | discriminate H]].
  - destruct (String.eqb k "Tag").
    + intros H; apply bind_ok in H as (names & _ & H).
      apply bind_ok in H as (joined & _ & H); injection H as <-.
      intros x; rewrite keys_setitem.
      split; (intros [H | H]; [left; exact H | right]); congruence.
    + destruct (String.eqb k "Event").
      * intros H; apply bind_ok in H as (info & _ & H); injection H as <-.
        intros x; rewrite keys_setitem.
        split; (intros [H | H]; [left; exact H | right]); congruence.
      * intros [= <-] x; rewrite keys_setitem.
        split; (intros [H | H]; [left; exact H | right]); congruence.
Qed.

Lemma keep_items_keys (items : list (string * value)) (keep keep' : dict) :
  MispCsv.keep_items keep items = Ok keep' ->
  forall x, In x (keys keep')
            <-> In x (keys keep) \/ exists k, In k (keys items) /\ output_key k = Some x.
Proof.
  revert keep; induction items as [| [k v] items IH]; intros keep; cbn [MispCsv.keep_items].
  - intros [= <-] x; split; [left; assumption | intros [H | (k & [] & _)]; exact H].
  - intros H; apply bind_ok in H as (keep1 & H1 & H).
    intros x; rewrite (IH _ H x), (keep_item_keys _ _ _ _ H1 x).
    unfold keys; cbn [map fst In]; split.
    + intros [[Hx | Hx] | (k' & Hk' & Hx)].
      * left; exact Hx.
      * right; exists k; split; [left; reflexivity | exact Hx].
      * right; exists k'; split; [right; exact Hk' | exact Hx].
    + intros [Hx | (k' & [<- | Hk'] & Hx)].
      * left; left; exact Hx.
      * left; right; exact Hx.
      * right; exists k'; split; assumption.
Qed.

Lemma keep_item_plain (keep keep' : dict) (k0 : string) (v0 : value) (k : string) :
  In k ["value"; "type"; "timestamp"] ->
  MispCsv.keep_item keep (k0, v0) = Ok keep' ->
  lookup k keep' = if String.eqb k0 k then Some v0 else lookup k keep.
Proof.
  intros Hk; unfold MispCsv.keep_item.
  destruct (String.eqb_spec k0 k) as [-> | Hne].
  - destruct Hk as [<- | [<- | [<- | []]]]; cbn; intros [= <-];
      apply lookup_setitem_same.
  - destruct (negb (existsb (String.eqb k0) MispCsv.OUTPUT_FIELDS)); [intros [= <-]; reflexivity |].
    destruct (String.eqb k0 "Tag").
    + intros H; apply bind_ok in H as (names & _ & H).
      apply bind_ok in H as (joined & _ & H); injection H as <-.
      apply lookup_setitem_other.
      destruct Hk as [<- | [<- | [<- | []]]]; discriminate.
    + destruct (String.eqb k0 "Event").
      * intros H; apply bind_ok in H as (info & _ & H); injection H as <-.
        apply lookup_setitem_other.
        destruct Hk as [<- | [<- | [<- | []]]]; discriminate.
      * intros [= <-]; apply lookup_setitem_other; exact Hne.
Qed.

Lemma keep_items_plain (items : list (string * value)) (keep keep' : dict) (k : string) :
  In k ["value"; "type"; "timestamp"] ->
  NoDup (keys items) ->
  MispCsv.keep_items keep items = Ok keep' ->
  lookup k keep' = match lookup k items with
                   | Some v => Some v
                   | None => lookup k keep
                   end.
Proof.
  intros Hk; revert keep; induction items as [| [k0 v0] items IH]; intros keep Hnd;
    cbn [MispCsv.keep_items].
  - intros [= <-]; reflexivity.
  - intros H; apply bind_ok in H as (keep1 & H1 & H).
    unfold keys in Hnd; cbn [map fst] in Hnd; inversion Hnd as [| ? ? Hnotin Hnd']; subst.
    rewrite (IH _ Hnd' H), (keep_item_plain _ _ _ _ _ Hk H1); cbn [lookup].
    destruct (String.eqb_spec k0 k) as [-> | Hne]; [| reflexivity].
    rewrite (lookup_not_in k items Hnotin); reflexivity.
Qed.

(** X13.  [filter_results] (the same text in the three MISP scripts)
    returns one record for each attribute, and a record holds nothing but
    the output fields: its keys are exactly those of [value], [type],
    [timestamp], [tags] and [event] whose source ([Tag] for [tags],
    [Event] for [event]) the attribute has, so every other entry of the
    attribute is dropped, and an attribute without [Tag] yields a record
    without [tags]; [value], [type] and [timestamp] are handed over
    unchanged. *)
Theorem filter_results_keeps_the_output_fields_only
  (iocs : list dict) (out : list dict) :
  MispCsv.filter_results iocs = Ok out ->
  Forall2 (fun ioc keep =>
             (forall x, In x (keys keep)
                        <-> exists k, In k (keys ioc) /\ output_key k = Some x) /\
             (forall x, In x (keys keep) ->
                        In x ["value"; "type"; "timestamp"; "tags"; "event"]) /\
             (NoDup (keys ioc) ->
              forall k, In k ["value"; "type"; "timestamp"] ->
                        lookup k keep = lookup k ioc))
    iocs out.
Proof.
  intros H; apply mapM_Forall2 in H.
  eapply Forall2_impl; [| exact H]; cbv beta.
  intros ioc keep Hkeep.
  assert (Hkeys : forall x, In x (keys keep)
                            <-> exists k, In k (keys ioc) /\ output_key k = Some x).
  { intros x; rewrite (keep_items_keys _ _ _ Hkeep x); cbn [keys map In]; tauto. }
  split; [exact Hkeys | split].
  - intros x Hx; apply Hkeys in Hx as (k & _ & Hout).
    unfold output_key in Hout.
    destruct (existsb (String.eqb k) MispCsv.OUTPUT_FIELDS) eqn:Hfield;
      cbn [negb] in Hout; [| discriminate Hout].
    destruct (String.eqb_spec k "Tag") as [_ | Htag]; [injection Hout as <-; cbn; tauto |].
    destruct (String.eqb_spec k "Event") as [_ | Hevent];
      [injection Hout as <-; cbn; tauto |].
    injection Hout as <-.
    apply existsb_exists in Hfield as (f & Hf & Heq).
    apply String.eqb_eq in Heq; subst f.
    cbn in Hf; cbn.
    destruct Hf as [Hf | [Hf | [Hf | [Hf | [Hf | []]]]]]; try tauto;
      symmetry in Hf; contradiction.
  - intros Hnd k Hk; rewrite (keep_items_plain _ _ _ _ Hk Hnd Hkeep); cbn [lookup].
    destruct (lookup k ioc); reflexivity.
Qed.

Lemma filter_results_keeps_the_output_fields_only_witness :
  Forall2 (fun ioc keep =>
             (forall x, In x (keys keep)
                        <-> exists k, In k (keys ioc) /\ output_key k = Some x) /\
             (forall x, In x (keys keep) ->
                        In x ["value"; "type"; "timestamp"; "tags"; "event"]) /\
             (NoDup (keys ioc) ->
              forall k, In k ["value"; "type"; "timestamp"] ->
                        lookup k keep = lookup k ioc))
    [[("id", VStr "7401"); ("value", VStr "evil.example"); ("type", VStr "domain");
      ("timestamp", VStr "1700000000"); ("to_ids", VBool true);
      ("Tag", VList [VDict [("name", VStr "rhisac: vetted")];
                     VDict [("name", VStr "tlp:amber")]]);
      ("Event", VDict [("info", VStr "OSINT report")])]]
    [[("value", VStr "evil.example"); ("type", VStr "domain");
      ("timestamp", VStr "1700000000"); ("tags", VStr "tlp:amber");
      ("event", VStr "OSINT report")]].
Proof.
  apply (filter_results_keeps_the_output_fields_only
           [[("id", VStr "7401"); ("value", VStr "evil.example"); ("type", VStr "domain");
             ("timestamp", VStr "1700000000"); ("to_ids", VBool true);
             ("Tag", VList [VDict [("name", VStr "rhisac: vetted")];
                            VDict [("name", VStr "tlp:amber")]]);
             ("Event", VDict [("info", VStr "OSINT report")])]]).
  vm_compute; reflexivity.
Defined.

(** ** Requests of [upload_iocs] *)

Lemma add_ioc_requests (expiration_timestamp : string)
  (st : MispCrowdstrike.blocks_state) (ioc : dict) :
  requests_of (fst (MispCrowdstrike.add_ioc expiration_timestamp st ioc)) = [].
Proof.
  unfold MispCrowdstrike.add_ioc.
  destruct (getitem ioc "type") as [ty | e]; cbn [lift iobind fst]; [| reflexivity].
  destruct (MispCrowdstrike.mapped_type ty) as [[cs_type |] | e];
    cbn [lift iobind fst]; [| | reflexivity].
  - destruct (MispCrowdstrike.ioc_dict _ _ _) as [d | e]; cbn [lift iobind fst];
      [| reflexivity].
    destruct (Nat.leb _ _); reflexivity.
  - destruct (getitem ioc "value") as [v | e]; reflexivity.
Qed.

Lemma add_iocs_requests (expiration_timestamp : string) (iocs : list dict)
  (st : MispCrowdstrike.blocks_state) :
  requests_of (fst (MispCrowdstrike.add_iocs expiration_timestamp st iocs)) = [].
Proof.
  revert st; induction iocs as [| ioc rest IH]; intros st; [reflexivity |].
  cbn [MispCrowdstrike.add_iocs].
  pose proof (add_ioc_requests expiration_timestamp st ioc) as H1.
  destruct (MispCrowdstrike.add_ioc expiration_timestamp st ioc) as [out1 [st1 | e]];
    cbn [fst iobind] in *; [| exact H1].
  specialize (IH st1).
  destruct (MispCrowdstrike.add_iocs expiration_timestamp st1 rest) as [out2 r2];
    cbn [fst] in *.
  rewrite requests_of_app, H1, IH; reflexivity.
Qed.

Lemma add_ioc_ok (expiration_timestamp : string) (st st' : MispCrowdstrike.blocks_state)
  (ioc : dict) (out : list MispCrowdstrike.event) :
  MispCrowdstrike.add_ioc expiration_timestamp st ioc = (out, Ok st') ->
  exists c, classify expiration_timestamp ioc = Ok c.
Proof.
  unfold MispCrowdstrike.add_ioc, classify.
  destruct (getitem ioc "type") as [ty | e]; cbn [lift iobind bind]; [| discriminate].
  destruct (MispCrowdstrike.mapped_type ty) as [[cs_type |] | e];
    cbn [lift iobind bind]; [| | discriminate].
  - destruct (MispCrowdstrike.ioc_dict _ _ _) as [d | e]; cbn [lift iobind bind];
      [intros _; eexists; reflexivity |].
    discriminate.
  - destruct (getitem ioc "value") as [v | e]; cbn [lift iobind bind];
      [intros _; eexists; reflexivity | discriminate].
Qed.

Lemma add_iocs_ok (expiration_timestamp : string) (iocs : list dict)
  (st st' : MispCrowdstrike.blocks_state) (out : list MispCrowdstrike.event) :
  MispCrowdstrike.add_iocs expiration_timestamp st iocs = (out, Ok st') ->
  exists cs, mapM (classify expiration_timestamp) iocs = Ok cs.
Proof.
  revert st st' out; induction iocs as [| ioc rest IH]; intros st st' out;
    [intros _; exists []; reflexivity |].
  cbn [MispCrowdstrike.add_iocs mapM].
  destruct (MispCrowdstrike.add_ioc expiration_timestamp st ioc) as [out1 [st1 | e]] eqn:H1;
    cbn [iobind]; [| discriminate].
  destruct (add_ioc_ok _ _ _ _ _ H1) as [c ->].
  destruct (MispCrowdstrike.add_iocs expiration_timestamp st1 rest) as [out2 [st2 | e]] eqn:H2;
    [| discriminate].
  destruct (IH _ _ _ H2) as [cs ->]; intros _; eexists; reflexivity.
Qed.

(** Whenever the first loop of [upload_iocs] returns, its blocks are
    the encoded IOCs cut in consecutive blocks of at most 200. *)
Lemma make_blocks_ok (expiration_timestamp : string) (iocs : list dict)
  (out : list MispCrowdstrike.event) (n : nat) (blocks : list (list value)) :
  MispCrowdstrike.make_blocks expiration_timestamp iocs = (out, Ok (n, blocks)) ->
  exists cs,
    mapM (classify expiration_timestamp) iocs = Ok cs /\
    n = List.length (encoded_of cs) /\
    concat blocks = encoded_of cs /\
    well_chunked MispCrowdstrike.BLOCK_SIZE blocks.
Proof.
  unfold MispCrowdstrike.make_blocks.
  set (st0 := {| MispCrowdstrike.ioc_count := 0; MispCrowdstrike.ioc_blocks := [];
                 MispCrowdstrike.ioc_block := [] |}).
  destruct (MispCrowdstrike.add_iocs expiration_timestamp st0 iocs) as [out1 [st | e]] eqn:Hadd;
    cbn [iobind ret]; [| discriminate].
  destruct (add_iocs_ok _ _ _ _ _ Hadd) as [cs Hcs].
  rewrite (add_iocs_classified expiration_timestamp iocs cs st0 Hcs) in Hadd.
  injection Hadd as _ Hst.
  assert (Hinv0 : blocks_invariant st0).
  { split; [unfold MispCrowdstrike.BLOCK_SIZE; cbn; lia | constructor]. }
  destruct (fold_push_spec (encoded_of cs) st0 Hinv0) as ([Hlen Hfull] & Hc & Hn).
  rewrite Hst in Hlen, Hfull, Hc, Hn.
  unfold contents in Hc; cbn [st0 MispCrowdstrike.ioc_blocks MispCrowdstrike.ioc_block
                               concat app] in Hc.
  cbn [st0 MispCrowdstrike.ioc_count Nat.add] in Hn.
  intros [= _ <- <-]; exists cs; split; [exact Hcs | split; [exact Hn |]].
  destruct (MispCrowdstrike.ioc_block st) as [| d block] eqn:Hb.
  - rewrite app_nil_r in Hc; split; [exact Hc | split].
    + eapply Forall_impl; [| exact Hfull]; cbn; intros b Hlb; split.
      * intros ->; discriminate Hlb.
      * rewrite Hlb; apply Nat.le_refl.
    + intros pre last Heq; rewrite Heq in Hfull.
      apply Forall_app in Hfull as [Hpre _]; exact Hpre.
  - split; [rewrite concat_app; cbn [concat]; rewrite app_nil_r; exact Hc |].
    split.
    + apply Forall_app; split.
      * eapply Forall_impl; [| exact Hfull]; cbn; intros b Hlb; split.
        -- intros ->; discriminate Hlb.
        -- rewrite Hlb; apply Nat.le_refl.
      * constructor; [| constructor]; split; [discriminate | lia].
    + intros pre last Heq; apply app_inj_tail in Heq as [<- _]; exact Hfull.
Qed.

Lemma remove_loop_length (fuel i : nat) (v : value) (block : list value) :
  (List.length (MispCrowdstrike.remove_loop fuel i v block) <= List.length block)%nat.
Proof.
  revert i block; induction fuel as [| fuel IH]; intros i block;
    cbn [MispCrowdstrike.remove_loop]; [apply Nat.le_refl |].
  destruct (nth_error block i) as [ioc |]; [| apply Nat.le_refl].
  destruct (value_eqb _ _); [| apply IH].
  pose proof (IH (S i) (MispCrowdstrike.list_remove i ioc block)).
  pose proof (list_remove_length i ioc block); lia.
Qed.

Lemma process_errors_length (errors : list dict) (block block' : list value) :
  snd (MispCrowdstrike.process_errors errors block) = Ok block' ->
  (List.length block' <= List.length block)%nat.
Proof.
  revert block; induction errors as [| error rest IH]; intros block;
    cbn [MispCrowdstrike.process_errors].
  - cbn; intros [= <-]; apply Nat.le_refl.
  - destruct (contains "Warning: Duplicate type" (get error "message")) as [[|] | e];
      cbn [lift iobind emit]; [| | discriminate].
    + specialize (IH (MispCrowdstrike.remove_duplicate (get error "value") block)).
      destruct (MispCrowdstrike.process_errors rest _) as [out r]; cbn [snd] in *.
      destruct r; cbn [snd]; [| discriminate].
      intros H; specialize (IH H).
      pose proof (remove_loop_length (List.length block) 0 (get error "value") block).
      unfold MispCrowdstrike.remove_duplicate in IH; lia.
    + specialize (IH block).
      destruct (MispCrowdstrike.process_errors rest block) as [out r]; cbn [snd] in *.
      destruct r; cbn [snd]; [exact IH | discriminate].
Qed.

Lemma submit_block_requests (api : MispCrowdstrike.falcon) (total i calls : nat)
  (block : list value) :
  Forall (fun indicators => (List.length indicators <= List.length block)%nat)
    (requests_of (fst (MispCrowdstrike.submit_block api total i calls block))).
Proof.
  unfold MispCrowdstrike.submit_block; cbn [emit iobind app fst].
  destruct (MispCrowdstrike.status_code (api calls block) =? 400).
  - pose proof (process_errors_requests
                  (MispCrowdstrike.resources (api calls block)) block) as Hreq.
    pose proof (process_errors_length
                  (MispCrowdstrike.resources (api calls block)) block) as Hlen.
    destruct (MispCrowdstrike.process_errors _ block) as [out1 [block' | e]];
      cbn [fst snd iobind emit app] in *.
    + specialize (Hlen block' eq_refl).
      destruct (MispCrowdstrike.is_success _); cbn [emit iobind ret app fst requests_of];
        rewrite requests_of_app, Hreq; cbn [app requests_of];
        repeat constructor; assumption.
    + cbn [requests_of]; rewrite Hreq; repeat constructor.
  - destruct (MispCrowdstrike.status_code (api calls block) =? 429);
      [cbn; repeat constructor |].
    destruct (MispCrowdstrike.is_success _); cbn; repeat constructor.
Qed.

Lemma submit_blocks_requests (api : MispCrowdstrike.falcon) (total : nat)
  (blocks : list (list value)) (i calls : nat) (n : nat) :
  Forall (fun b => (List.length b <= n)%nat) blocks ->
  Forall (fun indicators => (List.length indicators <= n)%nat)
    (requests_of (fst (MispCrowdstrike.submit_blocks api total i calls blocks))).
Proof.
  intros Hall; revert i calls; induction Hall as [| block rest Hb _ IH]; intros i calls;
    [constructor |].
  cbn [MispCrowdstrike.submit_blocks].
  pose proof (submit_block_requests api total i calls block) as H1.
  destruct (MispCrowdstrike.submit_block api total i calls block) as [out1 [calls' | e]];
    cbn [fst iobind] in *.
  - specialize (IH (S i) calls').
    destruct (MispCrowdstrike.submit_blocks api total (S i) calls' rest) as [out2 r2];
      cbn [fst] in *.
    rewrite requests_of_app; apply Forall_app; split; [| exact IH].
    eapply Forall_impl; [| exact H1]; cbv beta; intros; lia.
  - eapply Forall_impl; [| exact H1]; cbv beta; intros; lia.
Qed.

(** X14.  "API accepts up to 200 IOCs per request": whatever the IOCs
    and whatever the service answers, no [indicator_create] request of
    [upload_iocs] carries more than 200 indicators, the resubmission
    after a 400 answer included; and no request is made when an IOC of
    the input cannot be read. *)
Theorem no_request_carries_more_than_200_indicators
  (expiration_timestamp : string) (api : MispCrowdstrike.falcon) (iocs : list dict) :
  Forall (fun indicators => (List.length indicators <= 200)%nat)
    (requests_of (fst (MispCrowdstrike.upload_iocs expiration_timestamp api iocs))) /\
  (forall e, snd (MispCrowdstrike.make_blocks expiration_timestamp iocs) = Raise e ->
             requests_of (fst (MispCrowdstrike.upload_iocs expiration_timestamp api iocs))
             = []).
Proof.
  unfold MispCrowdstrike.upload_iocs.
  assert (Hmk : requests_of (fst (MispCrowdstrike.make_blocks expiration_timestamp iocs)) = []).
  { unfold MispCrowdstrike.make_blocks.
    pose proof (add_iocs_requests expiration_timestamp iocs
                  {| MispCrowdstrike.ioc_count := 0; MispCrowdstrike.ioc_blocks := [];
                     MispCrowdstrike.ioc_block := [] |}) as H.
    destruct (MispCrowdstrike.add_iocs _ _ _) as [out1 [st | e]]; cbn [fst iobind ret] in *;
      [rewrite app_nil_r |]; exact H. }
  destruct (MispCrowdstrike.make_blocks expiration_timestamp iocs)
    as [out1 [[n blocks] | e]] eqn:Hmake; cbn [fst snd iobind] in *.
  - split; [| discriminate].
    destruct (make_blocks_ok _ _ _ _ _ Hmake) as (cs & _ & _ & _ & [Hchunk _]).
    cbn [emit iobind app].
    pose proof (submit_blocks_requests api (List.length blocks) blocks 0 0 200) as Hsub.
    destruct (MispCrowdstrike.submit_blocks _ _ _ _ _) as [out2 r2]; cbn [fst] in *.
    rewrite requests_of_app, Hmk; cbn [app requests_of]; apply Hsub.
    eapply Forall_impl; [| exact Hchunk]; cbv beta; intros b [_ Hb]; exact Hb.
  - split; [rewrite Hmk; constructor | intros _ _; exact Hmk].
Qed.

Lemma no_request_carries_more_than_200_indicators_witness :
  Forall (fun indicators => (List.length indicators <= 200)%nat)
    (requests_of
       (fst (MispCrowdstrike.upload_iocs sample_expiration refuse_once
               (repeat (filtered_ioc "domain" "evil.example" "tlp:amber") 201)))).
Proof.
  apply (proj1 (no_request_carries_more_than_200_indicators sample_expiration refuse_once
                  (repeat (filtered_ioc "domain" "evil.example" "tlp:amber") 201))).
Defined.

Lemma full_blocks_length {A : Type} (n : nat) (blocks : list (list A)) :
  Forall (fun b => List.length b = n) blocks ->
  List.length (concat blocks) = (n * List.length blocks)%nat.
Proof.
  induction 1 as [| b blocks Hb _ IH]; cbn [concat List.length]; [lia |].
  rewrite length_app, IH, Hb; lia.
Qed.

(** Blocks cut as [upload_iocs] cuts them are as few as can be. *)
Lemma well_chunked_count {A : Type} (n : nat) (blocks : list (list A)) :
  (0 < n)%nat -> well_chunked n blocks ->
  List.length blocks = ceil_div (List.length (concat blocks)) n.
Proof.
  intros Hn [Hall Hfull]; unfold ceil_div.
  destruct blocks as [| b0 blocks0] eqn:Hblocks.
  - cbn [concat List.length]; symmetry; apply Nat.div_small; lia.
  - rewrite <- Hblocks in *.
    assert (Hne0 : blocks <> []) by (rewrite Hblocks; discriminate).
    destruct (exists_last Hne0) as (pre & last & ->); clear Hblocks Hne0.
    specialize (Hfull pre last eq_refl).
    apply Forall_app in Hall as [_ Hlast].
    inversion Hlast as [| ? ? [Hne Hle] _]; subst.
    rewrite concat_app, !length_app, (full_blocks_length n pre Hfull).
    cbn [concat List.length]; rewrite app_nil_r.
    assert (Hpos : (0 < List.length last)%nat)
      by (destruct last; [contradiction Hne; reflexivity | cbn; lia]).
    apply (Nat.div_unique _ n _ (List.length last - 1)); [lia |].
    rewrite Nat.mul_add_distr_l; lia.
Qed.

Lemma submit_block_request_count (api : MispCrowdstrike.falcon) (total i calls : nat)
  (block : list value) (out : list MispCrowdstrike.event) (n : nat) :
  MispCrowdstrike.submit_block api total i calls block = (out, Ok n) ->
  (1 <= List.length (requests_of out) <= 2)%nat.
Proof.
  unfold MispCrowdstrike.submit_block; cbn [emit iobind app].
  destruct (MispCrowdstrike.status_code (api calls block) =? 400).
  - pose proof (process_errors_requests
                  (MispCrowdstrike.resources (api calls block)) block) as Hreq.
    destruct (MispCrowdstrike.process_errors _ block) as [out1 [block' | e]];
      cbn [fst snd iobind emit app] in *; [| discriminate].
    destruct (MispCrowdstrike.is_success _); cbn [emit iobind ret app];
      intros [= <- <-]; cbn [requests_of]; rewrite requests_of_app, Hreq; cbn; lia.
  - destruct (MispCrowdstrike.status_code (api calls block) =? 429);
      [cbn; intros [= <- <-]; cbn; lia |].
    destruct (MispCrowdstrike.is_success _); cbn; intros [= <- <-]; cbn; lia.
Qed.

Lemma submit_blocks_request_count (api : MispCrowdstrike.falcon) (total : nat)
  (blocks : list (list value)) (i calls : nat) (out : list MispCrowdstrike.event) :
  MispCrowdstrike.submit_blocks api total i calls blocks = (out, Ok tt) ->
  (List.length blocks <= List.length (requests_of out) <= 2 * List.length blocks)%nat.
Proof.
  revert i calls out; induction blocks as [| block rest IH]; intros i calls out;
    cbn [MispCrowdstrike.submit_blocks].
  - intros [= <-]; cbn; lia.
  - destruct (MispCrowdstrike.submit_block api total i calls block)
      as [out1 [calls' | e]] eqn:H1; cbn [iobind]; [| discriminate].
    destruct (MispCrowdstrike.submit_blocks api total (S i) calls' rest)
      as [out2 [[] | e]] eqn:H2; [| discriminate].
    intros [= <-]; rewrite requests_of_app, length_app.
    pose proof (submit_block_request_count _ _ _ _ _ _ _ H1).
    specialize (IH _ _ _ H2); cbn [List.length]; lia.
Qed.

(** X15.  A run of [upload_iocs] that ends normally has made as many
    [indicator_create] requests as there are blocks, plus one for each
    block answered with 400: with [n] IOCs of a mapped type, at least
    ceil(n/200) and at most twice as many; none when no IOC has a mapped
    type. *)
Theorem uploads_take_one_or_two_requests_per_block
  (expiration_timestamp : string) (api : MispCrowdstrike.falcon) (iocs : list dict)
  (out : list MispCrowdstrike.event) :
  MispCrowdstrike.upload_iocs expiration_timestamp api iocs = (out, Ok tt) ->
  exists cs,
    mapM (classify expiration_timestamp) iocs = Ok cs /\
    (ceil_div (List.length (encoded_of cs)) 200 <= List.length (requests_of out)
     <= 2 * ceil_div (List.length (encoded_of cs)) 200)%nat.
Proof.
  unfold MispCrowdstrike.upload_iocs.
  assert (Hmk : requests_of (fst (MispCrowdstrike.make_blocks expiration_timestamp iocs)) = []).
  { unfold MispCrowdstrike.make_blocks.
    pose proof (add_iocs_requests expiration_timestamp iocs
                  {| MispCrowdstrike.ioc_count := 0; MispCrowdstrike.ioc_blocks := [];
                     MispCrowdstrike.ioc_block := [] |}) as H.
    destruct (MispCrowdstrike.add_iocs _ _ _) as [out1 [st | e]]; cbn [fst iobind ret] in *;
      [rewrite app_nil_r |]; exact H. }
  destruct (MispCrowdstrike.make_blocks expiration_timestamp iocs)
    as [out1 [[n blocks] | e]] eqn:Hmake; cbn [fst snd iobind] in *; [| discriminate].
  destruct (make_blocks_ok _ _ _ _ _ Hmake) as (cs & Hcs & _ & Hconcat & Hchunk).
  cbn [emit iobind app].
  destruct (MispCrowdstrike.submit_blocks _ _ _ _ _) as [out2 [[] | e]] eqn:Hsub;
    [| discriminate].
  intros [= <-]; exists cs; split; [exact Hcs |].
  rewrite requests_of_app, Hmk; cbn [app requests_of].
  pose proof (submit_blocks_request_count _ _ _ _ _ _ Hsub) as Hcount.
  assert (Hlen : List.length blocks = ceil_div (List.length (concat blocks)) 200).
  { apply (well_chunked_count MispCrowdstrike.BLOCK_SIZE blocks); [| exact Hchunk].
    unfold MispCrowdstrike.BLOCK_SIZE; lia. }
  rewrite <- Hconcat, <- Hlen; exact Hcount.
Qed.

Lemma uploads_take_one_or_two_requests_per_block_witness :
  exists out cs,
    MispCrowdstrike.upload_iocs sample_expiration refuse_once sample_filtered
    = (out, Ok tt) /\
    mapM (classify sample_expiration) sample_filtered = Ok cs /\
    (ceil_div (List.length (encoded_of cs)) 200 <= List.length (requests_of out)
     <= 2 * ceil_div (List.length (encoded_of cs)) 200)%nat.
Proof.
  eexists.
  destruct (uploads_take_one_or_two_requests_per_block sample_expiration refuse_once
              sample_filtered _ eq_refl) as (cs & Hcs & Hcount).
  exists cs; split; [reflexivity | split; assumption].
Defined.

Lemma process_errors_messages (errors : list dict) (block : list value) :
  Forall (fun e => match e with
                   | MispCrowdstrike.PrintRemoving _
                   | MispCrowdstrike.PrintUnknownError _ _ => True
                   | _ => False
                   end)
    (fst (MispCrowdstrike.process_errors errors block)).
Proof.
  revert block; induction errors as [| error rest IH]; intros block;
    cbn [MispCrowdstrike.process_errors]; [constructor |].
  destruct (contains "Warning: Duplicate type" (get error "message")) as [[|] | e];
    cbn [lift iobind emit]; [| | constructor].
  - specialize (IH (MispCrowdstrike.remove_duplicate (get error "value") block)).
    destruct (MispCrowdstrike.process_errors rest _) as [out r]; cbn [fst] in *.
    destruct r; cbn [fst app]; constructor; [exact I | exact IH | exact I | exact IH].
  - specialize (IH block).
    destruct (MispCrowdstrike.process_errors rest block) as [out r]; cbn [fst] in *.
    destruct r; cbn [fst app]; constructor; [exact I | exact IH | exact I | exact IH].
Qed.

(** X16.  After a 400 answer the block is submitted again, but the
    outcome that is tested is still the first answer's: the run never
    prints "submitted successfully" for that block, and whatever the
    service answers to the resubmission, 201 Created included, that
    answer is printed under "Unknown error:". *)
Theorem accepted_resubmission_is_reported_as_an_error
  (api : MispCrowdstrike.falcon) (total i calls : nat) (block : list value) :
  MispCrowdstrike.status_code (api calls block) = 400 ->
  (forall j, ~ In (MispCrowdstrike.PrintSubmitted j)
                  (fst (MispCrowdstrike.submit_block api total i calls block))) /\
  (forall block',
      snd (MispCrowdstrike.process_errors
             (MispCrowdstrike.resources (api calls block)) block) = Ok block' ->
      exists before,
        MispCrowdstrike.submit_block api total i calls block
        = (before ++ [MispCrowdstrike.IndicatorCreate (List.length block') block';
                      MispCrowdstrike.PrintUnknownErrorResponse (api (S calls) block')],
           Ok (S (S calls)))).
Proof.
  intros H400; unfold MispCrowdstrike.submit_block; cbn [emit iobind app].
  rewrite H400; cbn [Z.eqb Pos.eqb MispCrowdstrike.is_success orb].
  pose proof (process_errors_messages
                (MispCrowdstrike.resources (api calls block)) block) as Hmsg.
  destruct (MispCrowdstrike.process_errors _ block) as [out1 [block' | e]];
    cbn [fst snd iobind emit ret app] in *; split.
  - intros j [H | [H | [H | [H | H]]]]; try discriminate H.
    apply in_app_or in H as [H | [H | [H | [H | []]]]]; try discriminate H.
    rewrite Forall_forall in Hmsg; apply (Hmsg _ H).
  - intros ? [= <-].
    exists (MispCrowdstrike.PrintSubmitting (S i) total
              :: MispCrowdstrike.IndicatorCreate (List.length block) block
              :: MispCrowdstrike.PrintBlank :: MispCrowdstrike.Print400
              :: out1 ++ [MispCrowdstrike.PrintUploading (List.length block')]).
    cbn [app]; rewrite <- app_assoc; reflexivity.
  - intros j [H | [H | [H | [H | H]]]]; try discriminate H.
    rewrite Forall_forall in Hmsg; apply (Hmsg _ H).
  - intros ? [=].
Qed.

Lemma accepted_resubmission_is_reported_as_an_error_witness :
  exists before,
    MispCrowdstrike.submit_block refuse_once 1 0 0
      [falcon_domain "evil.example" "tlp:amber"; falcon_domain "bad.example" "tlp:green"]
    = (before ++ [MispCrowdstrike.IndicatorCreate 1 [falcon_domain "bad.example" "tlp:green"];
                  MispCrowdstrike.PrintUnknownErrorResponse
                    {| MispCrowdstrike.status_code := 201;
                       MispCrowdstrike.resources := [] |}],
       Ok 2%nat).
Proof.
  apply (proj2 (accepted_resubmission_is_reported_as_an_error refuse_once 1 0 0
                  [falcon_domain "evil.example" "tlp:amber";
                   falcon_domain "bad.example" "tlp:green"] eq_refl)
           [falcon_domain "bad.example" "tlp:green"]).
  vm_compute; reflexivity.
Defined.

(** ** What [block.remove] takes out *)

(** Two dictionaries that are equal hold equal values under each key
    of the first. *)
Lemma dict_eqb_lookup (d1 d2 : dict) (k : string) (a : value) :
  value_eqb (VDict d1) (VDict d2) = true ->
  lookup k d1 = Some a ->
  exists b, lookup k d2 = Some b /\ value_eqb a b = true.
Proof.
  cbn [value_eqb]; intros H; apply andb_prop in H as [_ H].
  induction d1 as [| [k0 v0] r IH]; cbn [lookup]; [discriminate |].
  apply andb_prop in H as [H0 Hr].
  destruct (String.eqb_spec k0 k) as [<- | Hne].
  - intros [= <-].
    destruct (lookup k0 d2) as [b |]; [| discriminate H0].
    exists b; split; [reflexivity | exact H0].
  - apply IH, Hr.
Qed.

Lemma equal_indicators_share_their_value (x y : value) :
  string_valued x -> string_valued y -> value_eqb x y = true ->
  MispCrowdstrike.ioc_value x = MispCrowdstrike.ioc_value y.
Proof.
  intros (dx & sx & -> & Hx) (dy & sy & -> & Hy) Heq.
  destruct (dict_eqb_lookup dx dy "value" (VStr sx) Heq Hx) as (b & Hb & Hs).
  rewrite Hy in Hb; injection Hb as <-.
  cbn [value_eqb] in Hs; apply String.eqb_eq in Hs as ->.
  unfold MispCrowdstrike.ioc_value, get, get_default; rewrite Hx, Hy; reflexivity.
Qed.

(** [block.remove(ioc)] takes out one indicator with the value of
    [ioc]. *)
Lemma list_remove_spec (block : list value) (i : nat) (ioc : value) :
  Forall string_valued block ->
  nth_error block i = Some ioc ->
  exists l1 x l2,
    block = l1 ++ x :: l2 /\
    MispCrowdstrike.list_remove i ioc block = l1 ++ l2 /\
    MispCrowdstrike.ioc_value x = MispCrowdstrike.ioc_value ioc.
Proof.
  intros Hall; revert i; induction Hall as [| x r Hx Hr IH]; intros i;
    [destruct i; discriminate |].
  assert (Hioc : forall j, nth_error (x :: r) j = Some ioc -> string_valued ioc).
  { intros j Hj; apply nth_error_In in Hj.
    assert (Hall' : Forall string_valued (x :: r)) by (constructor; assumption).
    rewrite Forall_forall in Hall'; apply Hall', Hj. }
  destruct i as [| i]; cbn [nth_error MispCrowdstrike.list_remove].
  - intros [= <-]; exists [], x, r; repeat split.
  - intros Hnth.
    destruct (value_eqb x ioc) eqn:Heq.
    + exists [], x, r; repeat split.
      apply equal_indicators_share_their_value;
        [exact Hx | apply (Hioc (S i)); exact Hnth | exact Heq].
    + destruct (IH i Hnth) as (l1 & y & l2 & -> & -> & Hy).
      exists (x :: l1), y, l2; repeat split; exact Hy.
Qed.

Lemma filter_spared_remove (v : value) (l1 l2 : list value) (x : value) :
  names_it v x = true ->
  filter (spared v) (l1 ++ x :: l2) = filter (spared v) (l1 ++ l2).
Proof.
  intros Hx; rewrite !filter_app; cbn [filter]; unfold spared at 2; rewrite Hx.
  reflexivity.
Qed.

Lemma remove_loop_spares (fuel i : nat) (v : value) (block : list value) :
  Forall string_valued block ->
  filter (spared v) (MispCrowdstrike.remove_loop fuel i v block) = filter (spared v) block.
Proof.
  revert i block; induction fuel as [| fuel IH]; intros i block Hall;
    cbn [MispCrowdstrike.remove_loop]; [reflexivity |].
  destruct (nth_error block i) as [ioc |] eqn:Hnth; [| reflexivity].
  destruct (value_eqb (MispCrowdstrike.ioc_value ioc) v) eqn:Hv; [| apply IH, Hall].
  destruct (list_remove_spec block i ioc Hall Hnth) as (l1 & x & l2 & Hb & Hrm & Hx).
  rewrite Hrm, IH.
  - rewrite Hb; symmetry; apply filter_spared_remove.
    unfold names_it; rewrite Hx; exact Hv.
  - rewrite Hb in Hall; apply Forall_app in Hall as [H1 H2].
    inversion H2; subst; apply Forall_app; split; assumption.
Qed.

(** X17.  Removing the duplicates named by an error takes out nothing
    else: in a block of indicators with string values, every indicator
    whose value is not the one named stays in the block, in its place
    among the others.  (What the loop can do is leave a named one
    behind.) *)
Theorem remove_duplicate_spares_every_other_value
  (duplicate_ioc_value : value) (block : list value) :
  Forall string_valued block ->
  filter (spared duplicate_ioc_value)
    (MispCrowdstrike.remove_duplicate duplicate_ioc_value block)
  = filter (spared duplicate_ioc_value) block /\
  (List.length (MispCrowdstrike.remove_duplicate duplicate_ioc_value block)
   <= List.length block)%nat.
Proof.
  intros Hall; split.
  - apply remove_loop_spares, Hall.
  - apply remove_loop_length.
Qed.

Lemma remove_duplicate_spares_every_other_value_witness :
  filter (spared (VStr "evil.example"))
    (MispCrowdstrike.remove_duplicate (VStr "evil.example")
       [falcon_domain "evil.example" "tlp:amber"; falcon_domain "evil.example" "tlp:green";
        falcon_domain "bad.example" "tlp:green"])
  = filter (spared (VStr "evil.example"))
      [falcon_domain "evil.example" "tlp:amber"; falcon_domain "evil.example" "tlp:green";
       falcon_domain "bad.example" "tlp:green"] /\
  (List.length
     (MispCrowdstrike.remove_duplicate (VStr "evil.example")
        [falcon_domain "evil.example" "tlp:amber"; falcon_domain "evil.example" "tlp:green";
         falcon_domain "bad.example" "tlp:green"])
   <= List.length
        [falcon_domain "evil.example" "tlp:amber"; falcon_domain "evil.example" "tlp:green";
         falcon_domain "bad.example" "tlp:green"])%nat.
Proof.
  apply (remove_duplicate_spares_every_other_value (VStr "evil.example")
           [falcon_domain "evil.example" "tlp:amber";
            falcon_domain "evil.example" "tlp:green";
            falcon_domain "bad.example" "tlp:green"]).
  repeat constructor; eexists; eexists; split; reflexivity.
Defined.

Lemma list_remove_at (pre : list value) (x : value) (r : list value) :
  Forall (fun y => value_eqb y x = false) pre ->
  MispCrowdstrike.list_remove (List.length pre) x (pre ++ x :: r) = pre ++ r.
Proof.
  induction 1 as [| y pre Hy _ IH]; [reflexivity |].
  cbn [List.length app MispCrowdstrike.list_remove]; rewrite Hy, IH; reflexivity.
Qed.

Lemma nth_error_middle {A : Type} (pre : list A) (x : A) (r : list A) :
  nth_error (pre ++ x :: r) (List.length pre) = Some x.
Proof. induction pre as [| y pre IH]; [reflexivity | exact IH]. Qed.

Lemma remove_loop_past_the_end (fuel i : nat) (v : value) (block : list value) :
  (List.length block <= i)%nat -> MispCrowdstrike.remove_loop fuel i v block = block.
Proof.
  intros Hlen; destruct fuel; cbn [MispCrowdstrike.remove_loop]; [reflexivity |].
  assert (Hnone : nth_error block i = None) by (apply nth_error_None; exact Hlen).
  rewrite Hnone; reflexivity.
Qed.

Lemma remove_loop_exact (v : value) (fuel : nat) :
  forall pre suf : list value,
    Forall string_valued (pre ++ suf) ->
    Forall (fun y => spared v y = true) pre ->
    no_neighbours (names_it v) suf ->
    (List.length suf <= fuel)%nat ->
    MispCrowdstrike.remove_loop fuel (List.length pre) v (pre ++ suf)
    = pre ++ filter (spared v) suf.
Proof.
  induction fuel as [| fuel IH]; intros pre suf Hall Hpre Hnn Hlen.
  - destruct suf; [reflexivity | cbn in Hlen; lia].
  - destruct suf as [| x r].
    + cbn [filter]; rewrite app_nil_r; apply remove_loop_past_the_end, Nat.le_refl.
    + cbn [MispCrowdstrike.remove_loop]; rewrite nth_error_middle.
      cbn [filter].
      assert (Hsx : spared v x = negb (names_it v x)) by reflexivity.
      rewrite Hsx; clear Hsx.
      change (value_eqb (MispCrowdstrike.ioc_value x) v) with (names_it v x).
      destruct (names_it v x) eqn:Hx; cbn [negb].
      * assert (Hne : Forall (fun y => value_eqb y x = false) pre).
        { apply Forall_forall; intros y Hy.
          destruct (value_eqb y x) eqn:Heq; [| reflexivity].
          rewrite Forall_forall in Hall, Hpre.
          assert (Hval : MispCrowdstrike.ioc_value y = MispCrowdstrike.ioc_value x).
          { apply equal_indicators_share_their_value; [| | exact Heq]; apply Hall;
              apply in_or_app; [left; exact Hy | right; left; reflexivity]. }
          specialize (Hpre y Hy); unfold spared, names_it in Hpre, Hx.
          rewrite Hval, Hx in Hpre; discriminate Hpre. }
        rewrite (list_remove_at pre x r Hne).
        destruct r as [| y r'].
        -- cbn [filter]; rewrite app_nil_r; apply remove_loop_past_the_end; lia.
        -- cbn [no_neighbours] in Hnn; destruct Hnn as (Hxy & _ & Hnn).
           rewrite Hx in Hxy; cbn [andb] in Hxy.
           cbn [filter].
           assert (Hsy : spared v y = true) by (unfold spared; rewrite Hxy; reflexivity).
           rewrite Hsy.
           change (pre ++ y :: r') with (pre ++ [y] ++ r').
           change (pre ++ y :: filter (spared v) r')
             with (pre ++ [y] ++ filter (spared v) r').
           rewrite !app_assoc.
           replace (S (List.length pre)) with (List.length (pre ++ [y]))
             by (rewrite length_app; cbn; lia).
           apply IH.
           ++ rewrite <- app_assoc; cbn [app].
              apply Forall_app in Hall as [H1 H2]; inversion H2; subst.
              apply Forall_app; split; assumption.
           ++ apply Forall_app; split; [exact Hpre |].
              constructor; [exact Hsy | constructor].
           ++ exact Hnn.
           ++ cbn [List.length] in Hlen; lia.
      * change (pre ++ x :: r) with (pre ++ [x] ++ r).
        change (pre ++ x :: filter (spared v) r) with (pre ++ [x] ++ filter (spared v) r).
        rewrite !app_assoc.
        replace (S (List.length pre)) with (List.length (pre ++ [x]))
          by (rewrite length_app; cbn; lia).
        apply IH.
        -- rewrite <- app_assoc; exact Hall.
        -- apply Forall_app; split; [exact Hpre |].
           constructor; [unfold spared; rewrite Hx; reflexivity | constructor].
        -- destruct Hnn as (_ & Hnn); exact Hnn.
        -- cbn [List.length] in Hlen; lia.
Qed.

(** X18.  The removal is exact when the duplicates do not touch: in a
    block of indicators with string values where no two neighbours both
    have the value the error names, [for ioc in block: ...
    block.remove(ioc)] leaves exactly the indicators with another
    value. *)
Theorem remove_duplicate_is_exact_when_duplicates_are_apart
  (duplicate_ioc_value : value) (block : list value) :
  Forall string_valued block ->
  no_neighbours (names_it duplicate_ioc_value) block ->
  MispCrowdstrike.remove_duplicate duplicate_ioc_value block
  = filter (spared duplicate_ioc_value) block.
Proof.
  intros Hall Hnn; unfold MispCrowdstrike.remove_duplicate.
  apply (remove_loop_exact duplicate_ioc_value (List.length block) [] block);
    [exact Hall | constructor | exact Hnn | apply Nat.le_refl].
Qed.

Lemma remove_duplicate_is_exact_when_duplicates_are_apart_witness :
  MispCrowdstrike.remove_duplicate (VStr "evil.example")
    [falcon_domain "evil.example" "tlp:amber"; falcon_domain "bad.example" "tlp:green";
     falcon_domain "evil.example" "tlp:green"]
  = filter (spared (VStr "evil.example"))
      [falcon_domain "evil.example" "tlp:amber"; falcon_domain "bad.example" "tlp:green";
       falcon_domain "evil.example" "tlp:green"].
Proof.
  apply (remove_duplicate_is_exact_when_duplicates_are_apart (VStr "evil.example")
           [falcon_domain "evil.example" "tlp:amber";
            falcon_domain "bad.example" "tlp:green";
            falcon_domain "evil.example" "tlp:green"]).
  - repeat constructor; eexists; eexists; split; reflexivity.
  - cbn; repeat split; reflexivity.
Defined.

(** ** The Splunk mappers on addresses and URLs *)

(** One turn of the TruSTAR loop on an address. *)
Lemma trustar_field_values_cidr (rt : runtime) (ind base : dict) (v ty : string) :
  lookup "value" ind = Some (VStr v) ->
  lookup "indicatorType" ind = Some (VStr ty) ->
  ty = "IP" \/ ty = "CIDR_BLOCK" ->
  Trustar2Splunk.initial_fields rt ind = Ok base ->
  Trustar2Splunk.field_values rt ind = Ok (base ++ [("cidr", VStr (cidr_of rt v))]).
Proof.
  intros Hv Hty Hip Hbase.
  destruct (trustar_initial_fields_shape rt ind base _ _ Hv Hty Hbase)
    as (updated & joined & ->).
  unfold Trustar2Splunk.field_values.
  rewrite Hbase, (getitem_lookup _ _ _ Hty), (getitem_lookup _ _ _ Hv).
  assert (Hbranch : (eq_str (VStr ty) "CIDR_BLOCK" || eq_str (VStr ty) "IP")%bool = true)
    by (destruct Hip as [-> | ->]; reflexivity).
  cbn [bind]; rewrite Hbranch; cbn [bind].
  unfold Trustar2Splunk.add_cidr, Trustar2Splunk.cidr_suffix_ok,
    str_split_max1, split_max1, cidr_of.
  cbn [as_str bind str].
  destruct (split1 "/" v) as [[a suffix] |]; [| reflexivity].
  change (index [a; suffix] 1) with (Ok suffix); cbn [bind int].
  destruct (rt_int_of_str rt suffix) as [n | e]; cbn [bind]; [| reflexivity].
  destruct (n <=? 32); reflexivity.
Qed.

(** X19.  The [cidr] field the TruSTAR mapper adds to an IP or
    CIDR_BLOCK indicator, wherever the indicator stands in the batch:
    the value as it is when the text after its first slash reads as an
    integer no greater than 32 (a negative one passes), and the value
    followed by "/32" otherwise, so also for a prefix length above 32: an
    IPv6 block such as 2001:db8::/64 gets the [cidr] 2001:db8::/64/32.
    Nothing else of the record changes, and the branch never raises: the
    batch is mapped whenever the records before and after are. *)
Theorem cidr_field_of_an_address :
  (forall (rt : runtime) (inds outs : list dict),
      Trustar2Splunk.build_field_values rt inds = Ok outs ->
      Forall2 (fun ind fields =>
                 forall v ty,
                   lookup "value" ind = Some (VStr v) ->
                   lookup "indicatorType" ind = Some (VStr ty) ->
                   ty = "IP" \/ ty = "CIDR_BLOCK" ->
                   exists base,
                     Trustar2Splunk.initial_fields rt ind = Ok base /\
                     fields = base ++ [("cidr", VStr (cidr_of rt v))])
        inds outs)
  /\ (forall (rt : runtime) (before after outs_before outs_after : list dict)
            (ind base : dict) (v ty : string),
      lookup "value" ind = Some (VStr v) ->
      lookup "indicatorType" ind = Some (VStr ty) ->
      ty = "IP" \/ ty = "CIDR_BLOCK" ->
      Trustar2Splunk.initial_fields rt ind = Ok base ->
      Trustar2Splunk.build_field_values rt before = Ok outs_before ->
      Trustar2Splunk.build_field_values rt after = Ok outs_after ->
      Trustar2Splunk.build_field_values rt (before ++ ind :: after)
      = Ok (outs_before ++ (base ++ [("cidr", VStr (cidr_of rt v))]) :: outs_after)).
Proof.
  split.
  - intros rt inds outs Hrun.
    eapply Forall2_impl; [| apply (mapM_Forall2 _ _ _ Hrun)].
    intros ind fields Hturn v ty Hv Hty Hip.
    change (Trustar2Splunk.field_values rt ind = Ok fields) in Hturn.
    assert (Hbase : exists base, Trustar2Splunk.initial_fields rt ind = Ok base).
    { unfold Trustar2Splunk.field_values in Hturn.
      apply bind_ok in Hturn as (base & Hbase & _); exists base; exact Hbase. }
    destruct Hbase as [base Hbase]; exists base; split; [exact Hbase |].
    change (Trustar2Splunk.field_values rt ind = Ok fields) in Hturn.
    rewrite (trustar_field_values_cidr rt ind base v ty Hv Hty Hip Hbase) in Hturn.
    injection Hturn as <-; reflexivity.
  - intros rt before after outs_before outs_after ind base v ty Hv Hty Hip Hbase Hb Ha.
    unfold Trustar2Splunk.build_field_values in *.
    apply (mapM_app _ _ _ _ _ Hb); cbn [mapM].
    rewrite (trustar_field_values_cidr rt ind base v ty Hv Hty Hip Hbase), Ha.
    reflexivity.
Qed.

(** A URL, an IPv6 block and an IPv4 address in one batch. *)
Lemma cidr_field_of_an_address_witness :
  Forall2 (fun ind fields =>
             forall v ty,
               lookup "value" ind = Some (VStr v) ->
               lookup "indicatorType" ind = Some (VStr ty) ->
               ty = "IP" \/ ty = "CIDR_BLOCK" ->
               exists base,
                 Trustar2Splunk.initial_fields ref_runtime ind = Ok base /\
                 fields = base ++ [("cidr", VStr (cidr_of ref_runtime v))])
    [example_indicator "http://example.com/path"; ipv6_block;
     [("value", VStr "198.51.100.7"); ("indicatorType", VStr "IP");
      ("lastSeen", VInt 1700000000000); ("tags", VList [])]]
    [[("value", VStr "http://example.com/path"); ("ioc_type", VStr "url");
      ("updated", VInt 1700000000); ("source", VStr "RH-ISAC Vetted");
      ("tags", VStr "malware"); ("wildcard", VStr "*example.com/path")];
     [("value", VStr "2001:db8::/64"); ("ioc_type", VStr "cidr_block");
      ("updated", VInt 1700000000); ("source", VStr "RH-ISAC Vetted");
      ("tags", VStr EmptyString); ("cidr", VStr "2001:db8::/64/32")];
     [("value", VStr "198.51.100.7"); ("ioc_type", VStr "ip");
      ("updated", VInt 1700000000); ("source", VStr "RH-ISAC Vetted");
      ("tags", VStr EmptyString); ("cidr", VStr "198.51.100.7/32")]]
  /\ Trustar2Splunk.build_field_values ref_runtime
       ([example_indicator "http://example.com/path"] ++ ipv6_block
          :: [example_indicator "http://example.com"])
     = Ok ([[("value", VStr "http://example.com/path"); ("ioc_type", VStr "url");
             ("updated", VInt 1700000000); ("source", VStr "RH-ISAC Vetted");
             ("tags", VStr "malware"); ("wildcard", VStr "*example.com/path")]]
           ++ ([("value", VStr "2001:db8::/64"); ("ioc_type", VStr "cidr_block");
                ("updated", VInt 1700000000); ("source", VStr "RH-ISAC Vetted");
                ("tags", VStr EmptyString)]
               ++ [("cidr", VStr (cidr_of ref_runtime "2001:db8::/64"))])
           :: [[("value", VStr "example.com"); ("ioc_type", VStr "domain");
                ("updated", VInt 1700000000); ("source", VStr "RH-ISAC Vetted");
                ("tags", VStr "malware")]]).
Proof.
  split.
  - apply (proj1 cidr_field_of_an_address ref_runtime); vm_compute; reflexivity.
  - apply (proj2 cidr_field_of_an_address ref_runtime
             [example_indicator "http://example.com/path"]
             [example_indicator "http://example.com"] _ _ ipv6_block _
             "2001:db8::/64" "CIDR_BLOCK");
      try reflexivity; try (right; reflexivity); vm_compute; reflexivity.
Defined.

Lemma misp_reclassify_url_without_slash (rt : runtime) (fields : dict) (v : string) :
  substr "/" (scheme_stripped v) = false ->
  MispSplunk.reclassify_url rt fields (VStr v) = Ok fields.
Proof.
  intros Hslash; unfold MispSplunk.reclassify_url.
  rewrite misp_strip_scheme; cbn [bind contains]; rewrite Hslash; reflexivity.
Qed.





(** X21.  The two copies of the URL branch have drifted apart.  For a
    URL indicator whose value, once the scheme is stripped, holds no
    slash, the MISP mapper, which lacks the [else] of its sibling, leaves
    the record as it was first built: typed [url], with the scheme still
    in the value and no wildcard; the TruSTAR mapper stores a domain (the
    value without its scheme) when the value holds no at sign and no
    colon either.  This holds of every such record of every batch the
    mappers return on. *)
Theorem bare_domain_typed_url_is_mapped_differently :
  (forall (rt : runtime) (inds outs : list dict) (printed : list MispSplunk.event),
      MispSplunk.build_field_values rt inds = (printed, Ok outs) ->
      Forall2 (fun ind fields =>
                 forall v,
                   lookup "type" ind = Some (VStr "url") ->
                   lookup "value" ind = Some (VStr v) ->
                   substr "/" (scheme_stripped v) = false ->
                   MispSplunk.initial_fields rt ind = Ok fields /\
                   observed fields = Some (Url v None))
        (filter (fun ind => negb (unsupported ind)) inds) outs)
  /\ (forall (rt : runtime) (inds outs : list dict),
      Trustar2Splunk.build_field_values rt inds = Ok outs ->
      Forall2 (fun ind fields =>
                 forall v,
                   lookup "indicatorType" ind = Some (VStr "URL") ->
                   lookup "value" ind = Some (VStr v) ->
                   substr "/" (scheme_stripped v) = false ->
                   has_userinfo_or_port (scheme_stripped v) = false ->
                   observed fields = Some (Domain (scheme_stripped v)))
        inds outs).
Proof.
  split.
  - intros rt inds outs printed Hrun.
    eapply Forall2_impl; [| apply (misp_build_Forall2 rt inds printed outs Hrun)].
    intros ind fields Hturn v Hty Hv Hslash.
    apply (proj2 (misp_field_values_url rt ind fields v [] Hty Hv Hturn) Hslash).
  - intros rt inds outs Hrun.
    eapply Forall2_impl; [| apply (mapM_Forall2 _ _ _ Hrun)].
    intros ind fields Hturn v Hty Hv Hslash Hbare.
    rewrite (trustar_field_values_url rt ind fields v Hty Hv Hturn).
    unfold decision_tree; cbv zeta.
    unfold substr in Hslash.
    destruct (split1 "/" (scheme_stripped v)); [discriminate Hslash |].
    rewrite Hbare; reflexivity.
Qed.

(** The same two URLs in a batch of each mapper. *)
Lemma bare_domain_typed_url_is_mapped_differently_witness :
  Forall2 (fun ind fields =>
             forall v,
               lookup "type" ind = Some (VStr "url") ->
               lookup "value" ind = Some (VStr v) ->
               substr "/" (scheme_stripped v) = false ->
               MispSplunk.initial_fields ref_runtime ind = Ok fields /\
               observed fields = Some (Url v None))
    (filter (fun ind => negb (unsupported ind))
       [example_attribute "url" "http://example.com" (VStr EmptyString);
        example_attribute "url" "https://bad.example" (VStr EmptyString)])
    [[("value", VStr "http://example.com"); ("ioc_type", VStr "url");
      ("updated", VFloat (S754_finite false 7301444403200000 (-32)));
      ("source", VStr "RH-ISAC Vetted"); ("tags", VStr EmptyString)];
     [("value", VStr "https://bad.example"); ("ioc_type", VStr "url");
      ("updated", VFloat (S754_finite false 7301444403200000 (-32)));
      ("source", VStr "RH-ISAC Vetted"); ("tags", VStr EmptyString)]]
  /\ Forall2 (fun ind fields =>
               forall v,
                 lookup "indicatorType" ind = Some (VStr "URL") ->
                 lookup "value" ind = Some (VStr v) ->
                 substr "/" (scheme_stripped v) = false ->
                 has_userinfo_or_port (scheme_stripped v) = false ->
                 observed fields = Some (Domain (scheme_stripped v)))
      [example_indicator "http://example.com"; example_indicator "https://bad.example"]
      [[("value", VStr "example.com"); ("ioc_type", VStr "domain");
        ("updated", VInt 1700000000); ("source", VStr "RH-ISAC Vetted");
        ("tags", VStr "malware")];
       [("value", VStr "bad.example"); ("ioc_type", VStr "domain");
        ("updated", VInt 1700000000); ("source", VStr "RH-ISAC Vetted");
        ("tags", VStr "malware")]].
Proof.
  split.
  - apply (proj1 bare_domain_typed_url_is_mapped_differently ref_runtime
             [example_attribute "url" "http://example.com" (VStr EmptyString);
              example_attribute "url" "https://bad.example" (VStr EmptyString)] _ []).
    vm_compute; reflexivity.
  - apply (proj2 bare_domain_typed_url_is_mapped_differently ref_runtime).
    vm_compute; reflexivity.
Defined.

(** ** Tags on their way to Splunk *)

Lemma mapM_raise_head {A B : Type} (f : A -> result B) (x : A) (l : list A) (e : exn) :
  f x = Raise e -> mapM f (x :: l) = Raise e.
Proof. intros H; cbn [mapM]; rewrite H; reflexivity. Qed.

Lemma trustar_initial_fields_on_names (rt : runtime) (ind : dict) (v : value)
  (ty name : string) (ls n : Z) (f : spec_float) (names : list value) :
  lookup "value" ind = Some v ->
  lookup "indicatorType" ind = Some (VStr ty) ->
  lookup "lastSeen" ind = Some (VInt ls) ->
  rt_truediv rt ls 1000 = Ok f ->
  float_trunc f = Ok n ->
  lookup "tags" ind = Some (VList (VStr name :: names)) ->
  Trustar2Splunk.initial_fields rt ind = Raise TypeError.
Proof.
  intros Hv Hty Hls Hdiv Htrunc Htags; unfold Trustar2Splunk.initial_fields.
  rewrite (getitem_lookup _ _ _ Hv), (getitem_lookup _ _ _ Hty),
    (getitem_lookup _ _ _ Hls), (getitem_lookup _ _ _ Htags).
  cbn [bind str_lower as_str truediv]; rewrite Hdiv; cbn [bind int]; rewrite Htrunc.
  reflexivity.
Qed.

Lemma misp_initial_fields_on_joined_tags (rt : runtime) (ind : dict) (v t : value)
  (ty : string) (n : Z) (f : spec_float) (c : ascii) (s : string) :
  lookup "value" ind = Some v ->
  lookup "type" ind = Some (VStr ty) ->
  lookup "timestamp" ind = Some t ->
  int rt t = Ok n ->
  rt_truediv rt n 1000 = Ok f ->
  lookup "tags" ind = Some (VStr (String c s)) ->
  MispSplunk.initial_fields rt ind = Raise TypeError.
Proof.
  intros Hv Hty Ht Hint Hdiv Htags; unfold MispSplunk.initial_fields.
  rewrite (getitem_lookup _ _ _ Hv), (getitem_lookup _ _ _ Hty),
    (getitem_lookup _ _ _ Ht), (getitem_lookup _ _ _ Htags).
  cbn [bind str_lower as_str]; rewrite Hint; cbn [bind truediv]; rewrite Hdiv.
  reflexivity.
Qed.

(** X22.  Both Splunk mappers index every tag with a string key
    ([t['name']], [t['event']]), so they need tags that are objects.  On
    a record that is otherwise readable, the TruSTAR mapper raises
    [TypeError] as soon as the tags are a list that starts with a name,
    the shape the CSV writer of the sibling script accepts; the MISP
    mapper raises [TypeError] as soon as the tags are a non-empty string,
    which is what [filter_results] hands it for any attribute that has a
    tag besides the vetted marker.  The exception ends
    [build_field_values]: no record of the batch is returned. *)
Theorem mappers_raise_on_tags_given_as_names :
  (forall (rt : runtime) (ind : dict) (rest : list dict) (v : value) (ty name : string)
          (ls n : Z) (f : spec_float) (names : list value),
      lookup "value" ind = Some v ->
      lookup "indicatorType" ind = Some (VStr ty) ->
      lookup "lastSeen" ind = Some (VInt ls) ->
      rt_truediv rt ls 1000 = Ok f ->
      float_trunc f = Ok n ->
      lookup "tags" ind = Some (VList (VStr name :: names)) ->
      Trustar2Splunk.build_field_values rt (ind :: rest) = Raise TypeError)
  /\ (forall (rt : runtime) (ind : dict) (rest : list dict) (v t : value) (ty : string)
             (n : Z) (f : spec_float) (c : ascii) (s : string),
      lookup "value" ind = Some v ->
      lookup "type" ind = Some (VStr ty) ->
      lookup "timestamp" ind = Some t ->
      int rt t = Ok n ->
      rt_truediv rt n 1000 = Ok f ->
      lookup "tags" ind = Some (VStr (String c s)) ->
      MispSplunk.build_field_values rt (ind :: rest) = ([], Raise TypeError)).
Proof.
  split.
  - intros rt ind rest v ty name ls n f names Hv Hty Hls Hdiv Htrunc Htags.
    unfold Trustar2Splunk.build_field_values; apply mapM_raise_head.
    unfold Trustar2Splunk.field_values.
    rewrite (trustar_initial_fields_on_names rt ind v ty name ls n f names); trivial.
  - intros rt ind rest v t ty n f c s Hv Hty Ht Hint Hdiv Htags.
    cbn [MispSplunk.build_field_values]; unfold MispSplunk.field_values.
    rewrite (misp_initial_fields_on_joined_tags rt ind v t ty n f c s); trivial.
Qed.

Lemma mappers_raise_on_tags_given_as_names_witness :
  MispCsv.filter_results
    [[("value", VStr "evil.example"); ("type", VStr "domain");
      ("timestamp", VStr "1700000000");
      ("Tag", VList [VDict [("name", VStr "rhisac: vetted")];
                     VDict [("name", VStr "tlp:amber")]]);
      ("Event", VDict [("info", VStr "OSINT report")])]]
  = Ok [filtered_ioc "domain" "evil.example" "tlp:amber"]
  /\ MispSplunk.build_field_values ref_runtime
       [filtered_ioc "domain" "evil.example" "tlp:amber"]
     = ([], Raise TypeError).
Proof.
  split; [reflexivity |].
  apply (proj2 mappers_raise_on_tags_given_as_names ref_runtime
           (filtered_ioc "domain" "evil.example" "tlp:amber") []
           (VStr "evil.example") (VStr "1700000000") "domain" 1700000000
           (S754_finite false 7301444403200000 (-32)) "t"%char "lp:amber");
    reflexivity.
Defined.

Lemma keep_item_tags_is_a_string (keep keep' : dict) (kv : string * value) :
  (forall v, lookup "tags" keep = Some v -> exists s, v = VStr s) ->
  MispCsv.keep_item keep kv = Ok keep' ->
  forall v, lookup "tags" keep' = Some v -> exists s, v = VStr s.
Proof.
  intros Hkeep; destruct kv as [k x]; unfold MispCsv.keep_item.
  destruct (negb (existsb (String.eqb k) MispCsv.OUTPUT_FIELDS)) eqn:Hfield;
    [intros [= <-]; exact Hkeep |].
  destruct (String.eqb_spec k "Tag") as [-> | Htag].
  - intros H; apply bind_ok in H as (names & _ & H).
    apply bind_ok in H as (joined & _ & H); injection H as <-.
    intros v; rewrite lookup_setitem_same; intros [= <-]; eexists; reflexivity.
  - destruct (String.eqb_spec k "Event") as [-> | Hevent].
    + intros H; apply bind_ok in H as (info & _ & H); injection H as <-.
      intros v; rewrite lookup_setitem_other by discriminate; apply Hkeep.
    + intros [= <-] v.
      destruct (String.eqb_spec k "tags") as [-> | Hne];
        [discriminate Hfield | rewrite lookup_setitem_other by exact Hne; apply Hkeep].
Qed.

Lemma keep_items_tags_is_a_string (items : list (string * value)) (keep keep' : dict) :
  (forall v, lookup "tags" keep = Some v -> exists s, v = VStr s) ->
  MispCsv.keep_items keep items = Ok keep' ->
  forall v, lookup "tags" keep' = Some v -> exists s, v = VStr s.
Proof.
  revert keep; induction items as [| kv items IH]; intros keep Hkeep;
    cbn [MispCsv.keep_items].
  - intros [= <-]; exact Hkeep.
  - intros H; apply bind_ok in H as (keep1 & H1 & H).
    apply (IH keep1); [| exact H].
    apply (keep_item_tags_is_a_string keep keep1 kv Hkeep H1).
Qed.

(** Characters cannot be indexed by ['event']: the mapper gets through
    a string of tags only when the string is empty. *)
Lemma misp_initial_fields_tags (rt : runtime) (ind base : dict) (s : string) :
  lookup "tags" ind = Some (VStr s) ->
  MispSplunk.initial_fields rt ind = Ok base ->
  lookup "tags" base = Some (VStr EmptyString).
Proof.
  intros Htags; unfold MispSplunk.initial_fields; intros H.
  apply bind_ok in H as (v & _ & H).
  apply bind_ok in H as (ty & _ & H).
  apply bind_ok in H as (lty & _ & H).
  apply bind_ok in H as (ts & _ & H).
  apply bind_ok in H as (n & _ & H).
  apply bind_ok in H as (updated & _ & H).
  rewrite (getitem_lookup _ _ _ Htags) in H; cbn [bind iter] in H.
  destruct s as [| c s]; [cbn in H; injection H as <-; reflexivity |].
  cbn in H; discriminate H.
Qed.

Lemma misp_reclassify_url_tags (rt : runtime) (fields fields' : dict) (v : value) :
  MispSplunk.reclassify_url rt fields v = Ok fields' ->
  lookup "tags" fields' = lookup "tags" fields.
Proof.
  unfold MispSplunk.reclassify_url; intros H.
  apply bind_ok in H as (value & _ & H).
  apply bind_ok in H as (has_slash & _ & H).
  destruct has_slash; [| injection H as <-; reflexivity].
  apply bind_ok in H as (parts & _ & H).
  apply bind_ok in H as ([netloc remainder] & _ & H).
  destruct (_ || _ || _)%bool.
  - injection H as <-; apply lookup_setitem_other; discriminate.
  - apply bind_ok in H as (s & _ & H); injection H as <-.
    rewrite !lookup_setitem_other by discriminate; reflexivity.
Qed.

Lemma misp_field_values_tags (rt : runtime) (ind fields : dict) (s : string)
  (out : list MispSplunk.event) :
  lookup "tags" ind = Some (VStr s) ->
  MispSplunk.field_values rt ind = (out, Ok (Some fields)) ->
  lookup "tags" fields = Some (VStr EmptyString).
Proof.
  intros Htags; unfold MispSplunk.field_values.
  destruct (MispSplunk.initial_fields rt ind) as [base | e] eqn:Hbase;
    cbn [lift iobind]; [| discriminate].
  pose proof (misp_initial_fields_tags rt ind base s Htags Hbase) as Hb.
  destruct (getitem ind "type") as [ty | e]; cbn [lift iobind]; [| discriminate].
  destruct (eq_str ty "url").
  - destruct (getitem ind "value") as [v | e]; cbn [bind lift iobind]; [| discriminate].
    destruct (MispSplunk.reclassify_url rt base v) as [fields' | e] eqn:Hre;
      cbn [lift iobind]; [| discriminate].
    apply misp_reclassify_url_tags in Hre.
    destruct (negb _); cbn [emit ret iobind app]; [discriminate |].
    intros [= _ <-]; rewrite Hre; exact Hb.
  - cbn [lift iobind]; destruct (negb _); cbn [emit ret iobind app]; [discriminate |].
    intros [= _ <-]; exact Hb.
Qed.

(** X23.  In [misp_iocs_to_splunk.py] the records built for Splunk come
    from the output of [filter_results], where [tags] is a string.
    Whatever MISP delivered, if [build_field_values] returns on that
    output then every record it returns has the empty string for [tags]:
    no tag of an attribute ever reaches Splunk. *)
Theorem misp_tags_never_reach_splunk
  (rt : runtime) (iocs filtered records : list dict) (out : list MispSplunk.event) :
  MispCsv.filter_results iocs = Ok filtered ->
  MispSplunk.build_field_values rt filtered = (out, Ok records) ->
  Forall (fun r => lookup "tags" r = Some (VStr EmptyString)) records.
Proof.
  intros Hfilter; apply mapM_Forall2 in Hfilter.
  assert (Hshape : Forall (fun keep => forall v, lookup "tags" keep = Some v ->
                                                 exists s, v = VStr s) filtered).
  { induction Hfilter as [| ioc keep iocs filtered Hkeep _ IH]; constructor; [| exact IH].
    apply (keep_items_tags_is_a_string ioc [] keep); [discriminate | exact Hkeep]. }
  clear Hfilter; revert out records.
  induction Hshape as [| ind rest Hind _ IH]; intros out records Hrun.
  - cbn in Hrun; injection Hrun as _ <-; constructor.
  - apply misp_build_inv in Hrun as (out1 & r & out2 & res2 & H1 & H2 & _ & ->).
    specialize (IH _ _ H2).
    destruct r as [fields |]; [| exact IH].
    constructor; [| exact IH].
    assert (Hhas : exists v, lookup "tags" ind = Some v).
    { revert H1; unfold MispSplunk.field_values, MispSplunk.initial_fields.
      destruct (lookup "tags" ind) as [v |] eqn:Hl; [intros _; exists v; reflexivity |].
      unfold getitem at 4; rewrite Hl.
      destruct (getitem ind "value"); cbn [bind lift iobind]; [| discriminate].
      destruct (getitem ind "type"); cbn [bind lift iobind]; [| discriminate].
      destruct (str_lower _); cbn [bind lift iobind]; [| discriminate].
      destruct (getitem ind "timestamp"); cbn [bind lift iobind]; [| discriminate].
      destruct (int rt _); cbn [bind lift iobind]; [| discriminate].
      destruct (truediv rt _ _); cbn [bind lift iobind]; discriminate. }
    destruct Hhas as [v Hv]; destruct (Hind v Hv) as [s ->].
    apply (misp_field_values_tags rt ind fields s out1 Hv H1).
Qed.

Lemma misp_tags_never_reach_splunk_witness :
  Forall (fun r => lookup "tags" r = Some (VStr EmptyString))
    [[("value", VStr "evil.example"); ("ioc_type", VStr "domain");
      ("updated", VFloat (S754_finite false 7301444403200000 (-32)));
      ("source", VStr "RH-ISAC Vetted"); ("tags", VStr EmptyString)]].
Proof.
  apply (misp_tags_never_reach_splunk ref_runtime
           [[("value", VStr "evil.example"); ("type", VStr "domain");
             ("timestamp", VStr "1700000000");
             ("Tag", VList [VDict [("name", VStr "rhisac: vetted")]]);
             ("Event", VDict [("info", VStr "OSINT report")])]]
           [filtered_ioc "domain" "evil.example" EmptyString]
           _ []); vm_compute; reflexivity.
Defined.

(** ** The vetted marker, from MISP to the destinations *)

(** C10.  For every attribute of every list [filter_results] returns
    on, the [tags] entry of the record is the names of the attribute's
    tags joined with ["|"], the vetted marker left out and every other
    name kept, in order; when no name holds a ["|"], the marker is none
    of the pieces of that string.  [filter_results] does return on the
    attributes MISP delivers.  What leaves the scripts is that string:
    the CSV writer puts it last in the row, its double quotes replaced,
    which brings no marker back; the description of a Falcon indicator
    is the string itself; and the Splunk mapper passes the empty string
    on, or nothing. *)
Theorem vetted_marker_is_filtered_out :
  (forall (iocs out : list dict),
      MispCsv.filter_results iocs = Ok out ->
      MispCrowdstrike.filter_results iocs = Ok out /\
      Forall2 marker_filtered iocs out)
  /\ (forall (iocs : list dict),
      Forall tagged_attribute iocs ->
      exists out, MispCsv.filter_results iocs = Ok out)
  /\ (forall (rt : runtime) (header : list string) (keep : dict) (t : string),
      lookup "tags" keep = Some (VStr t) ->
      MispCsv.csv_row rt header keep
      = (row <- mapM (getitem keep) (filter not_tags header) ;;
         Ok (row ++ (if String.eqb t EmptyString then []
                     else [VStr (replace_char MispCsv.DQUOTE "'" t)]))) /\
      (marker_free t -> marker_free (replace_char MispCsv.DQUOTE "'" t)))
  /\ (forall (expiration_timestamp cs_type : string) (keep : dict) (t : string) (d : value),
      lookup "tags" keep = Some (VStr t) ->
      MispCrowdstrike.ioc_dict expiration_timestamp cs_type keep = Ok d ->
      exists v,
        lookup "value" keep = Some v /\
        d = falcon_indicator expiration_timestamp cs_type t v)
  /\ (forall (rt : runtime) (keeps records : list dict) (printed : list MispSplunk.event),
      MispSplunk.build_field_values rt keeps = (printed, Ok records) ->
      Forall2 (fun keep fields =>
                 forall t, lookup "tags" keep = Some (VStr t) ->
                           lookup "tags" fields = Some (VStr EmptyString))
        (filter (fun keep => negb (unsupported keep)) keeps) records).
Proof.
  split; [| split; [| split; [| split]]].
  - intros iocs out Hrun; split; [exact Hrun |].
    eapply Forall2_impl; [| apply (mapM_Forall2 _ _ _ Hrun)].
    intros ioc keep Hkeep ts ns Hnd Htag Hobj.
    split; [apply (keep_items_tags ioc [] keep ts ns Hnd Htag Hobj Hkeep) |].
    apply kept_names_marker_free.
  - intros iocs Hall.
    apply (mapM_total (MispCsv.keep_items []) iocs).
    eapply Forall_impl; [| exact Hall].
    intros ioc; apply keep_items_readable.
  - intros rt header keep t Htags; split; [| apply marker_free_replace_char].
    unfold MispCsv.csv_row, get, get_default; rewrite Htags.
    cbn [truthy str]; fold not_tags.
    destruct (mapM (getitem keep) (filter not_tags header)) as [row | e];
      [| reflexivity].
    cbn [bind]; destruct (String.eqb t EmptyString); cbn [negb];
      rewrite ?app_nil_r; reflexivity.
  - intros expiration_timestamp cs_type keep t d Htags.
    unfold MispCrowdstrike.ioc_dict.
    destruct (getitem keep "value") as [v | e] eqn:Hv; cbn [bind]; [| discriminate].
    rewrite (getitem_lookup _ _ _ Htags); cbn [bind is_str as_str].
    intros [= <-]; exists v; split; [apply getitem_ok, Hv | reflexivity].
  - intros rt keeps records printed Hrun.
    eapply Forall2_impl; [| apply (misp_build_Forall2 rt keeps printed records Hrun)].
    intros keep fields Hturn t Htags.
    apply (misp_field_values_tags rt keep fields t [] Htags Hturn).
Qed.

(** Two attributes, the marker first in one and in the middle of the
    other, through [filter_results] and on to the three destinations. *)
Lemma vetted_marker_is_filtered_out_witness :
  (MispCrowdstrike.filter_results sample_attributes
   = Ok [[("value", VStr "evil.example"); ("type", VStr "domain");
          ("timestamp", VStr "1700000000"); ("tags", VStr "tlp:amber");
          ("event", VStr "OSINT report")];
         [("value", VStr "198.51.100.7"); ("type", VStr "ip-dst");
          ("timestamp", VStr "1700000100"); ("tags", VStr "botnet|tlp:green");
          ("event", VStr "Sinkhole feed")]] /\
   Forall2 marker_filtered sample_attributes
     [[("value", VStr "evil.example"); ("type", VStr "domain");
       ("timestamp", VStr "1700000000"); ("tags", VStr "tlp:amber");
       ("event", VStr "OSINT report")];
      [("value", VStr "198.51.100.7"); ("type", VStr "ip-dst");
       ("timestamp", VStr "1700000100"); ("tags", VStr "botnet|tlp:green");
       ("event", VStr "Sinkhole feed")]])
  /\ (exists out, MispCsv.filter_results sample_attributes = Ok out)
  /\ MispCsv.csv_row ref_runtime ["value"; "type"; "timestamp"; "event"; "tags"]
       [("value", VStr "198.51.100.7"); ("type", VStr "ip-dst");
        ("timestamp", VStr "1700000100"); ("tags", VStr "botnet|tlp:green");
        ("event", VStr "Sinkhole feed")]
     = (row <- mapM (getitem [("value", VStr "198.51.100.7"); ("type", VStr "ip-dst");
                              ("timestamp", VStr "1700000100");
                              ("tags", VStr "botnet|tlp:green");
                              ("event", VStr "Sinkhole feed")])
                 (filter not_tags ["value"; "type"; "timestamp"; "event"; "tags"]) ;;
        Ok (row ++ (if String.eqb "botnet|tlp:green" EmptyString then []
                    else [VStr (replace_char MispCsv.DQUOTE "'" "botnet|tlp:green")])))
  /\ (exists v,
        lookup "value" [("value", VStr "198.51.100.7"); ("type", VStr "ip-dst");
                        ("timestamp", VStr "1700000100");
                        ("tags", VStr "botnet|tlp:green");
                        ("event", VStr "Sinkhole feed")] = Some v /\
        falcon_indicator sample_expiration "ipv4" "botnet|tlp:green" (VStr "198.51.100.7")
        = falcon_indicator sample_expiration "ipv4" "botnet|tlp:green" v)
  /\ Forall2 (fun keep fields =>
                forall t, lookup "tags" keep = Some (VStr t) ->
                          lookup "tags" fields = Some (VStr EmptyString))
       (filter (fun keep => negb (unsupported keep))
          [filtered_ioc "domain" "evil.example" EmptyString;
           filtered_ioc "filename" "invoice.exe" EmptyString;
           filtered_ioc "ip-dst" "198.51.100.7" EmptyString])
       [[("value", VStr "evil.example"); ("ioc_type", VStr "domain");
         ("updated", VFloat (S754_finite false 7301444403200000 (-32)));
         ("source", VStr "RH-ISAC Vetted"); ("tags", VStr EmptyString)];
        [("value", VStr "198.51.100.7"); ("ioc_type", VStr "ip-dst");
         ("updated", VFloat (S754_finite false 7301444403200000 (-32)));
         ("source", VStr "RH-ISAC Vetted"); ("tags", VStr EmptyString)]].
Proof.
  destruct vetted_marker_is_filtered_out as (Hfilter & Htotal & Hcsv & Hfalcon & Hsplunk).
  split; [| split; [| split; [| split]]].
  - apply (Hfilter sample_attributes); vm_compute; reflexivity.
  - apply (Htotal sample_attributes).
    repeat constructor; cbn; try (intuition discriminate).
    + intros v [= <-]; eexists _, ["rhisac: vetted"; "tlp:amber"]; split; [reflexivity |].
      repeat constructor; eexists; split; reflexivity.
    + intros v [= <-]; eexists _, _; split; reflexivity.
    + intros v [= <-]; eexists _, ["botnet"; "rhisac: vetted"; "tlp:green"];
        split; [reflexivity |].
      repeat constructor; eexists; split; reflexivity.
    + intros v [= <-]; eexists _, _; split; reflexivity.
  - apply (proj1 (Hcsv ref_runtime ["value"; "type"; "timestamp"; "event"; "tags"]
                    [("value", VStr "198.51.100.7"); ("type", VStr "ip-dst");
                     ("timestamp", VStr "1700000100");
                     ("tags", VStr "botnet|tlp:green");
                     ("event", VStr "Sinkhole feed")]
                    "botnet|tlp:green" eq_refl)).
  - apply (Hfalcon sample_expiration "ipv4"
             [("value", VStr "198.51.100.7"); ("type", VStr "ip-dst");
              ("timestamp", VStr "1700000100");
              ("tags", VStr "botnet|tlp:green");
              ("event", VStr "Sinkhole feed")]
             "botnet|tlp:green"); reflexivity.
  - apply (Hsplunk ref_runtime
             [filtered_ioc "domain" "evil.example" EmptyString;
              filtered_ioc "filename" "invoice.exe" EmptyString;
              filtered_ioc "ip-dst" "198.51.100.7" EmptyString]
             _ [MispSplunk.PrintErrorParsingType (VStr "filename")]).
    vm_compute; reflexivity.
Defined.

(** ** Delivery to Splunk *)

Lemma login_run (rt : runtime) (srv : Splunk.server) (st : Splunk.state)
  (username password : value) :
  Splunk.login rt srv st username password
  = match srv (Splunk.calls st)
            (Splunk.login_request rt (Splunk.SPLUNK_BASE_URL st) username password) with
    | inr text =>
        ([Splunk.Request
            (Splunk.login_request rt (Splunk.SPLUNK_BASE_URL st) username password);
          Splunk.PrintUnableToConnect text], Ok (false, Splunk.called st))
    | inl auth_resp =>
        match session_key (inl auth_resp) with
        | Some key =>
            (Splunk.Request
               (Splunk.login_request rt (Splunk.SPLUNK_BASE_URL st) username password)
               :: (if Splunk.status_code auth_resp =? 401
                   then [Splunk.PrintFailedToAuthenticate] else []),
             Ok (true, Splunk.with_headers (Splunk.called st)
                         [("Authorization", VStr ("Splunk " ++ str rt key))]))
        | None =>
            (Splunk.Request
               (Splunk.login_request rt (Splunk.SPLUNK_BASE_URL st) username password)
               :: (if Splunk.status_code auth_resp =? 401
                   then [Splunk.PrintFailedToAuthenticate] else [])
               ++ [Splunk.PrintUnexpectedAuthResponse;
                   Splunk.PrintResponse (Splunk.content auth_resp)],
             Ok (false, Splunk.called st))
        end
    end.
Proof.
  unfold Splunk.login, session_key; cbn [emit iobind app].
  destruct (srv _ _) as [auth_resp | text]; [| reflexivity].
  destruct (Splunk.json auth_resp) as [body |].
  - pose proof (no_exit_subscript body (VStr "sessionKey")) as Hne.
    destruct (subscript body (VStr "sessionKey")) as [key | e].
    + destruct (_ =? 401); reflexivity.
    + destruct e; try contradiction; destruct (_ =? 401); reflexivity.
  - destruct (_ =? 401); reflexivity.
Qed.

Lemma check_run (rt : runtime) (srv : Splunk.server) (st : Splunk.state) :
  Splunk.check_splunk_kvstore rt srv st
  = match srv (Splunk.calls st) (kvstore_lookup rt st) with
    | inr text =>
        ([Splunk.Request (kvstore_lookup rt st); Splunk.PrintFailedToConnect text],
         Ok (false, Splunk.called st))
    | inl resp =>
        if collection_missing resp then
          match srv (S (Splunk.calls st)) (kvstore_create rt st) with
          | inr text =>
              ([Splunk.Request (kvstore_lookup rt st); Splunk.PrintCreatingCollection;
                Splunk.Request (kvstore_create rt st); Splunk.PrintFailedToConnect text],
               Ok (false, Splunk.called (Splunk.called st)))
          | inl resp' =>
              if Splunk.status_code resp' =? 201
              then ([Splunk.Request (kvstore_lookup rt st); Splunk.PrintCreatingCollection;
                     Splunk.Request (kvstore_create rt st)],
                    Ok (true, Splunk.called (Splunk.called st)))
              else ([Splunk.Request (kvstore_lookup rt st); Splunk.PrintCreatingCollection;
                     Splunk.Request (kvstore_create rt st); Splunk.PrintFailedToCreate],
                    Ok (false, Splunk.called (Splunk.called st)))
          end
        else ([Splunk.Request (kvstore_lookup rt st)], Ok (true, Splunk.called st))
    end.
Proof.
  unfold Splunk.check_splunk_kvstore, kvstore_lookup, kvstore_create, collection_missing;
    cbn [emit iobind app].
  destruct (srv _ _) as [resp | text]; [| reflexivity].
  destruct (_ && _)%bool; [| reflexivity].
  cbn [emit iobind app].
  destruct (srv _ _) as [resp' | text]; [| reflexivity].
  destruct (_ =? 201); reflexivity.
Qed.

(** [post_iocs_to_splunk] in a session: after the check of the
    collection, one request with all the records. *)
Lemma post_run (rt : runtime) (srv : Splunk.server) (iocs : list dict)
  (base key : value) (n : nat) :
  let st := {| Splunk.SPLUNK_HEADERS :=
                 Some [("Authorization", VStr ("Splunk " ++ str rt key))];
               Splunk.SPLUNK_BASE_URL := base;
               Splunk.calls := n |} in
  Splunk.post_iocs_to_splunk rt srv iocs st
  = match Splunk.check_splunk_kvstore rt srv st with
    | (out, Ok (true, st')) =>
        match srv (Splunk.calls st') (batch_save rt base key iocs) with
        | inr text =>
            (out ++ [Splunk.Request (batch_save rt base key iocs);
                     Splunk.PrintFailedToConnect text],
             Ok (false, Splunk.called (Splunk.with_headers st' (session_headers rt key))))
        | inl resp =>
            if Splunk.status_code resp =? 200
            then (out ++ [Splunk.Request (batch_save rt base key iocs)],
                  Ok (true, Splunk.called (Splunk.with_headers st' (session_headers rt key))))
            else (out ++ [Splunk.Request (batch_save rt base key iocs);
                          Splunk.PrintUnexpectedStatus (Splunk.status_code resp);
                          Splunk.PrintResponse (Splunk.content resp)],
                  Ok (false, Splunk.called (Splunk.with_headers st' (session_headers rt key))))
        end
    | (out, Ok (false, st')) => (out, Ok (false, st'))
    | (out, Raise e) => (out, Raise e)
    end.
Proof.
  cbv zeta; unfold Splunk.post_iocs_to_splunk; rewrite check_run.
  cbn [Splunk.calls].
  repeat match goal with
         | |- context [match srv ?n (kvstore_lookup ?a ?b) with _ => _ end] =>
             destruct (srv n (kvstore_lookup a b))
         | |- context [match srv ?n (kvstore_create ?a ?b) with _ => _ end] =>
             destruct (srv n (kvstore_create a b))
         | |- context [if collection_missing ?r then _ else _] =>
             destruct (collection_missing r)
         | |- context [if Splunk.status_code ?r =? 201 then _ else _] =>
             destruct (Splunk.status_code r =? 201)
         end;
    try reflexivity;
    cbn [iobind negb Splunk.SPLUNK_HEADERS Splunk.called emit app];
    lazymatch goal with
    | |- _ = match srv ?N ?R with _ => _ end =>
        repeat match goal with
               | |- context [srv ?n ?r] => progress change (srv n r) with (srv N R)
               end;
        destruct (srv N R) as [resp | text]; [| reflexivity];
        destruct (Splunk.status_code resp =? 200); reflexivity
    end.
Qed.

Lemma requests_in_app (a b : list Splunk.event) :
  requests_in (a ++ b) = requests_in a ++ requests_in b.
Proof.
  induction a as [| e a IH]; [reflexivity |].
  destruct e; cbn [app requests_in]; rewrite ?IH; reflexivity.
Qed.

(** The end of both scripts, for an [auth_to_splunk] that got as far as
    its request. *)
Lemma deliver_run (rt : runtime) (srv : Splunk.server)
  (auth : Splunk.state -> io Splunk.event (bool * Splunk.state))
  (iocs : list dict) (base username password : value) :
  auth Splunk.initial_state
  = Splunk.login rt srv (Splunk.with_base_url Splunk.initial_state base) username password ->
  Splunk.deliver rt srv auth iocs
  = match session_key (srv 0%nat (Splunk.login_request rt base username password)) with
    | None =>
        (fst (auth Splunk.initial_state) ++ [Splunk.PrintUnableToAuthenticate], Ok tt)
    | Some key =>
        match Splunk.post_iocs_to_splunk rt srv iocs (logged_in rt base key) with
        | (out, Ok (true, _)) =>
            (fst (auth Splunk.initial_state) ++ out
               ++ [Splunk.PrintUploaded (List.length iocs)], Ok tt)
        | (out, Ok (false, _)) =>
            (fst (auth Splunk.initial_state) ++ out ++ [Splunk.PrintFailedToUpload], Ok tt)
        | (out, Raise e) => (fst (auth Splunk.initial_state) ++ out, Raise e)
        end
    end.
Proof.
  intros Hauth; unfold Splunk.deliver; rewrite Hauth, login_run.
  cbn [Splunk.with_base_url Splunk.initial_state Splunk.SPLUNK_BASE_URL Splunk.calls
         Splunk.SPLUNK_HEADERS].
  destruct (srv 0%nat (Splunk.login_request rt base username password))
    as [auth_resp | text]; [| reflexivity].
  destruct (session_key (inl auth_resp)) as [key |]; [| reflexivity].
  cbn [iobind fst].
  change (Splunk.with_headers _ _) with (logged_in rt base key).
  destruct (Splunk.post_iocs_to_splunk rt srv iocs (logged_in rt base key))
    as [out [[[|] st'] | e]]; cbn [iobind fst emit]; reflexivity.
Qed.

Lemma login_requests (rt : runtime) (srv : Splunk.server) (st : Splunk.state)
  (username password : value) :
  requests_in (fst (Splunk.login rt srv st username password))
  = [Splunk.login_request rt (Splunk.SPLUNK_BASE_URL st) username password] /\
  forall n, ~ In (Splunk.PrintUploaded n) (fst (Splunk.login rt srv st username password)).
Proof.
  rewrite login_run.
  destruct (srv _ _) as [auth_resp | text].
  - destruct (session_key (inl auth_resp)); destruct (_ =? 401); cbn; split;
      try reflexivity; intros n H;
      repeat (destruct H as [H | H]; try discriminate H); exact H.
  - cbn; split; [reflexivity |].
    intros n H; repeat (destruct H as [H | H]; try discriminate H); exact H.
Qed.

(** What [post_iocs_to_splunk] sends in a session, and when it reports
    success. *)
Lemma post_in_session (rt : runtime) (srv : Splunk.server) (iocs : list dict)
  (base key : value) :
  exists out b st',
    Splunk.post_iocs_to_splunk rt srv iocs (logged_in rt base key) = (out, Ok (b, st')) /\
    (forall n, ~ In (Splunk.PrintUploaded n) out) /\
    (requests_in out = [kvstore_lookup rt (logged_in rt base key)] /\ b = false
     \/ requests_in out = [kvstore_lookup rt (logged_in rt base key);
                           kvstore_create rt (logged_in rt base key)] /\ b = false
     \/ (exists i, (i = 2 \/ i = 3)%nat /\
           (requests_in out = [kvstore_lookup rt (logged_in rt base key);
                               batch_save rt base key iocs] /\ i = 2%nat
            \/ requests_in out = [kvstore_lookup rt (logged_in rt base key);
                                  kvstore_create rt (logged_in rt base key);
                                  batch_save rt base key iocs] /\ i = 3%nat) /\
           match srv i (batch_save rt base key iocs) with
           | inl resp => b = (Splunk.status_code resp =? 200)
           | inr _ => b = false
           end)).
Proof.
  pose proof (post_run rt srv iocs base key 1) as Hpost; cbv zeta in Hpost.
  unfold logged_in at 1; rewrite Hpost, check_run; clear Hpost.
  fold (logged_in rt base key).
  change (Splunk.calls (logged_in rt base key)) with 1%nat.
  destruct (srv 1%nat (kvstore_lookup rt (logged_in rt base key))) as [resp | text].
  - destruct (collection_missing resp).
    + destruct (srv 2%nat (kvstore_create rt (logged_in rt base key))) as [resp' | text].
      * destruct (Splunk.status_code resp' =? 201).
        -- change (Splunk.calls (Splunk.called (Splunk.called (logged_in rt base key))))
             with 3%nat.
           destruct (srv 3%nat (batch_save rt base key iocs)) as [resp2 | text] eqn:Hb.
           ++ destruct (Splunk.status_code resp2 =? 200) eqn:H200;
                (eexists; eexists; eexists; split; [reflexivity | split]);
                try (intros n H; cbn in H;
                     repeat (destruct H as [H | H]; try discriminate H); exact H);
                right; right; exists 3%nat; (split; [right; reflexivity |]);
                (split; [right; split; reflexivity |]); rewrite Hb, H200; reflexivity.
           ++ eexists; eexists; eexists; split; [reflexivity | split].
              ** intros n H; cbn in H;
                   repeat (destruct H as [H | H]; try discriminate H); exact H.
              ** right; right; exists 3%nat; (split; [right; reflexivity |]).
                 split; [right; split; reflexivity | rewrite Hb; reflexivity].
        -- eexists; eexists; eexists; split; [reflexivity | split].
           ++ intros n H; cbn in H;
                repeat (destruct H as [H | H]; try discriminate H); exact H.
           ++ right; left; split; reflexivity.
      * eexists; eexists; eexists; split; [reflexivity | split].
        -- intros n H; cbn in H;
             repeat (destruct H as [H | H]; try discriminate H); exact H.
        -- right; left; split; reflexivity.
    + change (Splunk.calls (Splunk.called (logged_in rt base key))) with 2%nat.
      destruct (srv 2%nat (batch_save rt base key iocs)) as [resp2 | text] eqn:Hb.
      * destruct (Splunk.status_code resp2 =? 200) eqn:H200;
          (eexists; eexists; eexists; split; [reflexivity | split]);
          try (intros n H; cbn in H;
               repeat (destruct H as [H | H]; try discriminate H); exact H);
          right; right; exists 2%nat; (split; [left; reflexivity |]);
          (split; [left; split; reflexivity |]); rewrite Hb, H200; reflexivity.
      * eexists; eexists; eexists; split; [reflexivity | split].
        -- intros n H; cbn in H;
             repeat (destruct H as [H | H]; try discriminate H); exact H.
        -- right; right; exists 2%nat; (split; [left; reflexivity |]).
           split; [left; split; reflexivity | rewrite Hb; reflexivity].
  - eexists; eexists; eexists; split; [reflexivity | split].
    + intros n H; cbn in H; repeat (destruct H as [H | H]; try discriminate H); exact H.
    + left; split; reflexivity.
Qed.

Section DeliverWithLogin.

Variable rt : runtime.
Variable srv : Splunk.server.
Variable auth : Splunk.state -> io Splunk.event (bool * Splunk.state).
Variable iocs : list dict.
Variables base username password : value.

Hypothesis Hauth :
  auth Splunk.initial_state
  = Splunk.login rt srv (Splunk.with_base_url Splunk.initial_state base) username password.

Lemma deliver_result : snd (Splunk.deliver rt srv auth iocs) = Ok tt.
Proof.
  rewrite (deliver_run rt srv auth iocs base username password Hauth).
  destruct (session_key _) as [key |]; [| reflexivity].
  destruct (post_in_session rt srv iocs base key) as (out & b & st' & -> & _).
  destruct b; reflexivity.
Qed.

Lemma deliver_conversation :
  conversation rt srv base username password iocs
    (requests_in (fst (Splunk.deliver rt srv auth iocs))).
Proof.
  rewrite (deliver_run rt srv auth iocs base username password Hauth).
  destruct (login_requests rt srv (Splunk.with_base_url Splunk.initial_state base)
              username password) as [Hlogin _].
  rewrite <- Hauth in Hlogin.
  cbn [Splunk.with_base_url Splunk.SPLUNK_BASE_URL] in Hlogin.
  destruct (session_key _) as [key |] eqn:Hkey.
  - right; exists key; split; [exact Hkey |].
    destruct (post_in_session rt srv iocs base key)
      as (out & b & st' & -> & _ & Hreq).
    assert (Hout : requests_in
                     (fst (let (b0, _) := (b, st') in
                           if b0
                           then (fst (auth Splunk.initial_state) ++ out
                                   ++ [Splunk.PrintUploaded (List.length iocs)], Ok tt)
                           else (fst (auth Splunk.initial_state) ++ out
                                   ++ [Splunk.PrintFailedToUpload], @Ok unit tt)))
                   = Splunk.login_request rt base username password :: requests_in out).
    { destruct b; cbn [fst]; rewrite !requests_in_app, Hlogin; cbn [requests_in app];
        rewrite app_nil_r; reflexivity. }
    cbn [fst] in Hout |- *.
    destruct b; cbn [fst] in Hout |- *; rewrite Hout;
      destruct Hreq as [[-> _] | [[-> _] | (i & _ & [[-> _] | [-> _]] & _)]]; tauto.
  - left; cbn [fst]; rewrite requests_in_app, Hlogin; reflexivity.
Qed.

(** The requests of a delivery are those the answers decide. *)
Lemma deliver_requests :
  requests_in (fst (Splunk.deliver rt srv auth iocs))
  = splunk_requests rt srv base username password iocs.
Proof.
  rewrite (deliver_run rt srv auth iocs base username password Hauth).
  destruct (login_requests rt srv (Splunk.with_base_url Splunk.initial_state base)
              username password) as [Hlogin _].
  rewrite <- Hauth in Hlogin.
  cbn [Splunk.with_base_url Splunk.SPLUNK_BASE_URL] in Hlogin.
  unfold splunk_requests.
  destruct (session_key _) as [key |].
  - assert (Hpost : requests_in
                      (fst (Splunk.post_iocs_to_splunk rt srv iocs (logged_in rt base key)))
                    = kvstore_lookup rt (logged_in rt base key)
                      :: match srv 1%nat (kvstore_lookup rt (logged_in rt base key)) with
                         | inr _ => []
                         | inl found =>
                             if collection_missing found then
                               kvstore_create rt (logged_in rt base key)
                               :: match srv 2%nat
                                          (kvstore_create rt (logged_in rt base key)) with
                                  | inr _ => []
                                  | inl created =>
                                      if Splunk.status_code created =? 201
                                      then [batch_save rt base key iocs]
                                      else []
                                  end
                             else [batch_save rt base key iocs]
                         end).
    { pose proof (post_run rt srv iocs base key 1) as Hrun; cbv zeta in Hrun.
      unfold logged_in at 1; rewrite Hrun, check_run; clear Hrun.
      fold (logged_in rt base key).
      change (Splunk.calls (logged_in rt base key)) with 1%nat.
      destruct (srv 1%nat (kvstore_lookup rt (logged_in rt base key))) as [found | text];
        [| reflexivity].
      destruct (collection_missing found).
      - destruct (srv 2%nat (kvstore_create rt (logged_in rt base key)))
          as [created | text]; [| reflexivity].
        destruct (Splunk.status_code created =? 201); [| reflexivity].
        destruct (srv _ (batch_save rt base key iocs)) as [resp | text];
          [destruct (Splunk.status_code resp =? 200) |];
          cbn [fst]; rewrite requests_in_app; reflexivity.
      - destruct (srv _ (batch_save rt base key iocs)) as [resp | text];
          [destruct (Splunk.status_code resp =? 200) |];
          cbn [fst]; rewrite requests_in_app; reflexivity. }
    rewrite <- Hpost.
    destruct (Splunk.post_iocs_to_splunk rt srv iocs (logged_in rt base key))
      as [out [[[|] st'] | e]]; cbn [fst];
      rewrite !requests_in_app, Hlogin; cbn [requests_in app];
      rewrite ?app_nil_r; reflexivity.
  - cbn [fst]; rewrite requests_in_app, Hlogin; reflexivity.
Qed.

Lemma deliver_uploaded (n : nat) :
  In (Splunk.PrintUploaded n) (fst (Splunk.deliver rt srv auth iocs)) ->
  n = List.length iocs /\
  exists key i resp,
    session_key (srv 0%nat (Splunk.login_request rt base username password)) = Some key /\
    In (batch_save rt base key iocs) (requests_in (fst (Splunk.deliver rt srv auth iocs))) /\
    srv i (batch_save rt base key iocs) = inl resp /\
    Splunk.status_code resp = 200.
Proof.
  pose proof deliver_conversation as Hconv.
  rewrite (deliver_run rt srv auth iocs base username password Hauth) in *.
  destruct (login_requests rt srv (Splunk.with_base_url Splunk.initial_state base)
              username password) as [_ Hnone].
  rewrite <- Hauth in Hnone.
  destruct (session_key _) as [key |] eqn:Hkey.
  - destruct (post_in_session rt srv iocs base key)
      as (out & b & st' & Hpost & Hquiet & Hreq).
    rewrite Hpost in *.
    destruct b; cbn [fst] in *; intros Hin.
    + apply in_app_or in Hin as [Hin | Hin]; [destruct (Hnone n Hin) |].
      apply in_app_or in Hin as [Hin | Hin]; [destruct (Hquiet n Hin) |].
      destruct Hin as [[= <-] | []]; split; [reflexivity |].
      destruct Hreq as [[_ [=]] | [[_ [=]] | (i & _ & Hshape & Hanswer)]].
      destruct (srv i (batch_save rt base key iocs)) as [resp |] eqn:Hb;
        [| discriminate Hanswer].
      exists key, i, resp; split; [reflexivity | split; [| split; [exact Hb |]]].
      * rewrite !requests_in_app; apply in_or_app; right; apply in_or_app; left.
        destruct Hshape as [[-> _] | [-> _]]; cbn; tauto.
      * symmetry in Hanswer; apply Z.eqb_eq in Hanswer; exact Hanswer.
    + apply in_app_or in Hin as [Hin | Hin]; [destruct (Hnone n Hin) |].
      apply in_app_or in Hin as [Hin | Hin]; [destruct (Hquiet n Hin) |].
      destruct Hin as [Hin | []]; discriminate Hin.
  - cbn [fst]; intros Hin.
    apply in_app_or in Hin as [Hin | Hin]; [destruct (Hnone n Hin) |].
    destruct Hin as [Hin | []]; discriminate Hin.
Qed.

End DeliverWithLogin.

Lemma trustar_auth_to_splunk (rt : runtime) (srv : Splunk.server) (s_conf : result value)
  (st : Splunk.state) :
  Trustar2SplunkScript.auth_to_splunk rt srv s_conf st
  = match splunk_settings s_conf with
    | Ok (base, username, password) =>
        Splunk.login rt srv (Splunk.with_base_url st base) username password
    | Raise e => ([], Raise e)
    end.
Proof.
  unfold Trustar2SplunkScript.auth_to_splunk, splunk_settings.
  destruct s_conf as [conf | e]; cbn [lift iobind bind]; [| reflexivity].
  destruct (subscript conf (VStr "base_url")) as [base | e]; cbn [lift iobind bind];
    [| reflexivity].
  destruct (subscript conf (VStr "username")) as [username | e]; cbn [lift iobind bind];
    [| reflexivity].
  destruct (subscript conf (VStr "password")) as [password | e]; cbn [lift iobind bind];
    [| reflexivity].
  destruct (Splunk.login _ _ _ _ _) as [out r]; reflexivity.
Qed.

(** The script of [trustar2_iocs_to_splunk.py] once it holds records:
    the mapper first, the delivery next. *)
Lemma trustar_main_run (rt : runtime) (srv : Splunk.server) (s_conf : result value)
  (first : dict) (rest : list dict) :
  Trustar2SplunkScript.main rt srv s_conf (first :: rest)
  = match Trustar2Splunk.build_field_values rt (first :: rest) with
    | Raise e => ([Splunk.PrintRetrieved (List.length (first :: rest))], Raise e)
    | Ok iocs =>
        match splunk_settings s_conf with
        | Raise e => ([Splunk.PrintRetrieved (List.length (first :: rest))], Raise e)
        | Ok _ =>
            (Splunk.PrintRetrieved (List.length (first :: rest))
               :: fst (Splunk.deliver rt srv
                         (Trustar2SplunkScript.auth_to_splunk rt srv s_conf) iocs),
             snd (Splunk.deliver rt srv
                    (Trustar2SplunkScript.auth_to_splunk rt srv s_conf) iocs))
        end
    end.
Proof.
  unfold Trustar2SplunkScript.main; cbn [emit iobind app].
  destruct (Trustar2Splunk.build_field_values rt (first :: rest)) as [iocs | e];
    cbn [lift iobind app]; [| reflexivity].
  destruct (splunk_settings s_conf) as [[[base username] password] | e] eqn:Hset.
  - destruct (Splunk.deliver _ _ _ _) as [out r]; reflexivity.
  - unfold Splunk.deliver; rewrite trustar_auth_to_splunk, Hset; reflexivity.
Qed.

(** X24.  "Successfully uploaded N IOCs to Splunk" is printed by
    [trustar2_iocs_to_splunk.py] only when all of this happened: every
    retrieved indicator was mapped (N is their number), the login was
    answered with a session key, and one [batch_save] request that
    carried all the mapped records, under that session key and the JSON
    content type, was answered with status 200.  The script then ends
    normally. *)
Theorem upload_is_reported_only_after_an_accepted_batch
  (rt : runtime) (srv : Splunk.server) (s_conf : result value) (raw_iocs : list dict)
  (n : nat) :
  In (Splunk.PrintUploaded n)
     (fst (Trustar2SplunkScript.main rt srv s_conf raw_iocs)) ->
  exists iocs base username password key i resp,
    Trustar2Splunk.build_field_values rt raw_iocs = Ok iocs /\
    n = List.length raw_iocs /\
    splunk_settings s_conf = Ok (base, username, password) /\
    session_key (srv 0%nat (Splunk.login_request rt base username password)) = Some key /\
    In (batch_save rt base key iocs)
       (requests_in (fst (Trustar2SplunkScript.main rt srv s_conf raw_iocs))) /\
    srv i (batch_save rt base key iocs) = inl resp /\
    Splunk.status_code resp = 200 /\
    snd (Trustar2SplunkScript.main rt srv s_conf raw_iocs) = Ok tt.
Proof.
  destruct raw_iocs as [| first rest].
  { cbn; intros [H | [H | []]]; discriminate H. }
  rewrite trustar_main_run.
  destruct (Trustar2Splunk.build_field_values rt (first :: rest)) as [iocs | e] eqn:Hmap.
  2: { cbn; intros [H | []]; discriminate H. }
  destruct (splunk_settings s_conf) as [[[base username] password] | e] eqn:Hset.
  2: { cbn; intros [H | []]; discriminate H. }
  assert (Hauth : Trustar2SplunkScript.auth_to_splunk rt srv s_conf Splunk.initial_state
                  = Splunk.login rt srv (Splunk.with_base_url Splunk.initial_state base)
                      username password)
    by (rewrite trustar_auth_to_splunk, Hset; reflexivity).
  cbn [fst snd]; intros [H | Hin]; [discriminate H |].
  destruct (deliver_uploaded rt srv _ iocs base username password Hauth n Hin)
    as (-> & key & i & resp & Hkey & Hbatch & Hanswer & H200).
  exists iocs, base, username, password, key, i, resp.
  split; [reflexivity |].
  split; [apply (mapM_length _ _ _ Hmap) |].
  split; [reflexivity |].
  split; [exact Hkey |].
  split; [cbn [requests_in]; exact Hbatch |].
  split; [exact Hanswer |].
  split; [exact H200 |].
  apply (deliver_result rt srv _ iocs base username password Hauth).
Qed.

Lemma upload_is_reported_only_after_an_accepted_batch_witness :
  exists iocs base username password key i resp,
    Trustar2Splunk.build_field_values ref_runtime [ipv6_block] = Ok iocs /\
    1%nat = List.length [ipv6_block] /\
    splunk_settings sample_splunk_conf = Ok (base, username, password) /\
    session_key (splunk_ok (VStr "192ab7") 0%nat
                   (Splunk.login_request ref_runtime base username password)) = Some key /\
    In (batch_save ref_runtime base key iocs)
       (requests_in (fst (Trustar2SplunkScript.main ref_runtime (splunk_ok (VStr "192ab7"))
                            sample_splunk_conf [ipv6_block]))) /\
    splunk_ok (VStr "192ab7") i (batch_save ref_runtime base key iocs) = inl resp /\
    Splunk.status_code resp = 200 /\
    snd (Trustar2SplunkScript.main ref_runtime (splunk_ok (VStr "192ab7"))
           sample_splunk_conf [ipv6_block]) = Ok tt.
Proof.
  apply (upload_is_reported_only_after_an_accepted_batch ref_runtime
           (splunk_ok (VStr "192ab7")) sample_splunk_conf [ipv6_block] 1).
  vm_compute; tauto.
Defined.

(** X25.  The conversation of [trustar2_iocs_to_splunk.py] with Splunk,
    for every run.  Nothing is sent when no indicator was retrieved,
    when an indicator cannot be mapped or when [splunk.conf] cannot be
    read.  Otherwise the first request is the login, with the user name
    and the password of [splunk.conf] and no header; without a session
    key in its answer it stays the only one.  With a session key the
    script looks the collection up; if the answer says the collection is
    missing it creates it; and unless the look-up or the creation
    failed, it then sends all the mapped records in a single
    [batch_save] request: four requests at most, the records last. *)
Theorem splunk_is_sent_the_login_then_the_records
  (rt : runtime) (srv : Splunk.server) (s_conf : result value) (raw_iocs : list dict) :
  requests_in (fst (Trustar2SplunkScript.main rt srv s_conf raw_iocs))
  = match raw_iocs with
    | [] => []
    | _ =>
        match Trustar2Splunk.build_field_values rt raw_iocs, splunk_settings s_conf with
        | Ok iocs, Ok (base, username, password) =>
            splunk_requests rt srv base username password iocs
        | _, _ => []
        end
    end.
Proof.
  destruct raw_iocs as [| first rest]; [reflexivity |].
  rewrite trustar_main_run.
  destruct (Trustar2Splunk.build_field_values rt (first :: rest)) as [iocs | e] eqn:Hmap;
    [| reflexivity].
  destruct (splunk_settings s_conf) as [[[base username] password] | e] eqn:Hset;
    [| reflexivity].
  assert (Hauth : Trustar2SplunkScript.auth_to_splunk rt srv s_conf Splunk.initial_state
                  = Splunk.login rt srv (Splunk.with_base_url Splunk.initial_state base)
                      username password)
    by (rewrite trustar_auth_to_splunk, Hset; reflexivity).
  cbn [fst requests_in].
  apply (deliver_requests rt srv _ iocs base username password Hauth).
Qed.

(** A run against a Splunk that has no collection yet: the login, the
    look-up, the creation and the records. *)
Example splunk_is_sent_four_requests_at_most :
  requests_in (fst (Trustar2SplunkScript.main ref_runtime
                      (splunk_without_collection (VStr "192ab7"))
                      sample_splunk_conf [ipv6_block]))
  = [Splunk.login_request ref_runtime (VStr "https://splunk.example:8089")
       (VStr "svc_intel") (VStr "hunter2");
     kvstore_lookup ref_runtime
       (logged_in ref_runtime (VStr "https://splunk.example:8089") (VStr "192ab7"));
     kvstore_create ref_runtime
       (logged_in ref_runtime (VStr "https://splunk.example:8089") (VStr "192ab7"));
     batch_save ref_runtime (VStr "https://splunk.example:8089") (VStr "192ab7")
       [[("value", VStr "2001:db8::/64"); ("ioc_type", VStr "cidr_block");
         ("updated", VInt 1700000000); ("source", VStr "RH-ISAC Vetted");
         ("tags", VStr EmptyString); ("cidr", VStr "2001:db8::/64/32")]]].
Proof. vm_compute; reflexivity. Qed.

(** X26.  When Splunk cooperates the records arrive: if every retrieved
    indicator is mapped, [splunk.conf] is read, the login is answered
    with a session key, the look-up of the collection is answered with
    anything but the 404 of a missing collection and the batch with 200,
    then [trustar2_iocs_to_splunk.py] makes exactly these three requests,
    reports as many IOCs uploaded as it retrieved and ends normally. *)
Theorem records_reach_splunk_when_it_cooperates
  (rt : runtime) (srv : Splunk.server) (s_conf : result value) (raw_iocs iocs : list dict)
  (base username password key : value) (found accepted : Splunk.response) :
  raw_iocs <> [] ->
  Trustar2Splunk.build_field_values rt raw_iocs = Ok iocs ->
  splunk_settings s_conf = Ok (base, username, password) ->
  session_key (srv 0%nat (Splunk.login_request rt base username password)) = Some key ->
  srv 1%nat (kvstore_lookup rt (logged_in rt base key)) = inl found ->
  collection_missing found = false ->
  srv 2%nat (batch_save rt base key iocs) = inl accepted ->
  Splunk.status_code accepted = 200 ->
  requests_in (fst (Trustar2SplunkScript.main rt srv s_conf raw_iocs))
  = [Splunk.login_request rt base username password;
     kvstore_lookup rt (logged_in rt base key);
     batch_save rt base key iocs] /\
  In (Splunk.PrintUploaded (List.length raw_iocs))
     (fst (Trustar2SplunkScript.main rt srv s_conf raw_iocs)) /\
  snd (Trustar2SplunkScript.main rt srv s_conf raw_iocs) = Ok tt.
Proof.
  intros Hne Hmap Hset Hkey Hfound Hknown Hbatch H200.
  destruct raw_iocs as [| first rest]; [contradiction Hne; reflexivity |].
  rewrite trustar_main_run, Hmap, Hset.
  assert (Hauth : Trustar2SplunkScript.auth_to_splunk rt srv s_conf Splunk.initial_state
                  = Splunk.login rt srv (Splunk.with_base_url Splunk.initial_state base)
                      username password)
    by (rewrite trustar_auth_to_splunk, Hset; reflexivity).
  destruct (login_requests rt srv (Splunk.with_base_url Splunk.initial_state base)
              username password) as [Hlogin _].
  rewrite <- Hauth in Hlogin.
  cbn [Splunk.with_base_url Splunk.SPLUNK_BASE_URL] in Hlogin.
  rewrite (deliver_run rt srv _ iocs base username password Hauth), Hkey.
  assert (Hp : exists st',
             Splunk.post_iocs_to_splunk rt srv iocs (logged_in rt base key)
             = ([Splunk.Request (kvstore_lookup rt (logged_in rt base key));
                 Splunk.Request (batch_save rt base key iocs)], Ok (true, st'))).
  { pose proof (post_run rt srv iocs base key 1) as Hpost; cbv zeta in Hpost.
    unfold logged_in at 1; rewrite Hpost, check_run; clear Hpost.
    fold (logged_in rt base key).
    change (Splunk.calls (logged_in rt base key)) with 1%nat.
    rewrite Hfound, Hknown.
    change (Splunk.calls (Splunk.called (logged_in rt base key))) with 2%nat.
    rewrite Hbatch, H200; eexists; reflexivity. }
  destruct Hp as [st' ->]; cbn [fst snd].
  rewrite <- (mapM_length _ _ _ Hmap).
  split; [| split; [| reflexivity]].
  - cbn [requests_in]; rewrite !requests_in_app, Hlogin; reflexivity.
  - right; apply in_or_app; right; apply in_or_app; right; left; reflexivity.
Qed.

Lemma records_reach_splunk_when_it_cooperates_witness :
  requests_in (fst (Trustar2SplunkScript.main ref_runtime (splunk_ok (VStr "192ab7"))
                      sample_splunk_conf [ipv6_block]))
  = [Splunk.login_request ref_runtime (VStr "https://splunk.example:8089")
       (VStr "svc_intel") (VStr "hunter2");
     kvstore_lookup ref_runtime
       (logged_in ref_runtime (VStr "https://splunk.example:8089") (VStr "192ab7"));
     batch_save ref_runtime (VStr "https://splunk.example:8089") (VStr "192ab7")
       [[("value", VStr "2001:db8::/64"); ("ioc_type", VStr "cidr_block");
         ("updated", VInt 1700000000); ("source", VStr "RH-ISAC Vetted");
         ("tags", VStr EmptyString); ("cidr", VStr "2001:db8::/64/32")]]] /\
  In (Splunk.PrintUploaded (List.length [ipv6_block]))
     (fst (Trustar2SplunkScript.main ref_runtime (splunk_ok (VStr "192ab7"))
             sample_splunk_conf [ipv6_block])) /\
  snd (Trustar2SplunkScript.main ref_runtime (splunk_ok (VStr "192ab7"))
         sample_splunk_conf [ipv6_block]) = Ok tt.
Proof.
  apply (records_reach_splunk_when_it_cooperates ref_runtime (splunk_ok (VStr "192ab7"))
           sample_splunk_conf [ipv6_block] _ _ _ _ (VStr "192ab7")
           {| Splunk.status_code := 200; Splunk.content := "b'{}'";
              Splunk.json := Some (VDict [("sessionKey", VStr "192ab7")]) |}
           {| Splunk.status_code := 200; Splunk.content := "b'{}'";
              Splunk.json := Some (VDict [("sessionKey", VStr "192ab7")]) |});
    first [discriminate | reflexivity].
Defined.

(** ** [misp_iocs_to_splunk.py] from the command line *)

Lemma misp_auth_to_splunk (rt : runtime) (srv : Splunk.server) (username password base_url : string) :
  MispSplunkScript.auth_to_splunk rt srv
    [("splunk_user", VStr username); ("splunk_pass", VStr password);
     ("SPLUNK_BASE_URL", VStr base_url)] Splunk.initial_state
  = Splunk.login rt srv (Splunk.with_base_url Splunk.initial_state VNone) VNone VNone.
Proof. reflexivity. Qed.

(** The script either stops before it turns to Splunk, in a way that
    does not depend on Splunk, or delivers records with credentials that
    are all [None]. *)
Lemma misp_main_shape (rt : runtime) (conf : MispSplunkScript.config)
  (server_ : MispSplunkScript.misp) :
  (exists pre e,
      (forall srv, MispSplunkScript.main rt srv conf server_ = (pre, Raise e)) /\
      requests_in pre = [])
  \/ (exists pre iocs username password base_url,
         (forall srv,
             MispSplunkScript.main rt srv conf server_
             = (pre ++ fst (Splunk.deliver rt srv
                              (MispSplunkScript.auth_to_splunk rt srv
                                 [("splunk_user", VStr username);
                                  ("splunk_pass", VStr password);
                                  ("SPLUNK_BASE_URL", VStr base_url)]) iocs),
                snd (Splunk.deliver rt srv
                       (MispSplunkScript.auth_to_splunk rt srv
                          [("splunk_user", VStr username);
                           ("splunk_pass", VStr password);
                           ("SPLUNK_BASE_URL", VStr base_url)]) iocs))) /\
         requests_in pre = []).
Proof.
  unfold MispSplunkScript.main, MispSplunkScript.read_options,
    MispSplunkScript.get_last24h_vetted_iocs.
  destruct (negb (MispSplunkScript.found conf MispSplunkScript.CONFIG_PATH)
            && negb (MispSplunkScript.found conf MispSplunkScript.CONFIG_PATH))%bool;
    cbn [emit ret lift iobind app].
  { left; do 2 eexists; split; [intros srv; reflexivity | reflexivity]. }
  destruct (negb (existsb (String.eqb MispSplunkScript.SPLUNK_CONFIG_SECTION)
                    (MispSplunkScript.sections conf)));
    cbn [emit ret lift iobind app].
  { left; do 2 eexists; split; [intros srv; reflexivity | reflexivity]. }
  destruct (negb (existsb (String.eqb MispSplunkScript.MISP_CONFIG_SECTION)
                    (MispSplunkScript.sections conf)));
    cbn [emit ret lift iobind app].
  { left; do 2 eexists; split; [intros srv; reflexivity | reflexivity]. }
  destruct (MispSplunkScript.option_value conf MispSplunkScript.MISP_CONFIG_SECTION "Key")
    as [misp_key |]; cbn [emit ret lift iobind app].
  2: { left; do 2 eexists; split; [intros srv; reflexivity | reflexivity]. }
  destruct (MispSplunkScript.option_value conf MispSplunkScript.SPLUNK_CONFIG_SECTION
              "username") as [username |]; cbn [emit ret lift iobind app].
  2: { left; do 2 eexists; split; [intros srv; reflexivity | reflexivity]. }
  destruct (MispSplunkScript.option_value conf MispSplunkScript.SPLUNK_CONFIG_SECTION
              "password") as [password |]; cbn [emit ret lift iobind app].
  2: { left; do 2 eexists; split; [intros srv; reflexivity | reflexivity]. }
  destruct (MispSplunkScript.option_value conf MispSplunkScript.SPLUNK_CONFIG_SECTION
              "base_url") as [base_url |]; cbn [emit ret lift iobind app].
  2: { left; do 2 eexists; split; [intros srv; reflexivity | reflexivity]. }
  destruct (MispSplunkScript.connect server_ misp_key) as [text |];
    cbn [emit ret lift iobind app].
  { left; do 2 eexists; split; [intros srv; reflexivity | reflexivity]. }
  destruct (MispSplunkScript.search server_ misp_key) as [results | text];
    cbn [emit ret lift iobind app].
  2: { left; do 2 eexists; split; [intros srv; reflexivity | reflexivity]. }
  destruct (subscript results (VStr "Attribute")) as [raw_iocs | e];
    cbn [bind emit ret lift iobind app].
  2: { left; destruct e; do 2 eexists; (split; [intros srv; reflexivity | reflexivity]). }
  destruct (MispSplunkScript.len raw_iocs) as [n | e] eqn:Hlen;
    cbn [bind emit ret lift iobind app].
  2: { left; destruct e; do 2 eexists; (split; [intros srv; reflexivity | reflexivity]). }
  rewrite Hlen; cbn [bind emit ret lift iobind app].
  destruct (negb (truthy raw_iocs)); cbn [emit ret lift iobind app].
  { left; do 2 eexists; split; [intros srv; reflexivity | reflexivity]. }
  destruct (MispSplunkScript.filter_results raw_iocs) as [filtered | e];
    cbn [emit ret lift iobind app].
  2: { left; do 2 eexists; split; [intros srv; reflexivity | reflexivity]. }
  destruct (MispSplunk.build_field_values rt filtered) as [printed [iocs | e]];
    cbn [emit ret lift iobind app].
  2: { left; do 2 eexists; split; [intros srv; reflexivity |].
       cbn [requests_in].
       induction printed as [| [ty] printed IH]; [reflexivity | exact IH]. }
  right.
  exists ([Splunk.PrintGettingAll; Splunk.MispSearch misp_key; Splunk.PrintGot n;
           Splunk.PrintRetrieved n]
            ++ map (fun e => match e with
                             | MispSplunk.PrintErrorParsingType ty =>
                                 Splunk.PrintErrorParsingType ty
                             end) printed),
    iocs, username, password, base_url.
  split.
  - intros srv.
    destruct (Splunk.deliver _ _ _ _) as [dout dr]; cbn [fst snd app].
    reflexivity.
  - cbn [app requests_in].
    induction printed as [| [ty] printed IH]; [reflexivity | exact IH].
Qed.

(** X27.  [main] of [misp_iocs_to_splunk.py] stores the credentials
    under the keys [splunk_user], [splunk_pass] and [SPLUNK_BASE_URL],
    and [auth_to_splunk] looks them up under [username], [password] and
    [BASE_URL].  Whatever [rh-isac.conf] holds, every run that turns to
    Splunk has the conversation of a script whose base URL, user name
    and password are all [None]: the login goes to the URL that starts
    with the text of [None] and carries [None] for both credentials, and
    no request of the run uses the configured base URL. *)
Theorem misp_script_never_uses_the_splunk_credentials
  (rt : runtime) (srv : Splunk.server) (conf : MispSplunkScript.config)
  (server_ : MispSplunkScript.misp) :
  requests_in (fst (MispSplunkScript.main rt srv conf server_)) = [] \/
  exists iocs,
    conversation rt srv VNone VNone VNone iocs
      (requests_in (fst (MispSplunkScript.main rt srv conf server_))).
Proof.
  destruct (misp_main_shape rt conf server_)
    as [(pre & e & Hrun & Hpre)
       | (pre & iocs & username & password & base_url & Hrun & Hpre)];
    rewrite (Hrun srv); cbn [fst]; [left; exact Hpre |].
  right; exists iocs; rewrite requests_in_app, Hpre; cbn [app].
  apply (deliver_conversation rt srv _ iocs VNone VNone VNone
           (misp_auth_to_splunk rt srv username password base_url)).
Qed.

(** X28.  Nothing that Splunk does changes how either script ends.  A
    connection that fails, a login that is refused, a collection that
    cannot be created, a batch that is rejected: each is printed and the
    script ends as it does after a successful upload, so with exit
    status 0.  Whether a run ends normally, through [sys.exit()] or with
    an exception is decided before the first request to Splunk. *)
Theorem splunk_failures_do_not_change_the_exit_status :
  (forall (rt : runtime) (srv srv' : Splunk.server) (s_conf : result value)
          (raw_iocs : list dict),
      snd (Trustar2SplunkScript.main rt srv s_conf raw_iocs)
      = snd (Trustar2SplunkScript.main rt srv' s_conf raw_iocs))
  /\ (forall (rt : runtime) (srv srv' : Splunk.server) (conf : MispSplunkScript.config)
             (server_ : MispSplunkScript.misp),
      snd (MispSplunkScript.main rt srv conf server_)
      = snd (MispSplunkScript.main rt srv' conf server_))
  /\ (forall (rt : runtime) (srv : Splunk.server) (s_conf : result value)
             (raw_iocs iocs : list dict) (settings : value * value * value),
      raw_iocs <> [] ->
      Trustar2Splunk.build_field_values rt raw_iocs = Ok iocs ->
      splunk_settings s_conf = Ok settings ->
      snd (Trustar2SplunkScript.main rt srv s_conf raw_iocs) = Ok tt).
Proof.
  assert (Hok : forall (rt : runtime) (srv : Splunk.server) (s_conf : result value)
                       (raw_iocs iocs : list dict) (settings : value * value * value),
             raw_iocs <> [] ->
             Trustar2Splunk.build_field_values rt raw_iocs = Ok iocs ->
             splunk_settings s_conf = Ok settings ->
             snd (Trustar2SplunkScript.main rt srv s_conf raw_iocs) = Ok tt).
  { intros rt srv s_conf raw_iocs iocs [[base username] password] Hne Hmap Hset.
    destruct raw_iocs as [| first rest]; [contradiction Hne; reflexivity |].
    rewrite trustar_main_run, Hmap, Hset; cbn [snd].
    apply (deliver_result rt srv _ iocs base username password).
    rewrite trustar_auth_to_splunk, Hset; reflexivity. }
  split; [| split; [| exact Hok]].
  - intros rt srv srv' s_conf raw_iocs.
    destruct raw_iocs as [| first rest]; [reflexivity |].
    destruct (Trustar2Splunk.build_field_values rt (first :: rest)) as [iocs | e] eqn:Hmap;
      [| rewrite !trustar_main_run, Hmap; reflexivity].
    destruct (splunk_settings s_conf) as [settings | e] eqn:Hset;
      [| rewrite !trustar_main_run, Hmap, Hset; reflexivity].
    rewrite (Hok rt srv s_conf _ iocs settings), (Hok rt srv' s_conf _ iocs settings);
      first [reflexivity | assumption | discriminate].
  - intros rt srv srv' conf server_.
    destruct (misp_main_shape rt conf server_)
      as [(pre & e & Hrun & Hpre)
         | (pre & iocs & username & password & base_url & Hrun & Hpre)];
      rewrite (Hrun srv), (Hrun srv'); cbn [snd]; [reflexivity |].
    rewrite (deliver_result rt srv _ iocs VNone VNone VNone
               (misp_auth_to_splunk rt srv username password base_url)).
    rewrite (deliver_result rt srv' _ iocs VNone VNone VNone
               (misp_auth_to_splunk rt srv' username password base_url)).
    reflexivity.
Qed.

Lemma splunk_failures_do_not_change_the_exit_status_witness :
  snd (Trustar2SplunkScript.main ref_runtime splunk_down sample_splunk_conf [ipv6_block])
  = Ok tt.
Proof.
  apply (proj2 (proj2 splunk_failures_do_not_change_the_exit_status) ref_runtime
           splunk_down sample_splunk_conf [ipv6_block]
           [[("value", VStr "2001:db8::/64"); ("ioc_type", VStr "cidr_block");
             ("updated", VInt 1700000000); ("source", VStr "RH-ISAC Vetted");
             ("tags", VStr EmptyString); ("cidr", VStr "2001:db8::/64/32")]]
           (VStr "https://splunk.example:8089", VStr "svc_intel", VStr "hunter2"));
    first [discriminate | reflexivity].
Defined.

(** ** From a MISP attribute to a Falcon indicator *)

(** X29.  What [misp_iocs_crowdstrike_falcon.py] submits for one MISP
    attribute whose type has an entry in [TYPE_MAP]: after
    [filter_results] and the first loop of [upload_iocs], one block with
    one indicator that carries the attribute's value unchanged, the
    mapped type, and as description the names of the attribute's tags
    other than the vetted marker, joined with "|" (the tags are a string
    by then, so the branch that joins with " | " is not the one taken).
    No message is printed for it. *)
Theorem falcon_indicator_of_a_misp_attribute
  (expiration_timestamp : string) (ioc : dict) (ts : list value) (ns : list string)
  (s cs_type : string) (v : value) :
  NoDup (keys ioc) ->
  lookup "Tag" ioc = Some (VList ts) ->
  tag_objects ts ns ->
  event_has_info ioc ->
  lookup "type" ioc = Some (VStr s) ->
  MispCrowdstrike.type_map s MispCrowdstrike.TYPE_MAP = Some cs_type ->
  lookup "value" ioc = Some v ->
  exists keep,
    MispCrowdstrike.filter_results [ioc] = Ok [keep] /\
    MispCrowdstrike.make_blocks expiration_timestamp [keep]
    = ([], Ok (1%nat, [[falcon_indicator expiration_timestamp cs_type
                          (String.concat "|" (kept_names ns)) v]])).
Proof.
  intros Hnd Htag Hobj Hinfo Hty Hmap Hv.
  destruct (keep_items_total ioc [] ts ns Hnd Htag Hobj Hinfo) as [keep Hkeep].
  exists keep; split.
  - unfold MispCrowdstrike.filter_results, MispCsv.filter_results; cbn [mapM].
    rewrite Hkeep; reflexivity.
  - pose proof (keep_items_tags ioc [] keep ts ns Hnd Htag Hobj Hkeep) as Htags.
    assert (Hkty : lookup "type" keep = Some (VStr s)).
    { rewrite (keep_items_plain ioc [] keep "type") by (cbn; tauto || assumption).
      rewrite Hty; reflexivity. }
    assert (Hkv : lookup "value" keep = Some v).
    { rewrite (keep_items_plain ioc [] keep "value") by (cbn; tauto || assumption).
      rewrite Hv; reflexivity. }
    unfold MispCrowdstrike.make_blocks; cbn [MispCrowdstrike.add_iocs].
    unfold MispCrowdstrike.add_ioc, MispCrowdstrike.ioc_dict.
    rewrite (getitem_lookup _ _ _ Hkty), (getitem_lookup _ _ _ Hkv),
      (getitem_lookup _ _ _ Htags).
    cbn [lift iobind MispCrowdstrike.mapped_type]; rewrite Hmap.
    reflexivity.
Qed.

Lemma falcon_indicator_of_a_misp_attribute_witness :
  exists keep,
    MispCrowdstrike.filter_results
      [[("value", VStr "198.51.100.7"); ("type", VStr "ip-dst");
        ("timestamp", VStr "1700000000");
        ("Tag", VList [VDict [("name", VStr "rhisac: vetted")];
                       VDict [("name", VStr "tlp:amber")];
                       VDict [("name", VStr "botnet")]]);
        ("Event", VDict [("info", VStr "OSINT report")])]] = Ok [keep] /\
    MispCrowdstrike.make_blocks sample_expiration [keep]
    = ([], Ok (1%nat, [[falcon_indicator sample_expiration "ipv4"
                          (String.concat "|"
                             (kept_names ["rhisac: vetted"; "tlp:amber"; "botnet"]))
                          (VStr "198.51.100.7")]])).
Proof.
  apply (falcon_indicator_of_a_misp_attribute sample_expiration
           [("value", VStr "198.51.100.7"); ("type", VStr "ip-dst");
            ("timestamp", VStr "1700000000");
            ("Tag", VList [VDict [("name", VStr "rhisac: vetted")];
                           VDict [("name", VStr "tlp:amber")];
                           VDict [("name", VStr "botnet")]]);
            ("Event", VDict [("info", VStr "OSINT report")])]
           [VDict [("name", VStr "rhisac: vetted")];
            VDict [("name", VStr "tlp:amber")];
            VDict [("name", VStr "botnet")]]
           ["rhisac: vetted"; "tlp:amber"; "botnet"] "ip-dst" "ipv4"
           (VStr "198.51.100.7")); try reflexivity.
  - repeat constructor; cbn; intuition discriminate.
  - repeat constructor; eexists; split; reflexivity.
  - intros x [= <-]; eexists; eexists; split; reflexivity.
Defined.

(** ** The file written by [get_24h_trustar2_iocs_csv.py] *)

Lemma observable_row (o : Trustar2CsvScript.Observable) (ns : list string) :
  Trustar2CsvScript.obl_tags o = VList (map VStr ns) ->
  trustar2_row_event ["value"; "indicatorType"; "firstSeen"; "lastSeen"; "tags"]
    (Trustar2CsvScript.to_dict o)
  = Trustar2Csv.WriteRow (observable_line o ns).
Proof.
  intros Htags.
  assert (Hl : lookup "tags" (Trustar2CsvScript.to_dict o) = Some (VList (map VStr ns))).
  { cbn; rewrite Htags; reflexivity. }
  unfold trustar2_row_event, Trustar2Csv.csv_row.
  rewrite (trustar2_tag_list _ _ ns Hl) by (right; reflexivity).
  unfold get, get_default; rewrite Hl.
  destruct ns as [| n ns]; [reflexivity |].
  change (truthy (VList (map VStr (n :: ns)))) with true.
  cbn [bind]; rewrite (join_strings "|" (n :: ns)); reflexivity.
Qed.

(** X30.  What [get_24h_trustar2_iocs_csv.py] does when the
    configuration is readable and the pages of the search hold at least
    one observable, every observable carrying its tags as a list of
    names: one search (the configured enclave, the two time bounds,
    pages of 1000), then a header with the tags column moved behind
    [lastSeen], then one line per observable in the order of the pages,
    none skipped, and the count of the observables.  The line of an
    observable without tags is one cell shorter than the header. *)
Theorem trustar2_csv_has_one_line_per_observable
  (ts : Trustar2CsvScript.TruStar) (names : Trustar2CsvScript.Observable -> list string) :
  Trustar2CsvScript.config_from_file ts = None ->
  concat (Trustar2CsvScript.search ts (last24h_query ts)) <> [] ->
  (forall o, In o (concat (Trustar2CsvScript.search ts (last24h_query ts))) ->
             Trustar2CsvScript.obl_tags o = VList (map VStr (names o))) ->
  Trustar2CsvScript.main ts
  = ([Trustar2CsvScript.PrintRetrievingBetween;
      Trustar2CsvScript.Search (last24h_query ts);
      written_line (map VStr ["value"; "indicatorType"; "firstSeen"; "lastSeen"; "tags"])]
     ++ map (fun o => written_line (observable_line o (names o)))
          (concat (Trustar2CsvScript.search ts (last24h_query ts)))
     ++ [Trustar2CsvScript.Csv
           (Trustar2Csv.PrintWrote
              (List.length (concat (Trustar2CsvScript.search ts (last24h_query ts)))))],
     Ok tt).
Proof.
  intros Hconf Hne Htags.
  unfold Trustar2CsvScript.main, Trustar2CsvScript.retrieve_last24h_obls.
  rewrite Hconf; fold (last24h_query ts).
  set (obls := concat (Trustar2CsvScript.search ts (last24h_query ts))) in *.
  destruct obls as [| o rest] eqn:Hobls; [contradiction Hne; reflexivity |].
  rewrite <- Hobls in *.
  assert (Hmap : map Trustar2CsvScript.to_dict obls
                 = Trustar2CsvScript.to_dict o :: map Trustar2CsvScript.to_dict rest)
    by (rewrite Hobls; reflexivity).
  cbn [emit ret iobind app]; rewrite Hmap at 1.
  unfold Trustar2Csv.obl_dict_to_csv; rewrite Hmap at 1; rewrite index_head.
  cbn [lift iobind app emit].
  change (Trustar2Csv.csv_header (Trustar2CsvScript.to_dict o))
    with ["value"; "indicatorType"; "firstSeen"; "lastSeen"; "tags"].
  rewrite trustar2_write_observables; cbn [iobind app map emit].
  rewrite !map_app, !map_map, length_map; cbn [map app].
  unfold written_line.
  rewrite (map_ext_in
             (fun x => Trustar2CsvScript.Csv
                         (trustar2_row_event
                            ["value"; "indicatorType"; "firstSeen"; "lastSeen"; "tags"]
                            (Trustar2CsvScript.to_dict x)))
             (fun x => Trustar2CsvScript.Csv
                         (Trustar2Csv.WriteRow (observable_line x (names x)))) obls).
  - reflexivity.
  - intros x Hx; rewrite (observable_row x (names x)); [reflexivity |].
    apply Htags, Hx.
Qed.

Lemma trustar2_csv_has_one_line_per_observable_witness :
  Trustar2CsvScript.main sample_trustar2
  = ([Trustar2CsvScript.PrintRetrievingBetween;
      Trustar2CsvScript.Search (last24h_query sample_trustar2);
      written_line (map VStr ["value"; "indicatorType"; "firstSeen"; "lastSeen"; "tags"])]
     ++ map (fun o => written_line
                        (observable_line o (string_names (Trustar2CsvScript.obl_tags o))))
          (concat (Trustar2CsvScript.search sample_trustar2 (last24h_query sample_trustar2)))
     ++ [Trustar2CsvScript.Csv
           (Trustar2Csv.PrintWrote
              (List.length
                 (concat (Trustar2CsvScript.search sample_trustar2
                            (last24h_query sample_trustar2)))))],
     Ok tt).
Proof.
  apply (trustar2_csv_has_one_line_per_observable sample_trustar2
           (fun o => string_names (Trustar2CsvScript.obl_tags o))).
  - reflexivity.
  - discriminate.
  - intros o [<- | [<- | [<- | []]]]; reflexivity.
Defined.
